(** * RESKit, [res/production/wind/wind.py]: [simulateTurbine]

    A shallow embedding of the wind-turbine simulation routine and the
    properties of it that the specification states.

    Modelling choices, fixed here once:
    - Python floats are rationals ([Q]); no NaN, no rounding.
    - Mutable Python objects (lists, dicts, numpy arrays, pandas series and
      frames) live in a heap and are passed by reference; immutable values
      (None, numbers, strings, tuples) are passed by value.
    - A call is a computation over a [world]: the module-level
      [TurbineLibrary], the heap, and a log of the calls made to the external
      collaborators (scipy's [splrep]/[splev] and
      [res.weather.windutil.projectByLogLaw]/[projectByPowerLaw]).
    - Exceptions are results; the world reached when the exception was
      raised is kept, as Python keeps it.
    - A view ([val[:,0]], [val.values], [val.iloc[:,0]], the series or frame
      built over [powerGen]) is a new object with the same numbers: the
      code stores through none of them.
    - The collaborators are not part of this source file: they are the
      fields of the class [Collaborators], total functions.  The real ones
      raise on some arguments (scipy's [splrep] on a curve of fewer than
      four points or out of order, [splev] on an empty batch), so nothing
      below concludes from them that a call returns: the properties are
      about a call that returned, about the failures before and around
      them, and about what a call leaves behind whatever its outcome. *)

From Stdlib Require Import QArith Qminmax ZArith String List Lia Lqa.
From stdpp Require Import base list strings gmap.

#[local] Set Warnings "-register-all".

(** ** Python values and objects *)

(** Addresses of heap objects. *)
Abbreviation loc := nat (only parsing).

Inductive key :=
| KInt (n : Z)
| KStr (s : string).

(** Immutable values, and references to heap objects. *)
Inductive pyval :=
| PyNone
| PyFloat (x : Q)
| PyInt (n : Z)
| PyStr (s : string)
| PyTuple (items : list pyval)
| PyRef (l : loc).

(** Heap objects.  An [Ndarray] keeps its shape and its data in row-major
    order, as numpy does; a [DataFrame] keeps its values the same way, with
    shape [(length index, length columns)]. *)
Inductive pyobj :=
| PyList (items : list pyval)
| PyDict (items : list (key * pyval))
| Ndarray (shape : list nat) (data : list Q)
| Series (index : list string) (name : option string) (values : list Q)
| DataFrame (index columns : list string) (values : list Q).

Inductive pytype :=
| TNoneType | TFloat | TInt | TStr | TTuple
| TList | TDict | TNdarray | TSeries | TDataFrame.

Inductive exn :=
| ResError (msg : string)
| TypeError
| IndexError
| KeyError
| ValueError
| AttributeError
| InvalidReference.

(** The calls made to the external collaborators, in order. *)
Inductive call :=
| CallSplrep (x y : list Q)
| CallSplev (x : list Q)
| CallProjectByLogLaw (windspeed measuredHeight targetHeight roughness : pyval)
| CallProjectByPowerLaw (windspeed measuredHeight targetHeight alpha : pyval).

Record world := World {
  TurbineLibrary : gmap string loc;
  heap : list pyobj;
  calls : list call
}.

(** ** The state-and-exception monad *)

Inductive result (A : Type) :=
| Ok (a : A)
| Raise (e : exn).
Arguments Ok {A} a.
Arguments Raise {A} e.

Definition M (A : Type) : Type := world -> result A * world.

Definition ret {A} (a : A) : M A := fun w => (Ok a, w).

Definition raise {A} (e : exn) : M A := fun w => (Raise e, w).

Definition bind {A B} (m : M A) (f : A -> M B) : M B :=
  fun w => match m w with
           | (Ok a, w') => f a w'
           | (Raise e, w') => (Raise e, w')
           end.

(** [try: m except e: handler] *)
Definition try_except {A} (m : M A) (caught : exn -> bool) (handler : M A) : M A :=
  fun w => match m w with
           | (Ok a, w') => (Ok a, w')
           | (Raise e, w') => if caught e then handler w' else (Raise e, w')
           end.

Declare Scope py_scope.
Delimit Scope py_scope with py.
Notation "x <- m ;; k" := (bind m (fun x => k))
  (at level 100, m at next level, right associativity) : py_scope.
Notation "m ;;; k" := (bind m (fun _ => k))
  (at level 100, right associativity) : py_scope.
Open Scope py_scope.

Definition get_heap : M (list pyobj) := fun w => (Ok (heap w), w).

Definition load (l : loc) : M pyobj :=
  fun w => match heap w !! l with
           | Some o => (Ok o, w)
           | None => (Raise InvalidReference, w)
           end.

(** A new object gets the next free address. *)
Definition alloc (o : pyobj) : M pyval :=
  fun w => (Ok (PyRef (length (heap w))),
            World (TurbineLibrary w) (heap w ++ [o]) (calls w)).

(** In-place update of an object. *)
Definition store (l : loc) (o : pyobj) : M unit :=
  fun w => (Ok tt, World (TurbineLibrary w) (<[l := o]> (heap w)) (calls w)).

Definition record (c : call) : M unit :=
  fun w => (Ok tt, World (TurbineLibrary w) (heap w) (calls w ++ [c])).

(** [TurbineLibrary[name]] *)
Definition library_getitem (name : string) : M pyval :=
  fun w => match TurbineLibrary w !! name with
           | Some l => (Ok (PyRef l), w)
           | None => (Raise KeyError, w)
           end.

(** [type(v)]; a reference outside the heap has no type. *)
Definition type_of (h : list pyobj) (v : pyval) : option pytype :=
  match v with
  | PyNone => Some TNoneType
  | PyFloat _ => Some TFloat
  | PyInt _ => Some TInt
  | PyStr _ => Some TStr
  | PyTuple _ => Some TTuple
  | PyRef l =>
      match h !! l with
      | Some (PyList _) => Some TList
      | Some (PyDict _) => Some TDict
      | Some (Ndarray _ _) => Some TNdarray
      | Some (Series _ _ _) => Some TSeries
      | Some (DataFrame _ _ _) => Some TDataFrame
      | None => None
      end
  end.

(** ** Numbers *)

Definition Qltb (x y : Q) : bool :=
  match (x ?= y)%Q with Lt => true | _ => false end.

Definition Qsum (l : list Q) : Q := fold_right Qplus 0%Q l.

Definition Qmean (l : list Q) : Q := (Qsum l / inject_Z (Z.of_nat (length l)))%Q.

(** [a.max()] and [a.min()]: [None] stands for the [ValueError] numpy raises
    on an empty array. *)
Definition Qlist_max (l : list Q) : option Q :=
  match l with
  | [] => None
  | x :: l' => Some (fold_left Qmax l' x)
  end.

Definition Qlist_min (l : list Q) : option Q :=
  match l with
  | [] => None
  | x :: l' => Some (fold_left Qmin l' x)
  end.

(** ** numpy and pandas primitives *)

(** A Python number as a float. *)
Definition num_of (v : pyval) : option Q :=
  match v with
  | PyFloat x => Some x
  | PyInt n => Some (inject_Z n)
  | _ => None
  end.

Fixpoint nums_of (items : list pyval) : option (list Q) :=
  match items with
  | [] => Some []
  | v :: items' =>
      match num_of v, nums_of items' with
      | Some x, Some xs => Some (x :: xs)
      | _, _ => None
      end
  end.

(** A one-dimensional numeric sequence: a tuple or list of numbers, a
    one-dimensional array, or the values of a series. *)
Definition row_of (h : list pyobj) (v : pyval) : option (list Q) :=
  match v with
  | PyTuple items => nums_of items
  | PyRef l =>
      match h !! l with
      | Some (PyList items) => nums_of items
      | Some (Ndarray [_] data) => Some data
      | Some (Series _ _ values) => Some values
      | _ => None
      end
  | _ => None
  end.

Fixpoint rows_of (h : list pyobj) (items : list pyval) : option (list (list Q)) :=
  match items with
  | [] => Some []
  | v :: items' =>
      match row_of h v, rows_of h items' with
      | Some r, Some rs => Some (r :: rs)
      | _, _ => None
      end
  end.

Definition all_length {A} (n : nat) (rows : list (list A)) : bool :=
  forallb (fun r => Nat.eqb (length r) n) rows.

(** [np.array(items)] for a list of numbers (one-dimensional) or a list of
    equally long numeric sequences (two-dimensional, one row per item).
    Content that numpy would not hold as a float array of one or two
    dimensions is outside the model: the call fails with [ValueError] where
    the array is built. *)
Definition np_array (h : list pyobj) (items : list pyval) : option (list nat * list Q) :=
  match nums_of items with
  | Some xs => Some ([length items], xs)
  | None =>
      match rows_of h items with
      | Some (r :: rs) =>
          if all_length (length r) rs
          then Some ([length items; length r], concat (r :: rs))
          else None
      | _ => None
      end
  end.

(** [np.column_stack(items)]: every item is a one-dimensional sequence and
    becomes one column; the columns must be equally long.  Same limit of the
    model as for [np_array]. *)
Definition np_column_stack (h : list pyobj) (items : list pyval) : option (list nat * list Q) :=
  match rows_of h items with
  | Some (c :: cs) =>
      if all_length (length c) cs
      then Some ([length c; length items],
                 flat_map (fun i => map (fun col => nth i col 0%Q) (c :: cs))
                          (seq 0 (length c)))
      else None
  | _ => None
  end.

(** [a[:, j]] of a two-dimensional array with [k] columns and [m] rows. *)
Definition column (m k j : nat) (data : list Q) : list Q :=
  map (fun i => nth (i * k + j) data 0%Q) (seq 0 m).

(** [a.mean(axis=0)]: the mean over the first axis, one value per position
    along the remaining axes. *)
Definition mean_axis0 (shape : list nat) (data : list Q) : list Q :=
  match shape with
  | [] => []
  | m :: rest =>
      let k := fold_right Nat.mul 1 rest in
      map (fun j => Qmean (column m k j data)) (seq 0 k)
  end.

(** ** The external collaborators

    [splrep] and [splev] are scipy's; [splev] is applied elementwise.  The
    two projection functions are [res.weather.windutil]'s: they read their
    arguments from the heap and return a new object.  All four are total
    here; the exceptions the real ones raise are outside the model. *)
Class Collaborators := {
  tck : Type;
  splrep : list Q -> list Q -> tck;
  splev : Q -> tck -> Q;
  projectByLogLaw : list pyobj -> pyval -> pyval -> pyval -> pyval -> pyobj;
  projectByPowerLaw : list pyobj -> pyval -> pyval -> pyval -> pyval -> pyobj
}.

Section Simulation.
Context `{Collaborators}.

(** ** [simulateTurbine], lines 83-107: the input is made a numpy or pandas
    value *)

(** [v[0]], the value thrown away: only the exception matters. *)
Definition subscript0 (v : pyval) : M unit :=
  match v with
  | PyNone | PyFloat _ | PyInt _ => raise TypeError
  | PyStr s => match s with EmptyString => raise IndexError | _ => ret tt end
  | PyTuple items => match items with [] => raise IndexError | _ => ret tt end
  | PyRef l =>
      o <- load l ;;
      match o with
      | PyList items => match items with [] => raise IndexError | _ => ret tt end
      | PyDict items =>
          if existsb (fun kv => match fst kv with KInt 0 => true | _ => false end) items
          then ret tt else raise KeyError
      | Ndarray shape _ =>
          match shape with
          | [] | 0%nat :: _ => raise IndexError
          | _ => ret tt
          end
      | Series index _ _ => match index with [] => raise IndexError | _ => ret tt end
      | DataFrame _ _ _ => raise KeyError
      end
  end.

Definition is_TypeError (e : exn) : bool :=
  match e with TypeError => true | _ => false end.

(** The result is [(windspeed, isNumpy, isSeries, N)]; [isSeries] is not
    bound on the numpy paths and is never read there. *)
Definition normalize (windspeed : pyval) : M (pyval * bool * bool * nat) :=
  match windspeed with
  | PyRef l =>
      o <- load l ;;
      match o with
      | DataFrame _ columns _ => ret (windspeed, false, false, length columns)
      | Series _ _ _ => ret (windspeed, false, true, 1%nat)
      | Ndarray shape _ =>
          ret (windspeed, true, false,
               match shape with _ :: n :: _ => n | _ => 1%nat end)
      | PyList items =>
          wN <- try_except
            (first <- match items with
                      | [] => raise IndexError
                      | v :: _ => ret v
                      end ;;
             subscript0 first ;;;
             h <- get_heap ;;
             match np_column_stack h items with
             | Some (shape, data) =>
                 windspeed' <- alloc (Ndarray shape data) ;;
                 ret (windspeed', nth 1 shape 0%nat)
             | None => raise ValueError
             end)
            is_TypeError
            (h <- get_heap ;;
             match np_array h items with
             | Some (shape, data) =>
                 windspeed' <- alloc (Ndarray shape data) ;;
                 ret (windspeed', 1%nat)
             | None => raise ValueError
             end) ;;
          ret (fst wN, true, false, snd wN)
      | PyDict _ => raise (ResError "Could not understand Input")
      end
  | _ => raise (ResError "Could not understand Input")
  end.

(** ** Lines 111-114: the performance curve *)

Definition setPerformance (performance : pyval) : M pyval :=
  match performance with
  | PyStr name => library_getitem name
  | PyRef l =>
      o <- load l ;;
      match o with
      | PyList items =>
          h <- get_heap ;;
          match np_array h items with
          | Some (shape, data) => alloc (Ndarray shape data)
          | None => raise ValueError
          end
      | _ => ret performance
      end
  | _ => ret performance
  end.

(** ** Lines 119-163: projection to hub height *)

Definition is_None (v : pyval) : bool :=
  match v with PyNone => true | _ => false end.

(** [windspeed.columns] *)
Definition columns_of (windspeed : pyval) : M (list string) :=
  match windspeed with
  | PyRef l =>
      o <- load l ;;
      match o with
      | DataFrame _ columns _ => ret columns
      | _ => raise AttributeError
      end
  | _ => raise AttributeError
  end.

(** [windspeed.index] *)
Definition index_of (windspeed : pyval) : M (list string) :=
  match windspeed with
  | PyRef l =>
      o <- load l ;;
      match o with
      | DataFrame index _ _ | Series index _ _ => ret index
      | _ => raise AttributeError
      end
  | _ => raise AttributeError
  end.

Definition bad_length (name : string) : exn :=
  ResError (name +:+ " does not have an appropriate length").
Definition bad_shape (name : string) : exn :=
  ResError (name +:+ " does not have an appropriate shape").
Definition bad_labels (name : string) : exn :=
  ResError (name +:+ " indexes do not match windspeed columns").
Definition bad_type (name : string) : exn :=
  ResError (name +:+ " is not appropriate. (must be a numeric type, or a one-dimensionsal set of numeric types (one for each windspeed time series)").

(** Lines 140-143, after the shape of a pandas value was accepted: [val]
    has the labels [index] and the data [values]. *)
Definition fixVal_pandas (isNumpy : bool) (windspeed : pyval)
    (val : pyval) (index : list string) (values : list Q) (name : string) : M pyval :=
  if isNumpy then alloc (Ndarray [length index] values)
  else
    columns <- columns_of windspeed ;;
    if bool_decide (index = columns) then ret val
    else raise (bad_labels name).

(** [fixVal], lines 125-147; [N], [isNumpy] and [windspeed] are the
    variables of the enclosing call. *)
Definition fixVal (N : nat) (isNumpy : bool) (windspeed : pyval)
    (val : pyval) (name : string) : M pyval :=
  match val with
  | PyFloat x => ret (PyFloat x)
  | PyInt n => ret (PyFloat (inject_Z n))
  | PyNone => ret PyNone
  | PyStr _ | PyTuple _ => raise (bad_type name)
  | PyRef l =>
      o <- load l ;;
      match o with
      | PyList items =>
          if (length items =? N)%nat then
            h <- get_heap ;;
            match np_array h items with
            | Some (shape, data) => alloc (Ndarray shape data)
            | None => raise ValueError
            end
          else raise (bad_length name)
      | Ndarray shape data =>
          if bool_decide (shape = [N]) then ret val
          else if bool_decide (shape = [N; 1%nat]) then alloc (Ndarray [N] data)
          else raise (bad_shape name)
      | Series index _ values =>
          if (length index =? N)%nat
          then fixVal_pandas isNumpy windspeed val index values name
          else raise (bad_shape name)
      | DataFrame index columns values =>
          if (length index =? N)%nat && (length columns =? 1)%nat then
            val' <- alloc (Series index (head columns) values) ;;
            fixVal_pandas isNumpy windspeed val' index values name
          else raise (bad_shape name)
      | PyDict _ => raise (bad_type name)
      end
  end.

Definition no_heights : exn :=
  ResError "When projecting, both a measuredHeight and hubHeight must be provided".
Definition no_law : exn :=
  ResError "When projecting, either roughness or alpha must be given".

(** Lines 150-153: the four parameters, in this order. *)
Definition fixVals (N : nat) (isNumpy : bool) (windspeed : pyval)
    (measuredHeight hubHeight roughness alpha : pyval)
    : M (pyval * pyval * pyval * pyval) :=
  measuredHeight' <- fixVal N isNumpy windspeed measuredHeight "measuredHeight" ;;
  hubHeight' <- fixVal N isNumpy windspeed hubHeight "hubHeight" ;;
  roughness' <- fixVal N isNumpy windspeed roughness "roughness" ;;
  alpha' <- fixVal N isNumpy windspeed alpha "alpha" ;;
  ret (measuredHeight', hubHeight', roughness', alpha').

(** Lines 156-163: one projection law, roughness first. *)
Definition doProjection (windspeed measuredHeight hubHeight roughness alpha : pyval)
    : M pyval :=
  if negb (is_None roughness) then
    h <- get_heap ;;
    record (CallProjectByLogLaw windspeed measuredHeight hubHeight roughness) ;;;
    alloc (projectByLogLaw h windspeed measuredHeight hubHeight roughness)
  else if negb (is_None alpha) then
    h <- get_heap ;;
    record (CallProjectByPowerLaw windspeed measuredHeight hubHeight alpha) ;;;
    alloc (projectByPowerLaw h windspeed measuredHeight hubHeight alpha)
  else raise no_law.

Definition project (N : nat) (isNumpy : bool)
    (windspeed measuredHeight roughness alpha hubHeight : pyval) : M pyval :=
  if is_None measuredHeight && is_None hubHeight && is_None roughness && is_None alpha
  then ret windspeed
  else
    if is_None measuredHeight || is_None hubHeight then raise no_heights
    else
      fixed <- fixVals N isNumpy windspeed measuredHeight hubHeight roughness alpha ;;
      let '(measuredHeight', hubHeight', roughness', alpha') := fixed in
      doProjection windspeed measuredHeight' hubHeight' roughness' alpha'.

(** ** Lines 167-185: the power curve, and the clean-up *)

(** [performance[:,0]] and [performance[:,1]]: two columns of a
    two-dimensional array.  Anything else makes the subscript, or the
    spline fit after it, fail. *)
Definition performance_columns (performance : pyval) : M (list Q * list Q) :=
  match performance with
  | PyRef l =>
      o <- load l ;;
      match o with
      | Ndarray [m; k] data =>
          if (2 <=? k)%nat then ret (column m k 0 data, column m k 1 data)
          else raise IndexError
      | Ndarray [] _ | Ndarray [_] _ => raise IndexError
      | Ndarray _ _ => raise ValueError
      | _ => raise TypeError
      end
  | _ => raise TypeError
  end.

(** The numbers of the wind-speed batch with their shape: [windspeed] itself
    on the numpy path, [windspeed.values] on the pandas path. *)
Definition values_of (isNumpy : bool) (windspeed : pyval) : M (list nat * list Q) :=
  match windspeed with
  | PyRef l =>
      o <- load l ;;
      if isNumpy then
        match o with
        | Ndarray shape data => ret (shape, data)
        | _ => raise TypeError
        end
      else
        match o with
        | Series index _ values => ret ([length index], values)
        | DataFrame index columns values => ret ([length index; length columns], values)
        | _ => raise AttributeError
        end
  | _ => if isNumpy then raise TypeError else raise AttributeError
  end.

(** The result of numpy arithmetic: a new array, or a numpy scalar when there
    is no axis. *)
Definition new_array (shape : list nat) (data : list Q) : M pyval :=
  match shape with
  | [] => ret (PyFloat (hd 0%Q data))
  | _ => alloc (Ndarray shape data)
  end.

(** [powerGen[mask] = x], in place. *)
Definition masked_assign (powerGen : pyval) (mask : list bool) (x : Q) : M unit :=
  match powerGen with
  | PyRef p =>
      o <- load p ;;
      match o with
      | Ndarray shape data =>
          if (length mask =? length data)%nat
          then store p (Ndarray shape (zip_with (fun (b : bool) v => if b then x else v) mask data))
          else raise IndexError
      | _ => raise TypeError
      end
  | _ => raise TypeError
  end.

(** [powerGen < x] and [powerGen > x], elementwise. *)
Definition compare_array (powerGen : pyval) (test : Q -> bool) : M (list bool) :=
  match powerGen with
  | PyRef p =>
      o <- load p ;;
      match o with
      | Ndarray _ data => ret (map test data)
      | _ => raise TypeError
      end
  | PyFloat x => ret [test x]
  | _ => raise TypeError
  end.

Definition array_max (a : list Q) : M Q :=
  match Qlist_max a with Some x => ret x | None => raise ValueError end.
Definition array_min (a : list Q) : M Q :=
  match Qlist_min a with Some x => ret x | None => raise ValueError end.

(** Lines 178-185, the "just in case" clean-up: four masked assignments on
    [powerGen], in this order. *)
Definition cleanUp (isNumpy : bool) (windspeed powerGen : pyval)
    (maxPower cutin cutout : Q) : M unit :=
  negative <- compare_array powerGen (fun v => Qltb v 0%Q) ;;
  masked_assign powerGen negative 0%Q ;;;
  above <- compare_array powerGen (fun v => Qltb maxPower v) ;;
  masked_assign powerGen above maxPower ;;;
  ws_in <- values_of isNumpy windspeed ;;
  masked_assign powerGen (map (fun v => Qltb v cutin) (snd ws_in)) 0%Q ;;;
  ws_out <- values_of isNumpy windspeed ;;
  masked_assign powerGen (map (fun v => Qltb cutout v) (snd ws_out)) 0%Q.

(** Lines 167-185; the result is [(powerGen, maxPower)]. *)
Definition mapPower (isNumpy : bool) (windspeed performance : pyval) (loss : Q)
    : M (pyval * Q) :=
  xy <- performance_columns performance ;;
  record (CallSplrep (fst xy) (snd xy)) ;;;
  let powerCurve := splrep (fst xy) (snd xy) in
  ws <- values_of isNumpy windspeed ;;
  record (CallSplev (snd ws)) ;;;
  powerGen <- new_array (fst ws)
                (map (fun v => (splev v powerCurve * (1 - loss))%Q) (snd ws)) ;;
  maxPower <- array_max (snd xy) ;;
  cutin <- array_min (fst xy) ;;
  cutout <- array_max (fst xy) ;;
  cleanUp isNumpy windspeed powerGen maxPower cutin cutout ;;;
  ret (powerGen, maxPower).

(** ** Lines 189-197: the outputs *)

Definition array_of (powerGen : pyval) : M (list nat * list Q) :=
  match powerGen with
  | PyRef p =>
      o <- load p ;;
      match o with
      | Ndarray shape data => ret (shape, data)
      | _ => raise TypeError
      end
  | _ => raise TypeError
  end.

(** [pd.Series(powerGen, index=windspeed.index, name='production')] and
    [pd.DataFrame(powerGen, columns=windspeed.columns, index=windspeed.index)];
    pandas refuses data that does not fit the labels. *)
Definition wrap (isSeries : bool) (windspeed powerGen : pyval) : M pyval :=
  a <- array_of powerGen ;;
  if isSeries then
    index <- index_of windspeed ;;
    if bool_decide (fst a = [length index])
    then alloc (Series index (Some "production"%string) (snd a))
    else raise ValueError
  else
    columns <- columns_of windspeed ;;
    index <- index_of windspeed ;;
    if bool_decide (fst a = [length index; length columns])
    then alloc (DataFrame index columns (snd a))
    else raise ValueError.

(** [powerGen.mean(axis=0)/maxPower] *)
Definition capFactor_of (powerGen : pyval) (maxPower : Q) : M pyval :=
  match powerGen with
  | PyRef p =>
      o <- load p ;;
      match o with
      | Ndarray [] _ => raise ValueError
      | Ndarray [_] data => ret (PyFloat (Qmean data / maxPower))
      | Ndarray (m :: rest) data =>
          alloc (Ndarray rest (map (fun x => (x / maxPower)%Q) (mean_axis0 (m :: rest) data)))
      | Series _ _ values => ret (PyFloat (Qmean values / maxPower))
      | DataFrame index columns values =>
          alloc (Series columns None
                   (map (fun x => (x / maxPower)%Q)
                        (mean_axis0 [length index; length columns] values)))
      | _ => raise AttributeError
      end
  | _ => raise AttributeError
  end.

(** The result is [TurbinePerformance(production, capacityFactor)]. *)
Definition makeOutputs (isNumpy isSeries : bool) (windspeed powerGen : pyval)
    (maxPower : Q) : M (pyval * pyval) :=
  powerGen' <- (if isNumpy then ret powerGen else wrap isSeries windspeed powerGen) ;;
  capFactor <- capFactor_of powerGen' maxPower ;;
  ret (powerGen', capFactor).

(** ** The whole call *)

(** Lines 83-163: the wind speeds at hub height and the resolved curve; the
    result is [(windspeed, performance, isNumpy, isSeries, N)]. *)
Definition toHubHeight (windspeed performance measuredHeight roughness alpha hubHeight : pyval)
    : M (pyval * pyval * bool * bool * nat) :=
  n <- normalize windspeed ;;
  let '(windspeed1, isNumpy, isSeries, N) := n in
  performance' <- setPerformance performance ;;
  windspeed2 <- project N isNumpy windspeed1 measuredHeight roughness alpha hubHeight ;;
  ret (windspeed2, performance', isNumpy, isSeries, N).

Definition simulateTurbine (windspeed performance measuredHeight roughness alpha hubHeight : pyval)
    (loss : Q) : M (pyval * pyval) :=
  hub <- toHubHeight windspeed performance measuredHeight roughness alpha hubHeight ;;
  let '(windspeed', performance', isNumpy, isSeries, N) := hub in
  pm <- mapPower isNumpy windspeed' performance' loss ;;
  makeOutputs isNumpy isSeries windspeed' (fst pm) (snd pm).

(** Lines 199-201: [singleTurbine] prints a note and forwards its
    arguments. *)
Definition singleTurbine := simulateTurbine.

End Simulation.

(** ** The module's state after import: lines 11-28 *)

Definition Enercon_E115 : list Q :=
  [0; 0;  1; 0;  2; 0;  3; 45;  4; 122;  5; 326;  6; 632;  7; 1053;
   8; 1524;  9; 2123;  10; 2569;  11; 2938;  12; 3000;  13; 3000;
   24; 3000;  25; 3000]%Q.

Definition module_world : world :=
  {| TurbineLibrary := {[ "Enercon_E115"%string := 0%nat ]};
     heap := [Ndarray [16; 2]%nat Enercon_E115];
     calls := [] |}.


(** * What the properties are stated with *)

(** ** Relations between the world before and after a computation *)

Definition respects {A} (R : relation world) (m : M A) : Prop :=
  forall w r w', m w = (r, w') -> R w w'.

(** Nothing changed. *)
Definition unchanged : relation world := fun w w' => w' = w.

(** The catalog is the same and the objects below address [n] are as they
    were, provided [n] was within the heap. *)
Definition frame_rel (n : nat) : relation world := fun w w' =>
  n <= length (heap w) ->
  TurbineLibrary w' = TurbineLibrary w /\
  n <= length (heap w') /\
  forall l, l < n -> heap w' !! l = heap w !! l.

(** The calls made in between all satisfy [P]. *)
Definition logged (P : call -> Prop) : relation world := fun w w' =>
  exists cs, calls w' = calls w ++ cs /\ Forall P cs.

(** ** The failures of a computation *)

(** Every exception the computation can end in satisfies [P]. *)
Definition raises_only {A} (P : exn -> Prop) (m : M A) : Prop :=
  forall w e w', m w = (Raise e, w') -> P e.

(** The four errors with which the broadcaster refuses the parameter
    [name] all satisfy [P]. *)
Definition rejects_with (P : exn -> Prop) (name : string) : Prop :=
  P (bad_length name) /\ P (bad_shape name) /\ P (bad_labels name) /\ P (bad_type name).

(** The failure of the input check, lines 106-107. *)
Definition not_understood : exn := ResError "Could not understand Input".

Definition is_spline_call (c : call) : Prop :=
  match c with
  | CallSplrep _ _ | CallSplev _ => True
  | _ => False
  end.

Definition is_projection_call (c : call) : Prop :=
  match c with
  | CallProjectByLogLaw _ _ _ _ | CallProjectByPowerLaw _ _ _ _ => True
  | _ => False
  end.

Definition no_call (c : call) : Prop := False.

(** ** The clean-up in closed form *)

(** The value the clean-up leaves at a position where the hub-height wind
    speed is [v] and the interpolated power, after losses, is [raw]. *)
Definition clean (maxPower cutin cutout : Q) (v raw : Q) : Q :=
  let floored := if Qltb raw 0%Q then 0%Q else raw in
  let capped := if Qltb maxPower floored then maxPower else floored in
  let after_cutin := if Qltb v cutin then 0%Q else capped in
  if Qltb cutout v then 0%Q else after_cutin.

Definition set_heap (w : world) (h : list pyobj) : world :=
  World (TurbineLibrary w) h (calls w).

(** The world after [powerGen], at address [p], was overwritten with the
    values [f v] for the wind speeds [v] of [hub]. *)
Definition with_array (w : world) (p : loc) (shape : list nat) (f : Q -> Q) (hub : list Q) : world :=
  set_heap w (<[p := Ndarray shape (map f hub)]> (heap w)).

(** ** Reading a result *)

(** The numbers of a returned production, in storage order. *)
Definition production_values (h : list pyobj) (production : pyval) : option (list Q) :=
  match production with
  | PyRef p =>
      match h !! p with
      | Some (Ndarray _ data) => Some data
      | Some (Series _ _ values) => Some values
      | Some (DataFrame _ _ values) => Some values
      | _ => None
      end
  | _ => None
  end.

(** The series of a returned production, each over time: the array itself
    when it has one axis, its columns otherwise. *)
Definition production_series (h : list pyobj) (production : pyval) : option (list (list Q)) :=
  match production with
  | PyRef p =>
      match h !! p with
      | Some (Ndarray [_] data) => Some [data]
      | Some (Ndarray (m :: rest) data) =>
          let k := fold_right Nat.mul 1 rest in
          Some (map (fun j => column m k j data) (seq 0 k))
      | Some (Series _ _ values) => Some [values]
      | Some (DataFrame index columns values) =>
          Some (map (fun j => column (length index) (length columns) j values)
                    (seq 0 (length columns)))
      | _ => None
      end
  | _ => None
  end.

(** The capacity factors of a result: one number, or one per series. *)
Definition capacity_factors (h : list pyobj) (capFactor : pyval) : option (list Q) :=
  match capFactor with
  | PyFloat x => Some [x]
  | PyRef l =>
      match h !! l with
      | Some (Ndarray _ data) => Some data
      | Some (Series _ _ values) => Some values
      | _ => None
      end
  | _ => None
  end.

(** ** The caller's convention: labels and dimensions *)

Inductive layout :=
| Plain (shape : list nat)
| LabeledSeries (index : list string)
| LabeledTable (index columns : list string).

Definition layout_of (o : pyobj) : option layout :=
  match o with
  | Ndarray shape _ => Some (Plain shape)
  | Series index _ _ => Some (LabeledSeries index)
  | DataFrame index columns _ => Some (LabeledTable index columns)
  | _ => None
  end.

(** The convention of a wind-speed input, after sections 3 and 4.1 of the
    specification: a flat sequence of [T] numbers is one unlabeled series of
    one dimension; [N] nested sequences of [T] numbers each are an unlabeled
    table of shape [(T, N)]; an array keeps its shape; a series and a frame
    keep their labels. *)
Definition input_layout (h : list pyobj) (windspeed : pyval) : option layout :=
  match windspeed with
  | PyRef l =>
      match h !! l with
      | Some (PyList items) =>
          match nums_of items with
          | Some _ => Some (Plain [length items])
          | None =>
              match rows_of h items with
              | Some (c :: _) => Some (Plain [length c; length items])
              | _ => None
              end
          end
      | Some o => layout_of o
      | None => None
      end
  | _ => None
  end.

(** A projection function that returns, for a wind-speed array, series or
    frame, an object of the same kind with the same shape and labels
    (specification, sections 4.3 and 6). *)
Definition keeps_layout
    (project : list pyobj -> pyval -> pyval -> pyval -> pyval -> pyobj) : Prop :=
  forall h l o mh hh p,
    h !! l = Some o ->
    match o with
    | Ndarray shape _ => exists data, project h (PyRef l) mh hh p = Ndarray shape data
    | Series index name _ =>
        exists values, project h (PyRef l) mh hh p = Series index name values
    | DataFrame index columns _ =>
        exists values, project h (PyRef l) mh hh p = DataFrame index columns values
    | _ => True
    end.

(** ** The wind speeds on the way to hub height *)

(** What [normalize] returns is an array, a series or a frame, as the flags
    say, with the layout of the input. *)
Definition normalized (h : list pyobj) (windspeed : pyval) (isNumpy isSeries : bool)
    (lay : option layout) : Prop :=
  exists l o,
    windspeed = PyRef l /\ h !! l = Some o /\ layout_of o = lay /\
    match o with
    | Ndarray _ _ => isNumpy = true
    | Series _ _ _ => isNumpy = false /\ isSeries = true
    | DataFrame _ _ _ => isNumpy = false /\ isSeries = false
    | _ => False
    end.

(** No projection parameter was supplied. *)
Definition all_None (mh r a hh : pyval) : bool :=
  is_None mh && is_None hh && is_None r && is_None a.


(** The world after one more object and one more call. *)
Definition projected (w : world) (o : pyobj) (c : call) : world :=
  World (TurbineLibrary w) (heap w ++ [o]) (calls w ++ [c]).

(** ** A sorted curve *)

(** A curve as the caller writes it, a list of [(windspeed, power)] tuples. *)
Definition curve_items (pairs : list (Q * Q)) : list pyval :=
  map (fun p => PyTuple [PyFloat (fst p); PyFloat (snd p)]) pairs.


Fixpoint ascending (x : list Q) : bool :=
  match x with
  | [] => true
  | a :: x' =>
      match x' with
      | [] => true
      | b :: _ => Qle_bool a b && ascending x'
      end
  end.

(** ** The recognized kinds of wind-speed input

    After section 4.1 of the specification: (a) a one-dimensional numeric
    sequence, (b) a two-dimensional numeric table, (c) a labeled series,
    (d) a labeled table, (e) a nested sequence of numeric sequences. *)
Definition recognized_kind (h : list pyobj) (windspeed : pyval) : bool :=
  match windspeed with
  | PyRef l =>
      match h !! l with
      | Some (PyList items) =>
          match nums_of items, rows_of h items with
          | Some _, _ => true
          | None, Some _ => true
          | None, None => false
          end
      | Some (Ndarray [_] _) | Some (Ndarray [_; _] _) => true
      | Some (Series _ _ _) | Some (DataFrame _ _ _) => true
      | _ => false
      end
  | _ => false
  end.

Definition is_ResError (e : exn) : bool :=
  match e with ResError _ => true | _ => false end.

(** ** Collaborators to run the model with

    A piecewise-linear interpolant stands in for the cubic spline and a
    linear wind shear for the two profile laws; they only serve to evaluate
    the model on concrete inputs. *)

Fixpoint interpolate (knots : list (Q * Q)) (v : Q) : Q :=
  match knots with
  | [] => 0%Q
  | (x0, y0) :: rest =>
      match rest with
      | [] => y0
      | (x1, y1) :: _ =>
          if Qltb v x1
          then (y0 + (y1 - y0) * (v - x0) / (x1 - x0))%Q
          else interpolate rest v
      end
  end.

Definition shear (measuredHeight targetHeight : pyval) : Q :=
  match measuredHeight, targetHeight with
  | PyFloat m, PyFloat t => (t / m)%Q
  | _, _ => 1%Q
  end.

Definition scale (factor : Q) (o : pyobj) : pyobj :=
  match o with
  | Ndarray shape data => Ndarray shape (map (Qmult factor) data)
  | Series index name values => Series index name (map (Qmult factor) values)
  | DataFrame index columns values => DataFrame index columns (map (Qmult factor) values)
  | _ => o
  end.

Definition linear_projection (h : list pyobj)
    (windspeed measuredHeight targetHeight parameter : pyval) : pyobj :=
  match windspeed with
  | PyRef l =>
      match h !! l with
      | Some o => scale (shear measuredHeight targetHeight) o
      | None => PyList []
      end
  | _ => PyList []
  end.

Definition linear_collaborators : Collaborators := {|
  tck := list (Q * Q);
  splrep := fun x y => zip x y;
  splev := fun v knots => interpolate knots v;
  projectByLogLaw := linear_projection;
  projectByPowerLaw := linear_projection
|}.

(** ** Worlds and calls to evaluate *)

(** The module after import, with the caller's objects behind the catalog
    entry: a flat list of wind speeds at address 1. *)
Definition flat_world : world :=
  {| TurbineLibrary := TurbineLibrary module_world;
     heap := heap module_world ++ [PyList [PyFloat 1; PyFloat 8; PyFloat 12; PyFloat 30]];
     calls := [] |}.

(** [simulateTurbine([1., 8., 12., 30.], loss=0)] *)
Definition flat_call : result (pyval * pyval) * world :=
  @simulateTurbine linear_collaborators
    (PyRef 1) (PyStr "Enercon_E115") PyNone PyNone PyNone PyNone 0%Q flat_world.

(** The same call up to the wind speeds at hub height. *)
Definition flat_hub : result (pyval * pyval * bool * bool * nat) * world :=
  @toHubHeight linear_collaborators
    (PyRef 1) (PyStr "Enercon_E115") PyNone PyNone PyNone PyNone flat_world.

Definition flat_normalized : result (pyval * bool * bool * nat) * world :=
  @normalize (PyRef 1) flat_world.

Definition flat_resolved : result pyval * world :=
  @setPerformance (PyStr "Enercon_E115") (snd flat_normalized).

(** [measuredHeight=10, hubHeight=100, roughness=0.1, alpha=0.14] through
    the broadcaster, for the flat list. *)
Definition flat_fixed : result (pyval * pyval * pyval * pyval) * world :=
  @fixVals 1 true (PyRef 2) (PyInt 10) (PyInt 100) (PyFloat (1 # 10)) (PyFloat (14 # 100))
    (snd flat_resolved).



(** A frame of two time steps and three series at address 1. *)
Definition frame_world : world :=
  {| TurbineLibrary := TurbineLibrary module_world;
     heap := heap module_world
             ++ [DataFrame ["t0"; "t1"] ["a"; "b"; "c"]
                   [1; 8; 12; 20; 5; 6]%Q];
     calls := [] |}.

(** [simulateTurbine(frame, measuredHeight=10., hubHeight=20., alpha=0.14)] *)
Definition frame_call : result (pyval * pyval) * world :=
  @simulateTurbine linear_collaborators
    (PyRef 1) (PyStr "Enercon_E115") (PyFloat 10) PyNone (PyFloat (14 # 100)) (PyFloat 20)
    (8 # 100)%Q frame_world.

(** A list that holds one dictionary, [[{}]], at address 2. *)
Definition dict_world : world :=
  {| TurbineLibrary := TurbineLibrary module_world;
     heap := heap module_world ++ [PyDict []; PyList [PyRef 1]];
     calls := [] |}.

(** A curve given out of order, at address 2, for the wind speeds at
    address 1: [[(3, 45), (0, 0), (12, 3000), (25, 3000)]]. *)
Definition unsorted_world : world :=
  {| TurbineLibrary := TurbineLibrary module_world;
     heap := heap module_world
             ++ [PyList [PyFloat 1; PyFloat 8];
                 PyList [PyTuple [PyFloat 3; PyFloat 45]; PyTuple [PyFloat 0; PyFloat 0];
                         PyTuple [PyFloat 12; PyFloat 3000];
                         PyTuple [PyFloat 25; PyFloat 3000]]];
     calls := [] |}.

Definition unsorted_call : result (pyval * pyval) * world :=
  @simulateTurbine linear_collaborators
    (PyRef 1) (PyRef 2) PyNone PyNone PyNone PyNone 0%Q unsorted_world.

(** A series of wind speeds at address 1 and a measured height given as a
    series of one value, labeled with the name of the wind-speed series, at
    address 2. *)
Definition series_world : world :=
  {| TurbineLibrary := TurbineLibrary module_world;
     heap := heap module_world
             ++ [Series ["t0"; "t1"] (Some "ws"%string) [1; 8]%Q;
                 Series ["ws"] None [10]%Q];
     calls := [] |}.

Definition series_call : result (pyval * pyval) * world :=
  @simulateTurbine linear_collaborators
    (PyRef 1) (PyStr "Enercon_E115") (PyRef 2) (PyFloat (1 # 10)) PyNone (PyFloat 100)
    (8 # 100)%Q series_world.

Definition frame_hub : result (pyval * pyval * bool * bool * nat) * world :=
  @toHubHeight linear_collaborators
    (PyRef 1) (PyStr "Enercon_E115") (PyFloat 10) PyNone (PyFloat (14 # 100)) (PyFloat 20)
    frame_world.

(** ** More to read off a result *)

(** Within the physical bounds of the turbine. *)
Definition within (maxPower : Q) (x : Q) : Prop := (0 <= x)%Q /\ (x <= maxPower)%Q.

(** The length of the first axis of an array, a series or a frame. *)
Definition first_axis (o : pyobj) : option nat :=
  match o with
  | Ndarray (n :: _) _ => Some n
  | Series index _ _ => Some (length index)
  | DataFrame index _ _ => Some (length index)
  | _ => None
  end.

(** What [mean(axis=0)] leaves of a layout: nothing of one series ([None]
    stands for a scalar), the other axes of an array, the columns of a
    frame as the labels of a series. *)
Definition reduced (lay : layout) : option layout :=
  match lay with
  | Plain (_ :: k :: rest) => Some (Plain (k :: rest))
  | Plain _ => None
  | LabeledSeries _ => None
  | LabeledTable _ columns => Some (LabeledSeries columns)
  end.

(** A series that carries no name; an array has none to carry. *)
Definition unnamed (o : pyobj) : Prop :=
  match o with
  | Series _ name _ => name = None
  | _ => True
  end.

(** A parameter that is not a list of lists. *)
Definition flat_parameter (h : list pyobj) (val : pyval) : Prop :=
  forall l items, val = PyRef l -> h !! l = Some (PyList items) ->
                  exists xs, nums_of items = Some xs.

(** ** More worlds to evaluate *)

(** A curve given as a flat list of numbers, at address 2, for the wind
    speeds at address 1. *)
Definition flat_curve_world : world :=
  {| TurbineLibrary := TurbineLibrary module_world;
     heap := heap module_world
             ++ [PyList [PyFloat 1; PyFloat 8]; PyList [PyFloat 3; PyFloat 45]];
     calls := [] |}.

Definition flat_curve_hub : result (pyval * pyval * bool * bool * nat) * world :=
  @toHubHeight linear_collaborators
    (PyRef 1) (PyRef 2) PyNone PyNone PyNone PyNone flat_curve_world.

(** No wind speeds at all: the empty list at address 1. *)
Definition empty_world : world :=
  {| TurbineLibrary := TurbineLibrary module_world;
     heap := heap module_world ++ [PyList []];
     calls := [] |}.

(** A frame of three series at address 1 and parameters for it: a list of
    three heights at address 2, a frame of one column at address 3, a
    series labeled as the columns at address 4. *)
Definition parameter_world : world :=
  {| TurbineLibrary := TurbineLibrary module_world;
     heap := heap module_world
             ++ [DataFrame ["t0"; "t1"] ["a"; "b"; "c"] [1; 8; 12; 20; 5; 6]%Q;
                 PyList [PyInt 10; PyFloat 20; PyInt 30];
                 DataFrame ["a"; "b"; "c"] ["height"] [10; 20; 30]%Q;
                 Series ["a"; "b"; "c"] None [10; 20; 30]%Q;
                 PyList [PyInt 10; PyFloat 20]];
     calls := [] |}.

(** The list of heights, and the frame of one column, through the
    broadcaster. *)
Definition list_fixed : result pyval * world :=
  fixVal 3 false (PyRef 1) (PyRef 2) "measuredHeight" parameter_world.

Definition column_fixed : result pyval * world :=
  fixVal 3 false (PyRef 1) (PyRef 3) "hubHeight" parameter_world.

(** [measuredHeight=10, hubHeight=100, alpha=0.14] through the broadcaster,
    for the flat list. *)
Definition flat_fixed_alpha : result (pyval * pyval * pyval * pyval) * world :=
  @fixVals 1 true (PyRef 2) (PyInt 10) (PyInt 100) PyNone (PyFloat (14 # 100))
    (snd flat_resolved).

(** Two series of three wind speeds each, as a list of lists at address 1:
    [[[1., 8., 12.], [20., 5., 6.]]]. *)
Definition nested_world : world :=
  {| TurbineLibrary := TurbineLibrary module_world;
     heap := heap module_world
             ++ [PyList [PyRef 2; PyRef 3];
                 PyList [PyFloat 1; PyFloat 8; PyFloat 12];
                 PyList [PyFloat 20; PyFloat 5; PyFloat 6]];
     calls := [] |}.

Definition nested_normalized : result (pyval * bool * bool * nat) * world :=
  @normalize (PyRef 1) nested_world.

(** The pairs of the curve of [unsorted_world], as given and in ascending
    order of wind speed, and a world that holds the ascending curve at
    address 2. *)
Definition unsorted_pairs : list (Q * Q) := [(3, 45); (0, 0); (12, 3000); (25, 3000)]%Q.

Definition sorted_pairs : list (Q * Q) := [(0, 0); (3, 45); (12, 3000); (25, 3000)]%Q.

Definition sorted_world : world :=
  {| TurbineLibrary := TurbineLibrary module_world;
     heap := heap module_world
             ++ [PyList [PyFloat 1; PyFloat 8]; PyList (curve_items sorted_pairs)];
     calls := [] |}.

(** [measuredHeight=[10, 20.]], a list too short for the frame of three
    series, through the broadcaster. *)
Definition short_fixed : result (pyval * pyval * pyval * pyval) * world :=
  fixVals 3 false (PyRef 1) (PyRef 5) (PyFloat 100) (PyFloat (1 # 10)) PyNone
    parameter_world.

(** An array of three dimensions at address 1: none of the kinds the
    specification lists, and an array all the same. *)
Definition cube_world : world :=
  {| TurbineLibrary := TurbineLibrary module_world;
     heap := heap module_world ++ [Ndarray [2; 2; 2]%nat [1; 2; 3; 4; 5; 6; 7; 8]%Q];
     calls := [] |}.


(** * Reasoning about computations *)

Lemma bind_Ok {A B} (m : M A) (f : A -> M B) w b w' :
  bind m f w = (Ok b, w') ->
  exists a w1, m w = (Ok a, w1) /\ f a w1 = (Ok b, w').
Proof.
  unfold bind. destruct (m w) as [[a|e] w1]; [eauto | discriminate].
Qed.

Lemma bind_inv {A B} (m : M A) (f : A -> M B) w r w' :
  bind m f w = (r, w') ->
  (exists a w1, m w = (Ok a, w1) /\ f a w1 = (r, w')) \/
  (exists e, m w = (Raise e, w') /\ r = Raise e).
Proof.
  unfold bind. destruct (m w) as [[a|e] w1]; [eauto | ].
  intros [= <- <-]. eauto.
Qed.

Lemma bind_run {A B} (m : M A) (f : A -> M B) w a w1 :
  m w = (Ok a, w1) -> bind m f w = f a w1.
Proof. unfold bind. now intros ->. Qed.

Lemma bind_fail {A B} (m : M A) (f : A -> M B) w e w1 :
  m w = (Raise e, w1) -> bind m f w = (Raise e, w1).
Proof. unfold bind. now intros ->. Qed.

Lemma load_run l w o : heap w !! l = Some o -> load l w = (Ok o, w).
Proof. unfold load. now intros ->. Qed.

(** ** Heap facts: a new object sits at the old length, and older objects
    keep their address *)

Lemma lookup_new (h : list pyobj) (o : pyobj) : (h ++ [o]) !! length h = Some o.
Proof. now apply list_lookup_middle. Qed.

Lemma lookup_old (h h' : list pyobj) (l : loc) (o : pyobj) :
  h !! l = Some o -> (h ++ h') !! l = Some o.
Proof. intros Hl. apply lookup_app_Some. now left. Qed.

Lemma insert_new (h : list pyobj) (o o' : pyobj) :
  <[length h := o']> (h ++ [o]) = h ++ [o'].
Proof.
  rewrite insert_app_r_alt by lia. now rewrite Nat.sub_diag.
Qed.

Lemma zip_with_map_map {A B C D} (f : B -> C -> D) (g : A -> B) (k : A -> C) (l : list A) :
  zip_with f (map g l) (map k l) = map (fun a => f (g a) (k a)) l.
Proof. induction l as [|a l IH]; simpl; [reflexivity | now rewrite IH]. Qed.

(** ** The three relations are preorders *)

#[export] Instance unchanged_preorder : PreOrder unchanged.
Proof.
  split.
  - intros w. reflexivity.
  - intros w1 w2 w3 H12 H23. unfold unchanged in *. congruence.
Qed.

#[export] Instance frame_rel_preorder n : PreOrder (frame_rel n).
Proof.
  split.
  - intros w Hn. auto.
  - intros w1 w2 w3 H12 H23 Hn.
    destruct (H12 Hn) as (Hlib & Hn2 & Hold).
    destruct (H23 Hn2) as (Hlib' & Hn3 & Hold').
    repeat split; [congruence | assumption |].
    intros l Hl. rewrite Hold' by assumption. now apply Hold.
Qed.

#[export] Instance logged_preorder P : PreOrder (logged P).
Proof.
  split.
  - intros w. exists []. split; [now rewrite app_nil_r | constructor].
  - intros w1 w2 w3 (cs & Hcs & HP) (cs' & Hcs' & HP').
    exists (cs ++ cs'). split; [rewrite Hcs', Hcs; now rewrite app_assoc|].
    now apply Forall_app.
Qed.

Lemma logged_weaken (P P' : call -> Prop) w w' :
  (forall c, P c -> P' c) -> logged P w w' -> logged P' w w'.
Proof.
  intros HPP (cs & Hcs & HP). exists cs. split; [assumption|].
  eapply Forall_impl; eauto.
Qed.

Lemma logged_no_call w w' : logged no_call w w' -> calls w' = calls w.
Proof.
  intros (cs & Hcs & HP). destruct cs as [|c cs].
  - now rewrite app_nil_r in Hcs.
  - inversion HP as [|? ? []].
Qed.

(** Objects that were in the heap are still there. *)
Lemma frame_rel_lookup w w' l o :
  frame_rel (length (heap w)) w w' -> heap w !! l = Some o -> heap w' !! l = Some o.
Proof.
  intros Hf Hl. destruct (Hf (le_n _)) as (_ & _ & Hold).
  rewrite Hold; [assumption | now apply lookup_lt_Some in Hl].
Qed.

(** ** Rules for [respects] *)

Section Respects.
Context (R : relation world) `{!PreOrder R}.

Lemma respects_ret {A} (a : A) : respects R (ret a).
Proof. intros w r w' [= _ <-]. reflexivity. Qed.

Lemma respects_raise {A} (e : exn) : respects R (@raise A e).
Proof. intros w r w' [= _ <-]. reflexivity. Qed.

Lemma respects_get_heap : respects R get_heap.
Proof. intros w r w' [= _ <-]. reflexivity. Qed.

Lemma respects_load l : respects R (load l).
Proof.
  intros w r w'. unfold load.
  destruct (heap w !! l); intros [= _ <-]; reflexivity.
Qed.

Lemma respects_library_getitem name : respects R (library_getitem name).
Proof.
  intros w r w'. unfold library_getitem.
  destruct (TurbineLibrary w !! name); intros [= _ <-]; reflexivity.
Qed.

Lemma respects_bind {A B} (m : M A) (f : A -> M B) :
  respects R m -> (forall a, respects R (f a)) -> respects R (bind m f).
Proof.
  intros Hm Hf w r w' Hrun.
  apply bind_inv in Hrun as [(a & w1 & Hma & Hfa) | (e & Hme & _)].
  - transitivity w1; [exact (Hm _ _ _ Hma) | exact (Hf _ _ _ _ Hfa)].
  - exact (Hm _ _ _ Hme).
Qed.

Lemma respects_try_except {A} (m : M A) caught (handler : M A) :
  respects R m -> respects R handler -> respects R (try_except m caught handler).
Proof.
  intros Hm Hh w r w'. unfold try_except.
  destruct (m w) as [[a|e] w1] eqn:Hrun.
  - intros [= _ <-]. exact (Hm _ _ _ Hrun).
  - destruct (caught e).
    + intros Hrun'. transitivity w1; [exact (Hm _ _ _ Hrun) | exact (Hh _ _ _ Hrun')].
    + intros [= _ <-]. exact (Hm _ _ _ Hrun).
Qed.

End Respects.

Lemma respects_unchanged {A} (m : M A) w r w' :
  respects unchanged m -> m w = (r, w') -> w' = w.
Proof. intros Hm Hrun. exact (Hm _ _ _ Hrun). Qed.

(** What [alloc], [store] and [record] do to each relation. *)

Lemma frame_alloc n o : respects (frame_rel n) (alloc o).
Proof.
  intros w r w' [= _ <-] Hn. cbn. repeat split.
  - rewrite length_app. lia.
  - intros l Hl. apply lookup_app_l. lia.
Qed.

Lemma frame_store n l o : n <= l -> respects (frame_rel n) (store l o).
Proof.
  intros Hnl w r w' [= _ <-] Hn. cbn. repeat split.
  - now rewrite length_insert.
  - intros l' Hl'. apply list_lookup_insert_ne. lia.
Qed.

Lemma frame_record n c : respects (frame_rel n) (record c).
Proof. intros w r w' [= _ <-] Hn. cbn. auto. Qed.

Lemma logged_alloc P o : respects (logged P) (alloc o).
Proof. intros w r w' [= _ <-]. exists []. cbn. split; [now rewrite app_nil_r | constructor]. Qed.

Lemma logged_store P l o : respects (logged P) (store l o).
Proof. intros w r w' [= _ <-]. exists []. cbn. split; [now rewrite app_nil_r | constructor]. Qed.

Lemma logged_record (P : call -> Prop) c : P c -> respects (logged P) (record c).
Proof. intros Hc w r w' [= _ <-]. exists [c]. cbn. split; [reflexivity | now constructor]. Qed.

(** A computation that continues with a newly allocated object may store
    into it. *)
Lemma frame_alloc_bind {A} n o (f : pyval -> M A) :
  (forall p, n <= p -> respects (frame_rel n) (f (PyRef p))) ->
  respects (frame_rel n) (bind (alloc o) f).
Proof.
  intros Hf w r w' Hrun Hn. unfold bind, alloc in Hrun.
  pose proof (Hf _ Hn _ _ _ Hrun) as Hrest.
  pose proof (frame_alloc n o w _ _ eq_refl) as Hfirst.
  exact (transitivity Hfirst Hrest Hn).
Qed.

Create HintDb py discriminated.

(** One step through the syntax of a computation. *)
Ltac respects_step :=
  match goal with
  | |- respects _ (ret _) => apply respects_ret; try exact _
  | |- respects _ (raise _) => apply respects_raise; try exact _
  | |- respects _ get_heap => apply respects_get_heap; try exact _
  | |- respects _ (load _) => apply respects_load; try exact _
  | |- respects _ (library_getitem _) => apply respects_library_getitem; try exact _
  | |- respects (frame_rel _) (alloc _) => apply frame_alloc
  | |- respects (frame_rel _) (record _) => apply frame_record
  | |- respects (frame_rel _) (store _ _) => apply frame_store; solve [auto with py | lia]
  | |- respects (logged _) (alloc _) => apply logged_alloc
  | |- respects (logged _) (store _ _) => apply logged_store
  | |- respects (logged _) (record _) => apply logged_record; exact I
  | |- respects _ (bind _ _) => apply respects_bind; [exact _ | | intros ?]
  | |- respects _ (try_except _ _ _) => apply respects_try_except; [exact _ | | ]
  | |- respects _ (match ?x with _ => _ end) => destruct x
  | |- respects _ _ => solve [auto with py]
  end.

Ltac respects_tac := intros; repeat respects_step.

(** ** Rules for [raises_only] *)

Section Failures.
Context (P : exn -> Prop).

Lemma raises_only_ret {A} (a : A) : raises_only P (ret a).
Proof. intros w e w' [=]. Qed.

Lemma raises_only_raise {A} (e : exn) : P e -> raises_only P (@raise A e).
Proof. intros He w e' w' [= <- _]. exact He. Qed.

Lemma raises_only_get_heap : raises_only P get_heap.
Proof. intros w e w' [=]. Qed.

Lemma raises_only_load l : P InvalidReference -> raises_only P (load l).
Proof.
  intros He w e w'. unfold load.
  destruct (heap w !! l); [discriminate|]. now intros [= <- _].
Qed.

Lemma raises_only_library_getitem name : P KeyError -> raises_only P (library_getitem name).
Proof.
  intros He w e w'. unfold library_getitem.
  destruct (TurbineLibrary w !! name); [discriminate|]. now intros [= <- _].
Qed.

Lemma raises_only_alloc o : raises_only P (alloc o).
Proof. intros w e w' [=]. Qed.

Lemma raises_only_store l o : raises_only P (store l o).
Proof. intros w e w' [=]. Qed.

Lemma raises_only_record c : raises_only P (record c).
Proof. intros w e w' [=]. Qed.

Lemma raises_only_bind {A B} (m : M A) (f : A -> M B) :
  raises_only P m -> (forall a, raises_only P (f a)) -> raises_only P (bind m f).
Proof.
  intros Hm Hf w e w' Hrun.
  apply bind_inv in Hrun as [(a & w1 & _ & Hfa) | (e' & Hme & [= <-])].
  - exact (Hf _ _ _ _ Hfa).
  - exact (Hm _ _ _ Hme).
Qed.

(** What escapes a [try] was raised by its body or by its handler. *)
Lemma raises_only_try_except {A} (m : M A) caught (handler : M A) :
  raises_only P m -> raises_only P handler -> raises_only P (try_except m caught handler).
Proof.
  intros Hm Hh w e w'. unfold try_except.
  destruct (m w) as [[a|e'] w1] eqn:Hrun; [discriminate|].
  destruct (caught e').
  - intros Hrun'. exact (Hh _ _ _ Hrun').
  - intros [= <- _]. exact (Hm _ _ _ Hrun).
Qed.

End Failures.

(** A side condition [P e]: a fact at hand, or [e] is not an error of the
    library and [P] holds of all of those. *)
Ltac raises_side :=
  first [ assumption
        | match goal with
          | Hother : (forall e : exn, is_ResError e = false -> _) |- _ =>
              apply Hother; reflexivity
          end ].

Ltac raises_step :=
  match goal with
  | |- raises_only _ (ret _) => apply raises_only_ret
  | |- raises_only _ (raise _) => apply raises_only_raise; raises_side
  | |- raises_only _ get_heap => apply raises_only_get_heap
  | |- raises_only _ (load _) => apply raises_only_load; raises_side
  | |- raises_only _ (library_getitem _) => apply raises_only_library_getitem; raises_side
  | |- raises_only _ (alloc _) => apply raises_only_alloc
  | |- raises_only _ (store _ _) => apply raises_only_store
  | |- raises_only _ (record _) => apply raises_only_record
  | |- raises_only _ (bind _ _) => apply raises_only_bind; [ | intros ?]
  | |- raises_only _ (try_except _ _ _) => apply raises_only_try_except
  | |- raises_only _ (match ?x with _ => _ end) => destruct x
  | |- raises_only _ _ => solve [auto with py]
  end.

Ltac raises_tac := intros; repeat raises_step.

(** * The phases of the call, one relation at a time *)

Section Phases.
Context `{Collaborators}.

(** ** Computations that only read *)

Lemma unchanged_performance_columns p : respects unchanged (performance_columns p).
Proof. unfold performance_columns. respects_tac. Qed.

Lemma unchanged_values_of b ws : respects unchanged (values_of b ws).
Proof. unfold values_of. respects_tac. Qed.

Lemma unchanged_columns_of ws : respects unchanged (columns_of ws).
Proof. unfold columns_of. respects_tac. Qed.

Lemma unchanged_index_of ws : respects unchanged (index_of ws).
Proof. unfold index_of. respects_tac. Qed.

Lemma unchanged_array_of v : respects unchanged (array_of v).
Proof. unfold array_of. respects_tac. Qed.

Lemma unchanged_compare_array v t : respects unchanged (compare_array v t).
Proof. unfold compare_array. respects_tac. Qed.

Lemma unchanged_array_max a : respects unchanged (array_max a).
Proof. unfold array_max. respects_tac. Qed.

Lemma unchanged_array_min a : respects unchanged (array_min a).
Proof. unfold array_min. respects_tac. Qed.

Lemma unchanged_subscript0 v : respects unchanged (subscript0 v).
Proof. unfold subscript0. respects_tac. Qed.

(** A computation that changes nothing respects every preorder. *)
Lemma unchanged_respects {A} (R : relation world) `{!PreOrder R} (m : M A) :
  respects unchanged m -> respects R m.
Proof. intros Hm w r w' Hrun. rewrite (Hm _ _ _ Hrun). reflexivity. Qed.

End Phases.

#[export] Hint Resolve unchanged_performance_columns unchanged_values_of
  unchanged_columns_of unchanged_index_of unchanged_array_of
  unchanged_compare_array unchanged_array_max unchanged_array_min
  unchanged_subscript0 : py.
#[export] Hint Extern 5 (respects (frame_rel _) _) =>
  apply unchanged_respects; [exact _ | ] : py.
#[export] Hint Extern 5 (respects (logged _) _) =>
  apply unchanged_respects; [exact _ | ] : py.

Section Frames.
Context `{Collaborators}.
Variable n : nat.

(** ** The frame: no phase touches an object below [n] *)

Lemma frame_normalize ws : respects (frame_rel n) (normalize ws).
Proof. unfold normalize. respects_tac. Qed.

Lemma frame_setPerformance p : respects (frame_rel n) (setPerformance p).
Proof. unfold setPerformance. respects_tac. Qed.

Lemma frame_fixVal_pandas b ws v i vs name :
  respects (frame_rel n) (fixVal_pandas b ws v i vs name).
Proof. unfold fixVal_pandas. respects_tac. Qed.

Lemma frame_fixVal N b ws v name : respects (frame_rel n) (fixVal N b ws v name).
Proof.
  pose proof frame_fixVal_pandas.
  unfold fixVal. respects_tac.
Qed.

Lemma frame_fixVals N b ws mh hh r a : respects (frame_rel n) (fixVals N b ws mh hh r a).
Proof. pose proof frame_fixVal. unfold fixVals. respects_tac. Qed.

Lemma frame_doProjection ws mh hh r a : respects (frame_rel n) (doProjection ws mh hh r a).
Proof. unfold doProjection. respects_tac. Qed.

Lemma frame_project N b ws mh r a hh : respects (frame_rel n) (project N b ws mh r a hh).
Proof.
  pose proof frame_fixVals. pose proof frame_doProjection.
  unfold project. respects_tac.
Qed.

Lemma frame_toHubHeight ws p mh r a hh : respects (frame_rel n) (toHubHeight ws p mh r a hh).
Proof.
  pose proof frame_normalize. pose proof frame_setPerformance. pose proof frame_project.
  unfold toHubHeight. respects_tac.
Qed.

(** The in-place assignments go to [powerGen] only, and [powerGen] is a new
    object or no object at all. *)
Lemma frame_masked_assign pg mask x :
  (forall p, pg = PyRef p -> n <= p) ->
  respects (frame_rel n) (masked_assign pg mask x).
Proof.
  intros Hpg. unfold masked_assign. destruct pg; respects_tac.
Qed.

Lemma frame_cleanUp b ws pg maxPower cutin cutout :
  (forall p, pg = PyRef p -> n <= p) ->
  respects (frame_rel n) (cleanUp b ws pg maxPower cutin cutout).
Proof.
  intros Hpg. pose proof (fun mask x => frame_masked_assign pg mask x Hpg).
  unfold cleanUp. respects_tac.
Qed.

Lemma frame_new_array_bind {A} shape data (f : pyval -> M A) :
  (forall x, respects (frame_rel n) (f (PyFloat x))) ->
  (forall p, n <= p -> respects (frame_rel n) (f (PyRef p))) ->
  respects (frame_rel n) (bind (new_array shape data) f).
Proof.
  intros Hfloat Href. unfold new_array. destruct shape.
  - intros w r w' Hrun. exact (Hfloat _ _ _ _ Hrun).
  - now apply frame_alloc_bind.
Qed.

Lemma frame_mapPower b ws p loss : respects (frame_rel n) (mapPower b ws p loss).
Proof.
  unfold mapPower.
  do 4 (apply respects_bind; [exact _ | respects_tac | intros ?]).
  apply frame_new_array_bind.
  - intros x.
    assert (Hpg : forall p', PyFloat x = PyRef p' -> n <= p') by discriminate.
    pose proof (fun top lo hi => frame_cleanUp b ws _ top lo hi Hpg).
    respects_tac.
  - intros p' Hp'.
    assert (Hpg : forall p'', PyRef p' = PyRef p'' -> n <= p'') by now intros ? [= <-].
    pose proof (fun top lo hi => frame_cleanUp b ws _ top lo hi Hpg).
    respects_tac.
Qed.

Lemma frame_wrap b ws pg : respects (frame_rel n) (wrap b ws pg).
Proof. unfold wrap. respects_tac. Qed.

Lemma frame_capFactor_of pg maxPower : respects (frame_rel n) (capFactor_of pg maxPower).
Proof. unfold capFactor_of. respects_tac. Qed.

Lemma frame_makeOutputs b s ws pg maxPower :
  respects (frame_rel n) (makeOutputs b s ws pg maxPower).
Proof.
  pose proof frame_wrap. pose proof frame_capFactor_of.
  unfold makeOutputs. respects_tac.
Qed.

Lemma frame_simulateTurbine ws p mh r a hh loss :
  respects (frame_rel n) (simulateTurbine ws p mh r a hh loss).
Proof.
  pose proof frame_toHubHeight. pose proof frame_mapPower. pose proof frame_makeOutputs.
  unfold simulateTurbine. respects_tac.
Qed.

End Frames.

Section Logs.
Context `{Collaborators}.

(** ** The collaborators each phase calls *)

Lemma silent_normalize ws : respects (logged no_call) (normalize ws).
Proof. unfold normalize. respects_tac. Qed.

Lemma silent_setPerformance p : respects (logged no_call) (setPerformance p).
Proof. unfold setPerformance. respects_tac. Qed.

Lemma silent_fixVal_pandas b ws v i vs name :
  respects (logged no_call) (fixVal_pandas b ws v i vs name).
Proof. unfold fixVal_pandas. respects_tac. Qed.

Lemma silent_fixVal N b ws v name : respects (logged no_call) (fixVal N b ws v name).
Proof. pose proof silent_fixVal_pandas. unfold fixVal. respects_tac. Qed.

Lemma silent_fixVals N b ws mh hh r a : respects (logged no_call) (fixVals N b ws mh hh r a).
Proof. pose proof silent_fixVal. unfold fixVals. respects_tac. Qed.

Lemma silent_masked_assign pg mask x : respects (logged no_call) (masked_assign pg mask x).
Proof. unfold masked_assign. respects_tac. Qed.

Lemma silent_cleanUp b ws pg maxPower cutin cutout :
  respects (logged no_call) (cleanUp b ws pg maxPower cutin cutout).
Proof. pose proof silent_masked_assign. unfold cleanUp. respects_tac. Qed.

Lemma silent_new_array shape data : respects (logged no_call) (new_array shape data).
Proof. unfold new_array. respects_tac. Qed.

Lemma silent_wrap b ws pg : respects (logged no_call) (wrap b ws pg).
Proof. unfold wrap. respects_tac. Qed.

Lemma silent_capFactor_of pg maxPower : respects (logged no_call) (capFactor_of pg maxPower).
Proof. unfold capFactor_of. respects_tac. Qed.

Lemma silent_makeOutputs b s ws pg maxPower :
  respects (logged no_call) (makeOutputs b s ws pg maxPower).
Proof.
  pose proof silent_wrap. pose proof silent_capFactor_of.
  unfold makeOutputs. respects_tac.
Qed.

Lemma silent_logged {A} P (m : M A) : respects (logged no_call) m -> respects (logged P) m.
Proof.
  intros Hm w r w' Hrun. eapply logged_weaken; [|exact (Hm _ _ _ Hrun)].
  intros c [].
Qed.

Lemma splines_mapPower b ws p loss : respects (logged is_spline_call) (mapPower b ws p loss).
Proof.
  pose proof (fun pg top lo hi => silent_logged is_spline_call _ (silent_cleanUp b ws pg top lo hi)).
  pose proof (fun s d => silent_logged is_spline_call _ (silent_new_array s d)).
  unfold mapPower. respects_tac.
Qed.

End Logs.

(** * What a successful run computes *)

Section Runs.
Context `{Collaborators}.

Lemma values_of_later b ws w r w0 w2 :
  values_of b ws w = (Ok r, w0) ->
  (forall l, ws = PyRef l -> heap w2 !! l = heap w !! l) ->
  values_of b ws w2 = (Ok r, w2).
Proof.
  unfold values_of. intros Hrun Hext.
  destruct ws as [| | | | |l]; try (destruct b; discriminate).
  unfold bind, load in *. rewrite (Hext l eq_refl).
  destruct (heap w !! l) as [o|] eqn:Hl; [|discriminate].
  destruct b, o; try discriminate; unfold ret in *; congruence.
Qed.

Lemma values_of_is_ref b ws w r w0 :
  values_of b ws w = (Ok r, w0) -> exists l, ws = PyRef l /\ l < length (heap w).
Proof.
  unfold values_of. intros Hrun.
  destruct ws as [| | | | |l]; try (destruct b; discriminate).
  exists l. split; [reflexivity|].
  unfold bind, load in Hrun.
  destruct (heap w !! l) as [o|] eqn:Hl; [|discriminate].
  now apply lookup_lt_Some in Hl.
Qed.

Lemma with_array_lookup w p shape f hub :
  p < length (heap w) ->
  heap (with_array w p shape f hub) !! p = Some (Ndarray shape (map f hub)).
Proof. intros Hlt. cbn. now apply list_lookup_insert_eq. Qed.

Lemma with_array_twice w p shape f g hub :
  with_array (with_array w p shape f hub) p shape g hub = with_array w p shape g hub.
Proof. unfold with_array, set_heap. cbn. now rewrite list_insert_insert_eq. Qed.

Lemma with_array_id w p shape f hub :
  heap w !! p = Some (Ndarray shape (map f hub)) -> with_array w p shape f hub = w.
Proof.
  intros Hp. unfold with_array, set_heap. rewrite list_insert_id by exact Hp.
  now destruct w.
Qed.

Lemma values_of_with_array b l w r w0 p shape f hub :
  l <> p ->
  values_of b (PyRef l) w = (Ok r, w0) ->
  values_of b (PyRef l) (with_array w p shape f hub) = (Ok r, with_array w p shape f hub).
Proof.
  intros Hlp Hv. eapply values_of_later; [exact Hv|].
  intros l' [= <-]. cbn. now apply list_lookup_insert_ne.
Qed.

Lemma compare_array_run p test w shape data :
  heap w !! p = Some (Ndarray shape data) ->
  compare_array (PyRef p) test w = (Ok (map test data), w).
Proof. intros Hp. unfold compare_array, bind, load. now rewrite Hp. Qed.

(** One masked assignment, when the mask is computed from the wind speeds
    and the current values. *)
Lemma masked_assign_run p (test : Q -> Q -> bool) x w shape (cur : Q -> Q) hub :
  heap w !! p = Some (Ndarray shape (map cur hub)) ->
  masked_assign (PyRef p) (map (fun v => test v (cur v)) hub) x w =
    (Ok tt, with_array w p shape (fun v => if test v (cur v) then x else cur v) hub).
Proof.
  intros Hp. unfold masked_assign, bind, load. rewrite Hp, !length_map, Nat.eqb_refl.
  unfold store, with_array, set_heap. now rewrite zip_with_map_map.
Qed.

Lemma cleanUp_run isNumpy l p maxPower cutin cutout w shape shape' hub raw :
  l <> p ->
  values_of isNumpy (PyRef l) w = (Ok (shape', hub), w) ->
  heap w !! p = Some (Ndarray shape (map raw hub)) ->
  cleanUp isNumpy (PyRef l) (PyRef p) maxPower cutin cutout w =
    (Ok tt, with_array w p shape (fun v => clean maxPower cutin cutout v (raw v)) hub).
Proof.
  intros Hlp Hv Hp. unfold cleanUp.
  pose proof (lookup_lt_Some _ _ _ Hp) as Hlt.
  (* floor *)
  erewrite bind_run by (eapply compare_array_run; exact Hp).
  rewrite map_map.
  erewrite bind_run
    by (exact (masked_assign_run p (fun _ r => Qltb r 0%Q) 0%Q w shape raw hub Hp)).
  (* ceiling *)
  erewrite bind_run by (eapply compare_array_run; now apply with_array_lookup).
  rewrite map_map.
  erewrite bind_run
    by (apply (masked_assign_run p (fun _ r => Qltb maxPower r) maxPower);
        now apply with_array_lookup).
  rewrite with_array_twice.
  (* cut-in *)
  erewrite bind_run by (eapply values_of_with_array; [exact Hlp | exact Hv]).
  cbn [snd].
  erewrite bind_run
    by (apply (masked_assign_run p (fun v _ => Qltb v cutin) 0%Q);
        now apply with_array_lookup).
  rewrite with_array_twice.
  (* cut-out *)
  erewrite bind_run by (eapply values_of_with_array; [exact Hlp | exact Hv]).
  cbn [snd].
  rewrite (masked_assign_run p (fun v _ => Qltb cutout v) 0%Q _ shape _ hub)
    by now apply with_array_lookup.
  rewrite with_array_twice. reflexivity.
Qed.

Lemma mapPower_spec isNumpy ws perf loss w pg maxP w' :
  mapPower isNumpy ws perf loss w = (Ok (pg, maxP), w') ->
  exists x y shape hub cutin cutout,
    performance_columns perf w = (Ok (x, y), w) /\
    values_of isNumpy ws w = (Ok (shape, hub), w) /\
    Qlist_max y = Some maxP /\ Qlist_min x = Some cutin /\ Qlist_max x = Some cutout /\
    pg = PyRef (length (heap w)) /\
    w' = World (TurbineLibrary w)
           (heap w ++ [Ndarray shape
              (map (fun v => clean maxP cutin cutout v (splev v (splrep x y) * (1 - loss))%Q) hub)])
           (calls w ++ [CallSplrep x y; CallSplev hub]).
Proof.
  unfold mapPower. intros Hrun.
  apply bind_Ok in Hrun as ([x y] & w1 & Hpc & Hrun).
  pose proof (unchanged_performance_columns _ _ _ _ Hpc) as ->.
  cbn [bind record fst snd] in Hrun.
  apply bind_Ok in Hrun as ([shape hub] & w1 & Hv & Hrun).
  pose proof (unchanged_values_of _ _ _ _ _ Hv) as ->.
  assert (Hv0 : values_of isNumpy ws w = (Ok (shape, hub), w))
    by (eapply values_of_later; [exact Hv | auto]).
  destruct (values_of_is_ref _ _ _ _ _ Hv0) as (l & -> & Hl).
  cbn [bind record fst snd heap calls TurbineLibrary] in Hrun.
  unfold array_max, array_min in Hrun.
  destruct shape as [|m rest].
  { cbn [new_array bind ret] in Hrun.
    destruct (Qlist_max y), (Qlist_min x), (Qlist_max x); discriminate. }
  cbn [new_array bind alloc heap calls TurbineLibrary] in Hrun.
  destruct (Qlist_max y) as [maxPower|] eqn:Hmax; [|discriminate].
  destruct (Qlist_min x) as [cutin|] eqn:Hmin; [|discriminate].
  destruct (Qlist_max x) as [cutout|] eqn:Hout; [|discriminate].
  cbn [bind ret] in Hrun.
  erewrite bind_run in Hrun.
  2:{ eapply (cleanUp_run isNumpy l (length (heap w))); [lia | | apply lookup_new].
      eapply values_of_later; [exact Hv0|]. intros l' [= <-]. cbn [heap].
      now apply lookup_app_l. }
  injection Hrun as <- <- <-.
  exists x, y, (m :: rest), hub, cutin, cutout.
  repeat split; try assumption.
  unfold with_array, set_heap. cbn [heap calls TurbineLibrary].
  now rewrite insert_new, <- app_assoc.
Qed.
End Runs.

(** * The outputs *)

Section Outputs.
Context `{Collaborators}.

Lemma array_of_inv pg w shape pd w1 :
  array_of pg w = (Ok (shape, pd), w1) ->
  exists p, pg = PyRef p /\ heap w !! p = Some (Ndarray shape pd) /\ w1 = w.
Proof.
  unfold array_of. destruct pg as [| | | | |p]; try discriminate.
  unfold bind, load. destruct (heap w !! p) as [[]|] eqn:Hp; try discriminate.
  intros [= <- <- <-]. exists p. auto.
Qed.

Lemma index_of_later ws w idx w0 w2 :
  index_of ws w = (Ok idx, w0) ->
  (forall l, ws = PyRef l -> heap w2 !! l = heap w !! l) ->
  index_of ws w2 = (Ok idx, w2).
Proof.
  unfold index_of. intros Hrun Hext.
  destruct ws as [| | | | |l]; try discriminate.
  unfold bind, load in *. rewrite (Hext l eq_refl).
  destruct (heap w !! l) as [[]|]; try discriminate; unfold ret in *; congruence.
Qed.

(** [wrap] puts the numbers of [powerGen] under the labels of the wind
    speeds, in a new object. *)
Lemma wrap_spec isSeries ws pg w prod w1 :
  wrap isSeries ws pg w = (Ok prod, w1) ->
  exists p shape pd o,
    pg = PyRef p /\ heap w !! p = Some (Ndarray shape pd) /\
    prod = PyRef (length (heap w)) /\
    w1 = set_heap w (heap w ++ [o]) /\
    ((isSeries = true /\ exists index,
        index_of ws w = (Ok index, w) /\
        o = Series index (Some "production"%string) pd) \/
     (isSeries = false /\ exists index columns,
        index_of ws w = (Ok index, w) /\ columns_of ws w = (Ok columns, w) /\
        o = DataFrame index columns pd)).
Proof.
  unfold wrap. intros Hrun.
  apply bind_Ok in Hrun as ([shape pd] & w0 & Ha & Hrun).
  apply array_of_inv in Ha as (p & -> & Hp & ->).
  cbn [fst snd] in Hrun. destruct isSeries.
  - apply bind_Ok in Hrun as (index & w0 & Hi & Hrun).
    pose proof (unchanged_index_of _ _ _ _ Hi) as Hw. red in Hw. subst w0.
    destruct (bool_decide (shape = [length index])); [|discriminate].
    injection Hrun as <- <-.
    exists p, shape, pd, (Series index (Some "production"%string) pd).
    repeat split; try assumption. left. eauto.
  - apply bind_Ok in Hrun as (columns & w0 & Hc & Hrun).
    pose proof (unchanged_columns_of _ _ _ _ Hc) as Hw. red in Hw. subst w0.
    apply bind_Ok in Hrun as (index & w0 & Hi & Hrun).
    pose proof (unchanged_index_of _ _ _ _ Hi) as Hw. red in Hw. subst w0.
    destruct (bool_decide (shape = [length index; length columns])); [|discriminate].
    injection Hrun as <- <-.
    exists p, shape, pd, (DataFrame index columns pd).
    repeat split; try assumption. right. eauto 6.
Qed.

(** The capacity factor is the mean of each series of the production,
    divided by [maxPower]; the production itself is not touched. *)
Lemma capFactor_of_spec prod maxPower w cf w' :
  capFactor_of prod maxPower w = (Ok cf, w') ->
  exists series extra,
    production_series (heap w) prod = Some series /\
    heap w' = heap w ++ extra /\
    capacity_factors (heap w') cf
      = Some (map (fun s => (Qmean s / maxPower)%Q) series).
Proof.
  unfold capFactor_of. destruct prod as [| | | | |p]; try discriminate.
  unfold bind, load. destruct (heap w !! p) as [o|] eqn:Hp; [|discriminate].
  unfold production_series. rewrite Hp.
  destruct o as [| |shape data|index name values|index columns values]; try discriminate.
  - destruct shape as [|m [|k rest]]; [discriminate| |].
    + intros [= <- <-]. exists [data], []. now rewrite app_nil_r.
    + intros [= <- <-]. cbn [alloc heap fst snd].
      eexists _, _. split; [reflexivity|]. split; [reflexivity|].
      cbn [capacity_factors]. rewrite lookup_new.
      unfold mean_axis0. now rewrite !map_map.
  - intros [= <- <-]. exists [values], []. now rewrite app_nil_r.
  - intros [= <- <-]. cbn [alloc heap fst snd].
    eexists _, _. split; [reflexivity|]. split; [reflexivity|].
    cbn [capacity_factors]. rewrite lookup_new.
    unfold mean_axis0. cbn [fold_right]. rewrite Nat.mul_1_r. now rewrite !map_map.
Qed.

Lemma production_series_later h extra prod series :
  production_series h prod = Some series ->
  production_series (h ++ extra) prod = Some series.
Proof.
  unfold production_series. destruct prod as [| | | | |p]; try discriminate.
  destruct (h !! p) as [o|] eqn:Hp; [|discriminate].
  now rewrite (lookup_old _ extra _ _ Hp).
Qed.

Lemma production_values_later h extra prod values :
  production_values h prod = Some values ->
  production_values (h ++ extra) prod = Some values.
Proof.
  unfold production_values. destruct prod as [| | | | |p]; try discriminate.
  destruct (h !! p) as [o|] eqn:Hp; [|discriminate].
  now rewrite (lookup_old _ extra _ _ Hp).
Qed.

(** The returned production holds the numbers the clean-up left in
    [powerGen]. *)
Lemma makeOutputs_spec isNumpy isSeries ws p maxPower w shape pd prod cf w' :
  heap w !! p = Some (Ndarray shape pd) ->
  makeOutputs isNumpy isSeries ws (PyRef p) maxPower w = (Ok (prod, cf), w') ->
  exists series,
    production_values (heap w') prod = Some pd /\
    production_series (heap w') prod = Some series /\
    capacity_factors (heap w') cf = Some (map (fun s => (Qmean s / maxPower)%Q) series).
Proof.
  intros Hp Hrun. unfold makeOutputs in Hrun.
  apply bind_Ok in Hrun as (prod' & w1 & Hwrap & Hrun).
  apply bind_Ok in Hrun as (cf' & w2 & Hcf & Hrun).
  injection Hrun as <- <- <-.
  destruct (capFactor_of_spec _ _ _ _ _ Hcf) as (series & extra & Hs & Hext & Hcfs).
  exists series. rewrite Hext at 1 2.
  split; [|split; [now apply production_series_later | exact Hcfs]].
  apply production_values_later.
  destruct isNumpy.
  - injection Hwrap as <- <-. unfold production_values. now rewrite Hp.
  - apply wrap_spec in Hwrap
      as (p' & shape' & pd' & o & [= <-] & Hp' & -> & -> & Ho).
    rewrite Hp in Hp'. injection Hp' as <- <-.
    unfold production_values. cbn [set_heap heap]. rewrite lookup_new.
    destruct Ho as [(_ & index & _ & ->) | (_ & index & columns & _ & _ & ->)];
      reflexivity.
Qed.

(** The returned production is [powerGen] itself on the numpy path, and a
    series or frame under the labels of the wind speeds on the pandas
    path. *)
Lemma makeOutputs_object isNumpy isSeries ws p maxPower w shape pd prod cf w' :
  heap w !! p = Some (Ndarray shape pd) ->
  makeOutputs isNumpy isSeries ws (PyRef p) maxPower w = (Ok (prod, cf), w') ->
  exists q o,
    prod = PyRef q /\ heap w' !! q = Some o /\
    ((isNumpy = true /\ o = Ndarray shape pd) \/
     (isNumpy = false /\ isSeries = true /\ exists index,
        index_of ws w = (Ok index, w) /\
        o = Series index (Some "production"%string) pd) \/
     (isNumpy = false /\ isSeries = false /\ exists index columns,
        index_of ws w = (Ok index, w) /\ columns_of ws w = (Ok columns, w) /\
        o = DataFrame index columns pd)).
Proof.
  intros Hp Hrun. unfold makeOutputs in Hrun.
  apply bind_Ok in Hrun as (prod' & w1 & Hwrap & Hrun).
  apply bind_Ok in Hrun as (cf' & w2 & Hcf & Hrun).
  injection Hrun as <- <- <-.
  destruct (capFactor_of_spec _ _ _ _ _ Hcf) as (series & extra & _ & Hext & _).
  rewrite Hext. destruct isNumpy.
  - injection Hwrap as <- <-. exists p, (Ndarray shape pd).
    split; [reflexivity|]. split; [now apply lookup_old | auto].
  - apply wrap_spec in Hwrap
      as (p' & shape' & pd' & o & [= <-] & Hp' & -> & -> & Ho).
    rewrite Hp in Hp'. injection Hp' as <- <-.
    exists (length (heap w)), o. split; [reflexivity|].
    cbn [set_heap heap]. split; [apply lookup_old, lookup_new|].
    right. destruct Ho as [(-> & index & Hi & ->) | (-> & index & columns & Hi & Hc & ->)].
    + left. eauto.
    + right. eauto 8.
Qed.

End Outputs.

(** * The wind speeds at hub height *)

Section Hub.
Context `{Collaborators}.

(** ** The input, normalized *)

Lemma subscript0_not_number v w u w1 :
  subscript0 v w = (Ok u, w1) -> num_of v = None.
Proof. destruct v; try discriminate; reflexivity. Qed.

Lemma subscript0_TypeError v w w1 :
  subscript0 v w = (Raise TypeError, w1) -> forall h, row_of h v = None.
Proof.
  destruct v as [| | |s|items|l]; try reflexivity; cbn [subscript0].
  - destruct items; discriminate.
  - unfold bind, load. destruct (heap w !! l) as [o|]; [|discriminate].
    destruct o as [items|items|shape data|index name values|];
      try discriminate.
    + destruct items; discriminate.
    + destruct (existsb _ items); discriminate.
    + destruct shape as [|[|m] rest]; discriminate.
    + destruct index; discriminate.
Qed.

Lemma normalize_spec ws w ws1 isNumpy isSeries N w1 :
  normalize ws w = (Ok (ws1, isNumpy, isSeries, N), w1) ->
  normalized (heap w1) ws1 isNumpy isSeries (input_layout (heap w) ws).
Proof.
  unfold normalize. destruct ws as [| | | | |l]; try discriminate.
  unfold bind at 1, load. destruct (heap w !! l) as [o|] eqn:Hl; [|discriminate].
  destruct o as [items| |shape data|index name values|index columns values];
    try discriminate.
  - (* a list *)
    intros Hrun. apply bind_Ok in Hrun as ([ws' N'] & w2 & Htry & Hrun).
    injection Hrun as <- <- <- <- <-. cbn [fst snd].
    unfold input_layout. rewrite Hl.
    unfold try_except in Htry.
    match type of Htry with (match ?m w with _ => _ end) = _ =>
      destruct (m w) as [[[ws'' N'']|e] w3] eqn:Hbody end.
    + (* the list holds sequences *)
      injection Htry as <- <- <-.
      apply bind_Ok in Hbody as (first & w4 & Hfirst & Hbody).
      destruct items as [|v items]; [discriminate|]. injection Hfirst as <- <-.
      apply bind_Ok in Hbody as (u & w4 & Hsub & Hbody).
      pose proof (unchanged_subscript0 _ _ _ _ Hsub) as Hw. red in Hw. subst w4.
      apply subscript0_not_number in Hsub.
      cbn [bind get_heap] in Hbody.
      unfold np_column_stack in Hbody. cbn [nums_of]. rewrite Hsub.
      destruct (rows_of (heap w) (v :: items)) as [[|c cs]|]; try discriminate.
      destruct (all_length (length c) cs); [|discriminate].
      cbn [bind alloc ret] in Hbody. injection Hbody as <- <- <-.
      exists (length (heap w)), (Ndarray [length c; length (v :: items)]
        (flat_map (fun i => map (fun col => nth i col 0%Q) (c :: cs)) (seq 0 (length c)))).
      cbn [heap]. rewrite lookup_new. auto.
    + (* the list holds numbers *)
      destruct e; try discriminate. cbn [is_TypeError] in Htry.
      assert (Hrows : rows_of (heap w3) items = None /\ w3 = w).
      { apply bind_inv in Hbody as [(first & w4 & Hfirst & Hbody) | (e & Hfirst & [= He])].
        - destruct items as [|v items]; [discriminate|]. injection Hfirst as <- <-.
          apply bind_inv in Hbody as [(u & w4 & Hsub & Hbody) | (e & Hsub & [= He])].
          + pose proof (unchanged_subscript0 _ _ _ _ Hsub) as Hw. red in Hw. subst w4.
            cbn [bind get_heap] in Hbody.
            destruct (np_column_stack (heap w) (v :: items)) as [[shape data]|];
              discriminate.
          + subst e.
            pose proof (unchanged_subscript0 _ _ _ _ Hsub) as Hw. red in Hw. subst w3.
            cbn [rows_of]. now rewrite (subscript0_TypeError _ _ _ Hsub).
        - subst e. destruct items; discriminate. }
      destruct Hrows as [Hrows ->].
      cbn [bind get_heap] in Htry. unfold np_array in Htry. rewrite Hrows in Htry.
      destruct (nums_of items) as [xs|]; [|discriminate].
      cbn [bind alloc ret] in Htry. injection Htry as <- <- <-.
      exists (length (heap w)), (Ndarray [length items] xs).
      cbn [heap]. rewrite lookup_new. auto.
  - intros [= <- <- <- <- <-]. exists l, (Ndarray shape data).
    unfold input_layout. rewrite Hl. auto.
  - intros [= <- <- <- <- <-]. exists l, (Series index name values).
    unfold input_layout. rewrite Hl. auto.
  - intros [= <- <- <- <- <-]. exists l, (DataFrame index columns values).
    unfold input_layout. rewrite Hl. auto.
Qed.

(** ** The projection *)

Lemma toHubHeight_inv ws perf mh r a hh w ws2 perf' isNumpy isSeries N w3 :
  toHubHeight ws perf mh r a hh w = (Ok (ws2, perf', isNumpy, isSeries, N), w3) ->
  exists ws1 w1 w2,
    normalize ws w = (Ok (ws1, isNumpy, isSeries, N), w1) /\
    setPerformance perf w1 = (Ok perf', w2) /\
    project N isNumpy ws1 mh r a hh w2 = (Ok ws2, w3).
Proof.
  unfold toHubHeight. intros Hrun.
  apply bind_Ok in Hrun as ([[[ws1 b] s] N'] & w1 & Hn & Hrun).
  apply bind_Ok in Hrun as (perf1 & w2 & Hp & Hrun).
  apply bind_Ok in Hrun as (ws2' & w3' & Hproj & Hrun).
  injection Hrun as <- <- <- <- <- <-. eauto 6.
Qed.

Lemma toHubHeight_run ws perf mh r a hh w ws1 isNumpy isSeries N w1 perf' w2 :
  normalize ws w = (Ok (ws1, isNumpy, isSeries, N), w1) ->
  setPerformance perf w1 = (Ok perf', w2) ->
  toHubHeight ws perf mh r a hh w =
    bind (project N isNumpy ws1 mh r a hh)
         (fun ws2 => ret (ws2, perf', isNumpy, isSeries, N)) w2.
Proof.
  intros Hn Hp. unfold toHubHeight.
  rewrite (bind_run _ _ _ _ _ Hn). now rewrite (bind_run _ _ _ _ _ Hp).
Qed.

Lemma is_None_true v : is_None v = true <-> v = PyNone.
Proof. destruct v; cbn; split; congruence. Qed.

Lemma is_None_false v : is_None v = false <-> v <> PyNone.
Proof. destruct v; cbn; split; congruence. Qed.

Lemma all_None_true mh r a hh :
  all_None mh r a hh = true <-> mh = PyNone /\ r = PyNone /\ a = PyNone /\ hh = PyNone.
Proof.
  unfold all_None. rewrite !andb_true_iff, !is_None_true. tauto.
Qed.

Lemma fixVal_pandas_not_None isNumpy ws val index values name w v' w' :
  val <> PyNone ->
  fixVal_pandas isNumpy ws val index values name w = (Ok v', w') -> v' <> PyNone.
Proof.
  intros Hval. unfold fixVal_pandas. destruct isNumpy.
  - intros [= <- _]. discriminate.
  - intros Hrun. apply bind_Ok in Hrun as (columns & w1 & _ & Hrun).
    destruct (bool_decide (index = columns)); [|discriminate].
    injection Hrun as <- _. exact Hval.
Qed.

(** A supplied parameter stays supplied. *)
Lemma fixVal_not_None N isNumpy ws val name w v' w' :
  val <> PyNone ->
  fixVal N isNumpy ws val name w = (Ok v', w') -> v' <> PyNone.
Proof.
  intros Hval. unfold fixVal.
  destruct val as [|x|n|s|items|l]; try discriminate; try congruence.
  - intros [= <- _]. discriminate.
  - intros [= <- _]. discriminate.
  - intros Hrun. apply bind_Ok in Hrun as (o & w1 & _ & Hrun).
    destruct o as [items| |shape data|index nm values|index columns values];
      try discriminate.
    + destruct (length items =? N)%nat; [|discriminate].
      cbn [bind get_heap] in Hrun.
      destruct (np_array (heap w1) items) as [[shape data]|]; [|discriminate].
      injection Hrun as <- _. discriminate.
    + destruct (bool_decide (shape = [N])); [injection Hrun as <- _; discriminate|].
      destruct (bool_decide (shape = [N; 1%nat])); [|discriminate].
      injection Hrun as <- _. discriminate.
    + destruct (length index =? N)%nat; [|discriminate].
      now apply fixVal_pandas_not_None in Hrun.
    + destruct ((length index =? N)%nat && (length columns =? 1)%nat); [|discriminate].
      cbn [bind alloc] in Hrun. now apply fixVal_pandas_not_None in Hrun.
Qed.

Lemma fixVal_None N isNumpy ws name w : fixVal N isNumpy ws PyNone name w = (Ok PyNone, w).
Proof. reflexivity. Qed.

Lemma fixVals_inv N isNumpy ws mh hh r a w mh' hh' r' a' w' :
  fixVals N isNumpy ws mh hh r a w = (Ok (mh', hh', r', a'), w') ->
  exists w1 w2 w3,
    fixVal N isNumpy ws mh "measuredHeight" w = (Ok mh', w1) /\
    fixVal N isNumpy ws hh "hubHeight" w1 = (Ok hh', w2) /\
    fixVal N isNumpy ws r "roughness" w2 = (Ok r', w3) /\
    fixVal N isNumpy ws a "alpha" w3 = (Ok a', w').
Proof.
  unfold fixVals. intros Hrun.
  apply bind_Ok in Hrun as (v1 & w1 & H1 & Hrun).
  apply bind_Ok in Hrun as (v2 & w2 & H2 & Hrun).
  apply bind_Ok in Hrun as (v3 & w3 & H3 & Hrun).
  apply bind_Ok in Hrun as (v4 & w4 & H4 & Hrun).
  injection Hrun as <- <- <- <- <-. eauto 8.
Qed.

(** A parameter is [None] after [fixVals] exactly when it was before. *)
Lemma fixVals_None N isNumpy ws mh hh r a w mh' hh' r' a' w' :
  fixVals N isNumpy ws mh hh r a w = (Ok (mh', hh', r', a'), w') ->
  is_None r' = is_None r /\ is_None a' = is_None a.
Proof.
  intros Hrun. apply fixVals_inv in Hrun as (w1 & w2 & w3 & _ & _ & Hr & Ha).
  split.
  - destruct (is_None r) eqn:Er.
    + apply is_None_true in Er. subst r. now injection Hr as <- _.
    + apply is_None_false in Er. apply is_None_false.
      eapply fixVal_not_None; eauto.
  - destruct (is_None a) eqn:Ea.
    + apply is_None_true in Ea. subst a. now injection Ha as <- _.
    + apply is_None_false in Ea. apply is_None_false.
      eapply fixVal_not_None; eauto.
Qed.

Lemma doProjection_log ws mh hh r a w :
  r <> PyNone ->
  doProjection ws mh hh r a w =
    (Ok (PyRef (length (heap w))),
     projected w (projectByLogLaw (heap w) ws mh hh r) (CallProjectByLogLaw ws mh hh r)).
Proof.
  intros Hr. apply is_None_false in Hr. unfold doProjection. now rewrite Hr.
Qed.

Lemma doProjection_power ws mh hh a w :
  a <> PyNone ->
  doProjection ws mh hh PyNone a w =
    (Ok (PyRef (length (heap w))),
     projected w (projectByPowerLaw (heap w) ws mh hh a) (CallProjectByPowerLaw ws mh hh a)).
Proof.
  intros Ha. apply is_None_false in Ha. unfold doProjection. cbn [is_None negb].
  now rewrite Ha.
Qed.

Lemma doProjection_no_law ws mh hh w :
  doProjection ws mh hh PyNone PyNone w = (Raise no_law, w).
Proof. reflexivity. Qed.

Lemma doProjection_inv ws mh hh r a w ws2 w' :
  doProjection ws mh hh r a w = (Ok ws2, w') ->
  ws2 = PyRef (length (heap w)) /\
  exists o c, w' = projected w o c /\ is_projection_call c /\
    ((r <> PyNone /\ o = projectByLogLaw (heap w) ws mh hh r
        /\ c = CallProjectByLogLaw ws mh hh r) \/
     (r = PyNone /\ a <> PyNone /\ o = projectByPowerLaw (heap w) ws mh hh a
        /\ c = CallProjectByPowerLaw ws mh hh a)).
Proof.
  destruct (is_None r) eqn:Er.
  - apply is_None_true in Er. subst r.
    destruct (is_None a) eqn:Ea.
    + apply is_None_true in Ea. subst a. discriminate.
    + apply is_None_false in Ea. rewrite (doProjection_power _ _ _ _ _ Ea).
      intros [= <- <-]. split; [reflexivity|].
      eexists _, _. split; [reflexivity|]. split; [exact I|]. right. auto.
  - apply is_None_false in Er. rewrite (doProjection_log _ _ _ _ _ _ Er).
    intros [= <- <-]. split; [reflexivity|].
    eexists _, _. split; [reflexivity|]. split; [exact I|]. left. auto.
Qed.

Lemma project_skip N isNumpy ws w :
  project N isNumpy ws PyNone PyNone PyNone PyNone w = (Ok ws, w).
Proof. reflexivity. Qed.

Lemma project_no_heights N isNumpy ws mh r a hh w :
  all_None mh r a hh = false -> mh = PyNone \/ hh = PyNone ->
  project N isNumpy ws mh r a hh w = (Raise no_heights, w).
Proof.
  intros Hsome Hmissing. unfold project. fold (all_None mh r a hh). rewrite Hsome.
  assert (is_None mh || is_None hh = true) as ->; [|reflexivity].
  apply orb_true_iff. rewrite !is_None_true. exact Hmissing.
Qed.

Lemma project_run N isNumpy ws mh r a hh w :
  mh <> PyNone -> hh <> PyNone ->
  project N isNumpy ws mh r a hh w =
    bind (fixVals N isNumpy ws mh hh r a)
         (fun fixed => let '(mh', hh', r', a') := fixed in
                       doProjection ws mh' hh' r' a') w.
Proof.
  intros Hmh Hhh. apply is_None_false in Hmh, Hhh. unfold project.
  now rewrite Hmh, Hhh.
Qed.

Lemma project_inv N isNumpy ws mh r a hh w ws2 w' :
  project N isNumpy ws mh r a hh w = (Ok ws2, w') ->
  (all_None mh r a hh = true /\ ws2 = ws /\ w' = w) \/
  (all_None mh r a hh = false /\ mh <> PyNone /\ hh <> PyNone /\
   exists mh' hh' r' a' w1,
     fixVals N isNumpy ws mh hh r a w = (Ok (mh', hh', r', a'), w1) /\
     doProjection ws mh' hh' r' a' w1 = (Ok ws2, w')).
Proof.
  unfold project. fold (all_None mh r a hh).
  destruct (all_None mh r a hh); [intros [= <- <-]; auto|].
  destruct (is_None mh) eqn:Emh; [discriminate|].
  destruct (is_None hh) eqn:Ehh; [discriminate|].
  cbn [orb]. intros Hrun.
  apply bind_Ok in Hrun as ([[[mh' hh'] r'] a'] & w1 & Hfix & Hrun).
  right. rewrite <- !is_None_false. eauto 12.
Qed.

End Hub.

(** * Which collaborators a call reaches *)

Section Calls.
Context `{Collaborators}.

Lemma silent_calls {A} (m : M A) w res w' :
  respects (logged no_call) m -> m w = (res, w') -> calls w' = calls w.
Proof. intros Hm Hrun. apply logged_no_call. exact (Hm _ _ _ Hrun). Qed.

(** Without any projection parameter nothing is called on the way to hub
    height. *)
Lemma silent_toHubHeight_skip ws perf :
  respects (logged no_call) (toHubHeight ws perf PyNone PyNone PyNone PyNone).
Proof.
  pose proof silent_normalize. pose proof silent_setPerformance.
  unfold toHubHeight, project. cbn [is_None andb]. respects_tac.
Qed.

Lemma splines_makeOutputs b s ws pg maxPower :
  respects (logged is_spline_call) (makeOutputs b s ws pg maxPower).
Proof. apply silent_logged, silent_makeOutputs. Qed.

Lemma splines_simulateTurbine_skip ws perf loss :
  respects (logged is_spline_call)
    (simulateTurbine ws perf PyNone PyNone PyNone PyNone loss).
Proof.
  pose proof (silent_logged is_spline_call _ (silent_toHubHeight_skip ws perf)).
  pose proof splines_mapPower. pose proof splines_makeOutputs.
  unfold simulateTurbine. respects_tac.
Qed.

(** After the wind speeds at hub height, only the spline is called. *)
Lemma splines_after_hub isNumpy isSeries ws perf loss :
  respects (logged is_spline_call)
    (bind (mapPower isNumpy ws perf loss)
          (fun pm => makeOutputs isNumpy isSeries ws (fst pm) (snd pm))).
Proof.
  pose proof splines_mapPower. pose proof splines_makeOutputs. respects_tac.
Qed.

(** The calls of a successful run after the wind speeds at hub height. *)
Lemma calls_after_hub isNumpy isSeries ws perf loss w prod cf w' :
  bind (mapPower isNumpy ws perf loss)
       (fun pm => makeOutputs isNumpy isSeries ws (fst pm) (snd pm)) w
    = (Ok (prod, cf), w') ->
  exists x y hub, calls w' = calls w ++ [CallSplrep x y; CallSplev hub].
Proof.
  intros Hrun. apply bind_Ok in Hrun as ([pg maxPower] & w1 & Hmap & Hout).
  apply mapPower_spec in Hmap
    as (x & y & shape & hub & cutin & cutout & _ & _ & _ & _ & _ & _ & ->).
  exists x, y, hub.
  now rewrite (silent_calls _ _ _ _ (silent_makeOutputs _ _ _ _ _) Hout).
Qed.

Lemma simulateTurbine_after_hub ws perf mh r a hh loss w ws2 perf' isNumpy isSeries N w1 :
  toHubHeight ws perf mh r a hh w = (Ok (ws2, perf', isNumpy, isSeries, N), w1) ->
  simulateTurbine ws perf mh r a hh loss w =
    bind (mapPower isNumpy ws2 perf' loss)
         (fun pm => makeOutputs isNumpy isSeries ws2 (fst pm) (snd pm)) w1.
Proof. intros Hhub. unfold simulateTurbine. now rewrite (bind_run _ _ _ _ _ Hhub). Qed.

Lemma simulateTurbine_hub_fails ws perf mh r a hh loss w e w1 :
  toHubHeight ws perf mh r a hh w = (Raise e, w1) ->
  simulateTurbine ws perf mh r a hh loss w = (Raise e, w1).
Proof. intros Hhub. unfold simulateTurbine. now rewrite (bind_fail _ _ _ _ _ Hhub). Qed.

Lemma simulateTurbine_Ok_hub ws perf mh r a hh loss w prod cf w' :
  simulateTurbine ws perf mh r a hh loss w = (Ok (prod, cf), w') ->
  exists ws2 perf' isNumpy isSeries N w1,
    toHubHeight ws perf mh r a hh w = (Ok (ws2, perf', isNumpy, isSeries, N), w1).
Proof.
  unfold simulateTurbine. intros Hrun.
  apply bind_Ok in Hrun as ([[[[ws2 perf'] b] s] N] & w1 & Hhub & _). eauto 8.
Qed.

End Calls.

(** * The layout of the wind speeds on the way to hub height *)

Section Total.
Context `{Collaborators}.

Lemma Qlist_max_Some (l : list Q) : l <> [] -> exists x, Qlist_max l = Some x.
Proof. destruct l; [congruence | cbn; eauto]. Qed.

Lemma Qlist_min_Some (l : list Q) : l <> [] -> exists x, Qlist_min l = Some x.
Proof. destruct l; [congruence | cbn; eauto]. Qed.

Lemma normalized_later h h' ws isNumpy isSeries lay :
  normalized h ws isNumpy isSeries lay ->
  (forall l o, h !! l = Some o -> h' !! l = Some o) ->
  normalized h' ws isNumpy isSeries lay.
Proof.
  intros (l & o & -> & Hl & Hlay & Hkind) Hext.
  exists l, o. auto.
Qed.

(** A projection that keeps the layout returns wind speeds as normalized as
    the ones it was given. *)
Lemma normalized_projected h ws isNumpy isSeries lay project mh hh p :
  keeps_layout project ->
  normalized h ws isNumpy isSeries lay ->
  normalized (h ++ [project h ws mh hh p]) (PyRef (length h)) isNumpy isSeries lay.
Proof.
  intros Hkeep (l & o & -> & Hl & Hlay & Hkind).
  specialize (Hkeep h l o mh hh p Hl).
  exists (length h), (project h (PyRef l) mh hh p).
  split; [reflexivity|]. split; [apply lookup_new|].
  destruct o as [| |shape d|index name values|index columns values];
    try contradiction; destruct Hkeep as (d' & ->); auto.
Qed.

Lemma lookup_after {A} (m : M A) w r w' l o :
  respects (frame_rel (length (heap w))) m ->
  m w = (r, w') -> heap w !! l = Some o -> heap w' !! l = Some o.
Proof. intros Hm Hrun. apply frame_rel_lookup. exact (Hm _ _ _ Hrun). Qed.

(** The wind speeds at hub height have the layout of the input. *)
Lemma toHubHeight_normalized ws perf mh r a hh w ws2 perf' isNumpy isSeries N w3 :
  keeps_layout projectByLogLaw -> keeps_layout projectByPowerLaw ->
  toHubHeight ws perf mh r a hh w = (Ok (ws2, perf', isNumpy, isSeries, N), w3) ->
  normalized (heap w3) ws2 isNumpy isSeries (input_layout (heap w) ws).
Proof.
  intros Hlog Hpow Hhub.
  apply toHubHeight_inv in Hhub as (ws1 & w1 & w2 & Hn & Hp & Hproj).
  apply normalize_spec in Hn.
  eapply normalized_later in Hn;
    [|intros l o; exact (lookup_after _ _ _ _ _ _ (frame_setPerformance _ _) Hp)].
  apply project_inv in Hproj
    as [(_ & -> & ->) | (_ & _ & _ & mh' & hh' & r' & a' & w4 & Hfix & Hdo)];
    [exact Hn|].
  eapply normalized_later in Hn;
    [|intros l o; exact (lookup_after _ _ _ _ _ _ (frame_fixVals _ _ _ _ _ _ _ _) Hfix)].
  apply doProjection_inv in Hdo as (-> & o & c & -> & _ & Ho).
  cbn [projected heap].
  destruct Ho as [(_ & -> & _) | (_ & _ & -> & _)];
    now apply normalized_projected.
Qed.

End Total.

(** * Which exceptions a call can end in *)

Section Raised.
Context `{Collaborators} (P : exn -> Prop).
Hypothesis Hother : forall e, is_ResError e = false -> P e.

(** ** What raises none of the library's errors *)

Lemma quiet_subscript0 v : raises_only P (subscript0 v).
Proof. unfold subscript0. raises_tac. Qed.

Lemma quiet_setPerformance perf : raises_only P (setPerformance perf).
Proof. unfold setPerformance. raises_tac. Qed.

Lemma quiet_columns_of ws : raises_only P (columns_of ws).
Proof. unfold columns_of. raises_tac. Qed.

Lemma quiet_index_of ws : raises_only P (index_of ws).
Proof. unfold index_of. raises_tac. Qed.

Lemma quiet_performance_columns perf : raises_only P (performance_columns perf).
Proof. unfold performance_columns. raises_tac. Qed.

Lemma quiet_values_of b ws : raises_only P (values_of b ws).
Proof. unfold values_of. raises_tac. Qed.

Lemma quiet_new_array shape data : raises_only P (new_array shape data).
Proof. unfold new_array. raises_tac. Qed.

Lemma quiet_masked_assign pg mask x : raises_only P (masked_assign pg mask x).
Proof. unfold masked_assign. raises_tac. Qed.

Lemma quiet_compare_array pg test : raises_only P (compare_array pg test).
Proof. unfold compare_array. raises_tac. Qed.

Lemma quiet_array_max a : raises_only P (array_max a).
Proof. unfold array_max. raises_tac. Qed.

Lemma quiet_array_min a : raises_only P (array_min a).
Proof. unfold array_min. raises_tac. Qed.

Lemma quiet_cleanUp b ws pg top lo hi : raises_only P (cleanUp b ws pg top lo hi).
Proof.
  pose proof quiet_compare_array. pose proof quiet_masked_assign.
  pose proof quiet_values_of. unfold cleanUp. raises_tac.
Qed.

Lemma quiet_mapPower b ws perf loss : raises_only P (mapPower b ws perf loss).
Proof.
  pose proof quiet_performance_columns. pose proof quiet_values_of.
  pose proof quiet_new_array. pose proof quiet_array_max. pose proof quiet_array_min.
  pose proof quiet_cleanUp. unfold mapPower. raises_tac.
Qed.

Lemma quiet_array_of pg : raises_only P (array_of pg).
Proof. unfold array_of. raises_tac. Qed.

Lemma quiet_wrap s ws pg : raises_only P (wrap s ws pg).
Proof.
  pose proof quiet_array_of. pose proof quiet_index_of. pose proof quiet_columns_of.
  unfold wrap. raises_tac.
Qed.

Lemma quiet_capFactor_of pg maxPower : raises_only P (capFactor_of pg maxPower).
Proof. unfold capFactor_of. raises_tac. Qed.

Lemma quiet_makeOutputs b s ws pg maxPower : raises_only P (makeOutputs b s ws pg maxPower).
Proof.
  pose proof quiet_wrap. pose proof quiet_capFactor_of. unfold makeOutputs. raises_tac.
Qed.

(** After the wind speeds at hub height no error of the library is
    raised. *)
Lemma quiet_after_hub isNumpy isSeries ws perf loss :
  raises_only P
    (bind (mapPower isNumpy ws perf loss)
          (fun pm => makeOutputs isNumpy isSeries ws (fst pm) (snd pm))).
Proof. pose proof quiet_mapPower. pose proof quiet_makeOutputs. raises_tac. Qed.

(** ** The errors of the projection *)

Lemma raises_fixVal_pandas b ws val index values name :
  P (bad_labels name) -> raises_only P (fixVal_pandas b ws val index values name).
Proof. pose proof quiet_columns_of. unfold fixVal_pandas. raises_tac. Qed.

Lemma raises_fixVal N b ws val name :
  rejects_with P name -> raises_only P (fixVal N b ws val name).
Proof.
  intros (Hlen & Hshape & Hlabels & Htype).
  pose proof (fun b ws val index values =>
                raises_fixVal_pandas b ws val index values name Hlabels).
  unfold fixVal. raises_tac.
Qed.

Section Projection.
Hypothesis Hmh : rejects_with P "measuredHeight".
Hypothesis Hhh : rejects_with P "hubHeight".
Hypothesis Hr : rejects_with P "roughness".
Hypothesis Ha : rejects_with P "alpha".
Hypothesis Hheights : P no_heights.
Hypothesis Hlaw : P no_law.

Lemma raises_fixVals N b ws mh hh r a : raises_only P (fixVals N b ws mh hh r a).
Proof.
  pose proof (fun N b ws v => raises_fixVal N b ws v _ Hmh).
  pose proof (fun N b ws v => raises_fixVal N b ws v _ Hhh).
  pose proof (fun N b ws v => raises_fixVal N b ws v _ Hr).
  pose proof (fun N b ws v => raises_fixVal N b ws v _ Ha).
  unfold fixVals. raises_tac.
Qed.

Lemma raises_doProjection ws mh hh r a : raises_only P (doProjection ws mh hh r a).
Proof. unfold doProjection. raises_tac. Qed.

Lemma raises_project N b ws mh r a hh : raises_only P (project N b ws mh r a hh).
Proof.
  pose proof raises_fixVals. pose proof raises_doProjection.
  unfold project. raises_tac.
Qed.

(** A failure of the call is the failure of the input check, lines 83-107,
    or one that satisfies [P]. *)
Lemma simulateTurbine_raises ws perf mh r a hh loss w e w' :
  simulateTurbine ws perf mh r a hh loss w = (Raise e, w') ->
  normalize ws w = (Raise e, w') \/ P e.
Proof.
  unfold simulateTurbine, toHubHeight. intros Hrun.
  apply bind_inv in Hrun as [(hub & w1 & _ & Hrest) | (e' & Hhub & [= <-])].
  - right. destruct hub as [[[[ws2 perf'] isNumpy] isSeries] N].
    exact (quiet_after_hub _ _ _ _ _ _ _ _ Hrest).
  - apply bind_inv in Hhub as [(n & w1 & _ & Hrest) | (e' & Hn & [= <-])];
      [right | now left].
    destruct n as [[[ws1 isNumpy] isSeries] N].
    cbv beta iota in Hrest.
    match type of Hrest with ?m w1 = _ => assert (Hq : raises_only P m) end.
    { pose proof quiet_setPerformance. pose proof raises_project. raises_tac. }
    exact (Hq _ _ _ Hrest).
Qed.

End Projection.

End Raised.

(** The error of the input check is none of the errors of the later
    stages. *)
Lemma not_understood_is_its_own (name : string) :
  In name ["measuredHeight"; "hubHeight"; "roughness"; "alpha"]%string ->
  rejects_with (fun e => e <> not_understood) name.
Proof.
  intros [<- | [<- | [<- | [<- | []]]]]; repeat split; intros Heq;
    vm_compute in Heq; discriminate Heq.
Qed.

(** ** The input check itself *)

(** A frame, a series, an array or a list is never refused by the check:
    a frame, a series and an array are taken as they are, whatever their
    shape, and a list fails, if it does, with an error that is not the
    library's. *)
Lemma normalize_accepts_type ws w t :
  type_of (heap w) ws = Some t ->
  t = TDataFrame \/ t = TSeries \/ t = TNdarray \/ t = TList ->
  (forall res w', normalize ws w = (res, w') -> forall msg, res <> Raise (ResError msg)) /\
  (t <> TList -> exists isNumpy isSeries N,
     normalize ws w = (Ok (ws, isNumpy, isSeries, N), w)).
Proof.
  intros Ht Hkind.
  destruct ws as [| | | | |l];
    try (cbn in Ht; injection Ht as <-; repeat destruct Hkind as [Hkind|Hkind];
         discriminate).
  cbn [type_of] in Ht. destruct (heap w !! l) as [o|] eqn:Hl; [|discriminate].
  unfold normalize. rewrite (bind_run _ _ _ _ _ (load_run _ _ _ Hl)).
  destruct o as [items|items|shape data|index name values|index columns values];
    injection Ht as <-.
  - split; [|congruence]. intros res w' Hrun msg ->. cbv beta iota in Hrun.
    match type of Hrun with ?m w = _ =>
      assert (Hq : raises_only (fun e => is_ResError e = false) m) end.
    { assert (Hother : forall e, is_ResError e = false -> is_ResError e = false)
        by auto.
      pose proof (quiet_subscript0 _ Hother). raises_tac. }
    discriminate (Hq _ _ _ Hrun).
  - repeat destruct Hkind as [Hkind|Hkind]; discriminate.
  - split; [intros res w' [= <- _] msg; discriminate | eauto].
  - split; [intros res w' [= <- _] msg; discriminate | eauto].
  - split; [intros res w' [= <- _] msg; discriminate | eauto].
Qed.

(** * The properties of the specification *)

Section Properties.
Context `{Collaborators}.

Lemma Qltb_lt (x y : Q) : Qltb x y = true <-> (x < y)%Q.
Proof.
  unfold Qltb. rewrite Qlt_alt. destruct (x ?= y)%Q; split; congruence.
Qed.

(** Where the hub-height wind speed is outside the curve, the clean-up
    leaves zero, whatever the interpolated power. *)
Lemma clean_outside maxPower cutin cutout v raw :
  (v < cutin \/ cutout < v)%Q -> clean maxPower cutin cutout v raw = 0%Q.
Proof.
  unfold clean. intros [Hin | Hout].
  - apply Qltb_lt in Hin. rewrite Hin. now destruct (Qltb cutout v).
  - apply Qltb_lt in Hout. now rewrite Hout.
Qed.

(** A successful call, taken apart: the wind speeds at hub height, the
    curve, and the production in closed form. *)
Lemma simulateTurbine_spec ws perf mh r a hh loss w ws' perf' isNumpy isSeries N w1 prod cf w' :
  toHubHeight ws perf mh r a hh w = (Ok (ws', perf', isNumpy, isSeries, N), w1) ->
  simulateTurbine ws perf mh r a hh loss w = (Ok (prod, cf), w') ->
  exists x y shape hub maxPower cutin cutout series,
    performance_columns perf' w1 = (Ok (x, y), w1) /\
    values_of isNumpy ws' w1 = (Ok (shape, hub), w1) /\
    Qlist_max y = Some maxPower /\ Qlist_min x = Some cutin /\ Qlist_max x = Some cutout /\
    production_values (heap w') prod
      = Some (map (fun v => clean maxPower cutin cutout v
                              (splev v (splrep x y) * (1 - loss))%Q) hub) /\
    production_series (heap w') prod = Some series /\
    capacity_factors (heap w') cf = Some (map (fun s => (Qmean s / maxPower)%Q) series).
Proof.
  intros Hhub Hrun. unfold simulateTurbine in Hrun.
  rewrite (bind_run _ _ _ _ _ Hhub) in Hrun.
  apply bind_Ok in Hrun as ([pg maxPower] & w2 & Hmap & Hrun).
  apply mapPower_spec in Hmap
    as (x & y & shape & hub & cutin & cutout & Hpc & Hv & Hmax & Hmin & Hout & -> & ->).
  cbn [fst snd] in Hrun.
  eapply makeOutputs_spec in Hrun as (series & Hvals & Hseries & Hcf);
    [|cbn [heap]; apply lookup_new].
  exists x, y, shape, hub, maxPower, cutin, cutout, series. auto 10.
Qed.

(** C1. The returned capacity factor is the mean over time of each series
    of the returned production, divided by rated power, the largest power
    value of the resolved performance curve: one number per series. *)
Theorem capacity_factor_is_mean_over_rated
    ws perf mh r a hh loss w ws' perf' isNumpy isSeries N w1 prod cf w' :
  toHubHeight ws perf mh r a hh w = (Ok (ws', perf', isNumpy, isSeries, N), w1) ->
  simulateTurbine ws perf mh r a hh loss w = (Ok (prod, cf), w') ->
  exists x y ratedPower series,
    performance_columns perf' w1 = (Ok (x, y), w1) /\
    Qlist_max y = Some ratedPower /\
    production_series (heap w') prod = Some series /\
    capacity_factors (heap w') cf
      = Some (map (fun s => (Qmean s / ratedPower)%Q) series).
Proof.
  intros Hhub Hrun.
  destruct (simulateTurbine_spec _ _ _ _ _ _ _ _ _ _ _ _ _ _ _ _ _ Hhub Hrun)
    as (x & y & shape & hub & maxPower & cutin & cutout & series
        & Hpc & _ & Hmax & _ & _ & _ & Hseries & Hcf).
  exists x, y, maxPower, series. auto.
Qed.

(** C3. Wherever the wind speed at hub height (projected, when a projection
    was asked for) is strictly below cut-in, the least wind speed of the
    curve, or strictly above cut-out, the greatest, the returned production
    is exactly 0: the floor and the ceiling come first and do not undo it. *)
Theorem zero_outside_cut_in_cut_out
    ws perf mh r a hh loss w ws' perf' isNumpy isSeries N w1 prod cf w' :
  toHubHeight ws perf mh r a hh w = (Ok (ws', perf', isNumpy, isSeries, N), w1) ->
  simulateTurbine ws perf mh r a hh loss w = (Ok (prod, cf), w') ->
  exists x y shape hub cutin cutout production,
    performance_columns perf' w1 = (Ok (x, y), w1) /\
    Qlist_min x = Some cutin /\ Qlist_max x = Some cutout /\
    values_of isNumpy ws' w1 = (Ok (shape, hub), w1) /\
    production_values (heap w') prod = Some production /\
    length production = length hub /\
    forall i v, hub !! i = Some v -> (v < cutin \/ cutout < v)%Q ->
                production !! i = Some 0%Q.
Proof.
  intros Hhub Hrun.
  destruct (simulateTurbine_spec _ _ _ _ _ _ _ _ _ _ _ _ _ _ _ _ _ Hhub Hrun)
    as (x & y & shape & hub & maxPower & cutin & cutout & series
        & Hpc & Hv & _ & Hmin & Hout & Hvals & _ & _).
  eexists x, y, shape, hub, cutin, cutout, _.
  repeat (split; [eassumption|]).
  split; [now rewrite length_map|].
  intros i v Hi Hv'. rewrite list_lookup_fmap, Hi. cbn.
  now rewrite clean_outside.
Qed.

(** C10. Whether the call returns or raises, the catalog is what it was and
    every object that was in the heap, the caller's wind speeds and curve
    among them, holds the value it held. *)
Theorem simulateTurbine_leaves_caller_state
    ws perf mh r a hh loss w res w' :
  simulateTurbine ws perf mh r a hh loss w = (res, w') ->
  TurbineLibrary w' = TurbineLibrary w /\
  forall l o, heap w !! l = Some o -> heap w' !! l = Some o.
Proof.
  intros Hrun.
  pose proof (frame_simulateTurbine (length (heap w)) _ _ _ _ _ _ _ _ _ _ Hrun) as Hf.
  split.
  - now destruct (Hf (le_n _)).
  - intros l o. now apply frame_rel_lookup.
Qed.

(** C4. With the input understood and the curve resolved: when the four
    projection parameters are all null, the normalized input itself is the
    wind speed at hub height and no projection function is called, whatever
    the outcome; when one is non-null and a height is null, the call fails
    with the missing-heights error and no collaborator has been called; when
    one is non-null and the call succeeds, one projection ran before the
    spline. *)
Theorem projection_runs_iff_requested
    ws perf mh r a hh loss w ws1 isNumpy isSeries N w1 perf' w2 :
  normalize ws w = (Ok (ws1, isNumpy, isSeries, N), w1) ->
  setPerformance perf w1 = (Ok perf', w2) ->
  (mh = PyNone /\ r = PyNone /\ a = PyNone /\ hh = PyNone ->
     toHubHeight ws perf mh r a hh w = (Ok (ws1, perf', isNumpy, isSeries, N), w2) /\
     forall res w', simulateTurbine ws perf mh r a hh loss w = (res, w') ->
                    logged is_spline_call w w') /\
  (~ (mh = PyNone /\ r = PyNone /\ a = PyNone /\ hh = PyNone) ->
   mh = PyNone \/ hh = PyNone ->
     simulateTurbine ws perf mh r a hh loss w = (Raise no_heights, w2) /\
     calls w2 = calls w) /\
  (~ (mh = PyNone /\ r = PyNone /\ a = PyNone /\ hh = PyNone) ->
   forall prod cf w', simulateTurbine ws perf mh r a hh loss w = (Ok (prod, cf), w') ->
     exists c x y hub, is_projection_call c /\
       calls w' = calls w ++ [c; CallSplrep x y; CallSplev hub]).
Proof.
  intros Hn Hp.
  assert (Hcalls2 : calls w2 = calls w).
  { rewrite (silent_calls _ _ _ _ (silent_setPerformance _) Hp).
    exact (silent_calls _ _ _ _ (silent_normalize _) Hn). }
  split; [|split].
  - intros (-> & -> & -> & ->). split.
    + rewrite (toHubHeight_run _ _ _ _ _ _ _ _ _ _ _ _ _ _ Hn Hp). reflexivity.
    + intros res w' Hrun. exact (splines_simulateTurbine_skip _ _ _ _ _ _ Hrun).
  - intros Hsome Hmissing. split; [|exact Hcalls2].
    apply simulateTurbine_hub_fails.
    rewrite (toHubHeight_run _ _ _ _ _ _ _ _ _ _ _ _ _ _ Hn Hp).
    apply bind_fail, project_no_heights; [|exact Hmissing].
    rewrite <- not_true_iff_false, all_None_true. exact Hsome.
  - intros Hsome prod cf w' Hrun.
    destruct (simulateTurbine_Ok_hub _ _ _ _ _ _ _ _ _ _ _ Hrun)
      as (ws2 & perf2 & b & s & N' & w3 & Hhub).
    rewrite (simulateTurbine_after_hub _ _ _ _ _ _ _ _ _ _ _ _ _ _ Hhub) in Hrun.
    apply calls_after_hub in Hrun as (x & y & hub & Hcalls).
    apply toHubHeight_inv in Hhub as (ws1' & w1' & w2' & Hn' & Hp' & Hproj).
    rewrite Hn in Hn'. injection Hn' as <- <- <- <- <-.
    rewrite Hp in Hp'. injection Hp' as <- <-.
    apply project_inv in Hproj
      as [(Hall & _) | (_ & _ & _ & mh' & hh' & r' & a' & w4 & Hfix & Hdo)].
    { apply all_None_true in Hall. contradiction. }
    apply doProjection_inv in Hdo as (_ & o & c & -> & Hc & _).
    exists c, x, y, hub. split; [exact Hc|].
    rewrite Hcalls. cbn [projected calls].
    rewrite (silent_calls _ _ _ _ (silent_fixVals _ _ _ _ _ _ _) Hfix), Hcalls2.
    now rewrite <- app_assoc.
Qed.

(** C6. With both heights, roughness and alpha all supplied and accepted
    by the broadcaster, the wind speeds at hub height are those of the
    logarithmic law with the roughness; it is the one projection called in
    the whole call, and the pair of laws raises nothing. *)
Theorem roughness_takes_precedence
    ws perf mh r a hh loss w ws1 isNumpy isSeries N w1 perf' w2 mh' hh' r' a' w3 :
  normalize ws w = (Ok (ws1, isNumpy, isSeries, N), w1) ->
  setPerformance perf w1 = (Ok perf', w2) ->
  mh <> PyNone -> hh <> PyNone -> r <> PyNone -> a <> PyNone ->
  fixVals N isNumpy ws1 mh hh r a w2 = (Ok (mh', hh', r', a'), w3) ->
  toHubHeight ws perf mh r a hh w =
    (Ok (PyRef (length (heap w3)), perf', isNumpy, isSeries, N),
     projected w3 (projectByLogLaw (heap w3) ws1 mh' hh' r')
                  (CallProjectByLogLaw ws1 mh' hh' r')) /\
  forall res w', simulateTurbine ws perf mh r a hh loss w = (res, w') ->
    exists cs, calls w' = calls w ++ CallProjectByLogLaw ws1 mh' hh' r' :: cs /\
               Forall is_spline_call cs.
Proof.
  intros Hn Hp Hmh Hhh Hr Ha Hfix.
  assert (Hr' : r' <> PyNone).
  { apply is_None_false. destruct (fixVals_None _ _ _ _ _ _ _ _ _ _ _ _ _ Hfix) as [-> _].
    now apply is_None_false. }
  assert (Hhub : toHubHeight ws perf mh r a hh w =
    (Ok (PyRef (length (heap w3)), perf', isNumpy, isSeries, N),
     projected w3 (projectByLogLaw (heap w3) ws1 mh' hh' r')
                  (CallProjectByLogLaw ws1 mh' hh' r'))).
  { rewrite (toHubHeight_run _ _ _ _ _ _ _ _ _ _ _ _ _ _ Hn Hp).
    rewrite (bind_run _ _ _ _ _
      (eq_trans (project_run _ _ _ _ _ _ _ _ Hmh Hhh)
                (eq_trans (bind_run _ _ _ _ _ Hfix) (doProjection_log _ _ _ _ a' _ Hr')))).
    reflexivity. }
  split; [exact Hhub|].
  intros res w' Hrun.
  rewrite (simulateTurbine_after_hub _ _ _ _ _ _ _ _ _ _ _ _ _ _ Hhub) in Hrun.
  destruct (splines_after_hub _ _ _ _ _ _ _ _ Hrun) as (cs & Hcs & Hspl).
  exists cs. split; [|exact Hspl].
  rewrite Hcs. cbn [projected calls].
  rewrite (silent_calls _ _ _ _ (silent_fixVals _ _ _ _ _ _ _) Hfix).
  rewrite (silent_calls _ _ _ _ (silent_setPerformance _) Hp).
  rewrite (silent_calls _ _ _ _ (silent_normalize _) Hn).
  now rewrite <- app_assoc.
Qed.


(** C7. Given projection functions that keep the layout of the wind speeds
    they are given, the returned production has the layout of the input: a
    flat sequence gives an unlabeled array of one dimension, nested
    sequences and arrays give an unlabeled array of the same shape, a
    series gives a series with the input's index, a frame gives a frame
    with the input's index and columns, in the same order.  A returned
    series is named "production". *)
Theorem production_follows_input_convention
    ws perf mh r a hh loss w prod cf w' :
  keeps_layout projectByLogLaw -> keeps_layout projectByPowerLaw ->
  simulateTurbine ws perf mh r a hh loss w = (Ok (prod, cf), w') ->
  exists p o,
    prod = PyRef p /\ heap w' !! p = Some o /\
    layout_of o = input_layout (heap w) ws /\
    (forall index name values,
       o = Series index name values -> name = Some "production"%string).
Proof.
  intros Hlog Hpow Hrun.
  destruct (simulateTurbine_Ok_hub _ _ _ _ _ _ _ _ _ _ _ Hrun)
    as (ws2 & perf2 & isNumpy & isSeries & N & w1 & Hhub).
  rewrite (simulateTurbine_after_hub _ _ _ _ _ _ _ _ _ _ _ _ _ _ Hhub) in Hrun.
  apply (toHubHeight_normalized _ _ _ _ _ _ _ _ _ _ _ _ _ Hlog Hpow) in Hhub
    as (l & o2 & -> & Hl & Hlay & Hkind).
  apply bind_Ok in Hrun as ([pg maxPower] & w2 & Hmap & Hout).
  apply mapPower_spec in Hmap
    as (x & y & shape & hub & cutin & cutout & _ & Hv & _ & _ & _ & -> & ->).
  cbn [fst snd] in Hout.
  eapply makeOutputs_object in Hout as (q & o & -> & Hq & Ho);
    [|cbn [heap]; apply lookup_new].
  exists q, o. split; [reflexivity|]. split; [exact Hq|].
  rewrite <- Hlay.
  unfold values_of in Hv. rewrite (bind_run _ _ _ _ _ (load_run _ _ _ Hl)) in Hv.
  unfold index_of, columns_of in Ho.
  rewrite !(bind_run _ _ _ _ _
              (load_run _ _ _ (lookup_old _ [_] _ _ Hl : heap (World _ _ _) !! l = _)))
    in Ho.
  destruct o2 as [| |shape2 d|index2 name2 values2|index2 columns2 values2];
    try contradiction.
  - subst isNumpy. injection Hv as <- <-.
    destruct Ho as [(_ & ->) | [(? & _) | (? & _)]]; try discriminate.
    split; [reflexivity | discriminate].
  - destruct Hkind as [-> ->].
    destruct Ho as [(? & _) | [(_ & _ & index & [= <-] & ->) | (_ & ? & _)]];
      try discriminate.
    split; [reflexivity|]. now intros ? ? ? [= _ <- _].
  - destruct Hkind as [-> ->].
    destruct Ho as [(? & _) | [(_ & ? & _)
                   | (_ & _ & index & columns & [= <-] & [= <-] & ->)]];
      try discriminate.
    split; [reflexivity | discriminate].
Qed.

(** The spline is fitted on the two columns of the resolved curve as they
    are stored, row after row. *)
Lemma spline_is_fitted_on_curve_as_given
    ws perf mh r a hh loss w ws' perf' isNumpy isSeries N w1 prod cf w' :
  toHubHeight ws perf mh r a hh w = (Ok (ws', perf', isNumpy, isSeries, N), w1) ->
  simulateTurbine ws perf mh r a hh loss w = (Ok (prod, cf), w') ->
  exists x y hub,
    performance_columns perf' w1 = (Ok (x, y), w1) /\
    calls w' = calls w1 ++ [CallSplrep x y; CallSplev hub].
Proof.
  intros Hhub Hrun.
  rewrite (simulateTurbine_after_hub _ _ _ _ _ _ _ _ _ _ _ _ _ _ Hhub) in Hrun.
  apply bind_Ok in Hrun as ([pg maxPower] & w2 & Hmap & Hout).
  apply mapPower_spec in Hmap
    as (x & y & shape & hub & cutin & cutout & Hpc & _ & _ & _ & _ & _ & ->).
  exists x, y, hub. split; [exact Hpc|].
  now rewrite (silent_calls _ _ _ _ (silent_makeOutputs _ _ _ _ _) Hout).
Qed.

(** ** The curve of a caller *)

Lemma nums_of_curve_items pairs : pairs <> [] -> nums_of (curve_items pairs) = None.
Proof. destruct pairs; [congruence | reflexivity]. Qed.

Lemma rows_of_curve_items h pairs :
  rows_of h (curve_items pairs) = Some (map (fun p => [fst p; snd p]) pairs).
Proof.
  induction pairs as [|p pairs IH]; [reflexivity|].
  cbn [curve_items map rows_of row_of nums_of num_of]. fold (curve_items pairs).
  now rewrite IH.
Qed.

Lemma all_length_pairs (pairs : list (Q * Q)) :
  all_length 2 (map (fun p => [fst p; snd p]) pairs) = true.
Proof. induction pairs as [|p pairs IH]; [reflexivity | exact IH]. Qed.

Lemma column_of_pairs (pairs : list (Q * Q)) :
  column (length pairs) 2 0 (concat (map (fun p => [fst p; snd p]) pairs)) = map fst pairs /\
  column (length pairs) 2 1 (concat (map (fun p => [fst p; snd p]) pairs)) = map snd pairs.
Proof.
  unfold column. induction pairs as [|p pairs [IH0 IH1]]; [split; reflexivity|].
  cbn [length seq map concat app]. rewrite <- !seq_shift, !map_map.
  split; f_equal.
  - rewrite <- IH0. apply map_ext. intros i.
    now replace (S i * 2 + 0) with (S (S (i * 2 + 0))) by lia.
  - rewrite <- IH1. apply map_ext. intros i.
    now replace (S i * 2 + 1) with (S (S (i * 2 + 1))) by lia.
Qed.

Lemma np_array_curve h pairs :
  pairs <> [] ->
  np_array h (curve_items pairs)
    = Some ([length pairs; 2%nat], concat (map (fun p => [fst p; snd p]) pairs)).
Proof.
  intros Hne. unfold np_array.
  rewrite (nums_of_curve_items _ Hne), rows_of_curve_items.
  destruct pairs as [|p pairs]; [congruence|].
  cbn [map]. cbn [length]. rewrite all_length_pairs.
  unfold curve_items. cbn [map length]. now rewrite length_map.
Qed.

(** A curve given as a list of pairs is resolved to an array that holds
    the pairs in the order given: its two columns are the wind speeds and
    the powers as the caller listed them. *)
Lemma curve_is_kept_in_given_order l pairs w :
  pairs <> [] ->
  heap w !! l = Some (PyList (curve_items pairs)) ->
  exists perf' w1,
    setPerformance (PyRef l) w = (Ok perf', w1) /\
    performance_columns perf' w1 = (Ok (map fst pairs, map snd pairs), w1).
Proof.
  intros Hne Hl. unfold setPerformance.
  rewrite (bind_run _ _ _ _ _ (load_run _ _ _ Hl)). cbn [bind get_heap].
  rewrite (np_array_curve _ _ Hne).
  eexists _, _. split; [reflexivity|].
  unfold performance_columns, alloc.
  erewrite bind_run by (apply load_run; cbn [heap]; apply lookup_new).
  cbn [Nat.leb].
  destruct (column_of_pairs pairs) as [-> ->]. reflexivity.
Qed.

(** C8, where the code departs from it.  With a series of wind speeds, a
    parameter given as a series of the right length is neither accepted nor
    refused for its labels: reading the columns of the wind speeds raises
    [AttributeError], whatever the labels are. *)
Theorem labeled_parameter_on_series_input
    N l index name values lv vindex vname vvalues pname w :
  heap w !! l = Some (Series index name values) ->
  heap w !! lv = Some (Series vindex vname vvalues) ->
  length vindex = N ->
  fixVal N false (PyRef l) (PyRef lv) pname w = (Raise AttributeError, w).
Proof.
  intros Hl Hlv Hlen. unfold fixVal.
  rewrite (bind_run _ _ _ _ _ (load_run _ _ _ Hlv)).
  rewrite Hlen, Nat.eqb_refl. unfold fixVal_pandas, columns_of.
  now rewrite (bind_fail _ _ _ _ _
                 (eq_trans (bind_run _ _ _ _ _ (load_run _ _ _ Hl)) eq_refl)).
Qed.

(** What the broadcaster does otherwise: a scalar is kept as a float, for
    numpy to broadcast. *)
Lemma fixVal_scalar N isNumpy ws v name w x :
  num_of v = Some x -> fixVal N isNumpy ws v name w = (Ok (PyFloat x), w).
Proof. destruct v; try discriminate; now intros [= <-]. Qed.

(** A list of numbers is accepted exactly when it has [N] of them, and
    becomes an array of shape [(N,)]. *)
Lemma fixVal_list N isNumpy ws l items xs name w :
  heap w !! l = Some (PyList items) -> nums_of items = Some xs ->
  fixVal N isNumpy ws (PyRef l) name w =
    if (length items =? N)%nat
    then (Ok (PyRef (length (heap w))), set_heap w (heap w ++ [Ndarray [length items] xs]))
    else (Raise (bad_length name), w).
Proof.
  intros Hl Hxs. unfold fixVal. rewrite (bind_run _ _ _ _ _ (load_run _ _ _ Hl)).
  destruct (length items =? N)%nat; [|reflexivity].
  cbn [bind get_heap]. unfold np_array. now rewrite Hxs.
Qed.

(** An array is accepted exactly when its shape is [(N,)] or [(N, 1)]. *)
Lemma fixVal_ndarray N isNumpy ws l shape data name w :
  heap w !! l = Some (Ndarray shape data) ->
  fixVal N isNumpy ws (PyRef l) name w =
    if bool_decide (shape = [N]) then (Ok (PyRef l), w)
    else if bool_decide (shape = [N; 1%nat])
         then (Ok (PyRef (length (heap w))), set_heap w (heap w ++ [Ndarray [N] data]))
         else (Raise (bad_shape name), w).
Proof.
  intros Hl. unfold fixVal. rewrite (bind_run _ _ _ _ _ (load_run _ _ _ Hl)).
  destruct (bool_decide (shape = [N])); [reflexivity|].
  now destruct (bool_decide (shape = [N; 1%nat])).
Qed.

(** With a frame of wind speeds, a parameter given as a series is accepted
    exactly when it has [N] values and its labels are the columns of the
    frame, in their order. *)
Lemma fixVal_labeled N lw index columns values lv vindex vname vvalues name w :
  heap w !! lw = Some (DataFrame index columns values) ->
  heap w !! lv = Some (Series vindex vname vvalues) ->
  fixVal N false (PyRef lw) (PyRef lv) name w =
    if (length vindex =? N)%nat
    then if bool_decide (vindex = columns) then (Ok (PyRef lv), w)
         else (Raise (bad_labels name), w)
    else (Raise (bad_shape name), w).
Proof.
  intros Hlw Hlv. unfold fixVal. rewrite (bind_run _ _ _ _ _ (load_run _ _ _ Hlv)).
  destruct (length vindex =? N)%nat; [|reflexivity].
  unfold fixVal_pandas, columns_of.
  rewrite (bind_run _ _ _ _ _ (bind_run _ _ _ _ _ (load_run _ _ _ Hlw))).
  now destruct (bool_decide (vindex = columns)).
Qed.

(** C9, as amended.  A wind-speed argument that is not a frame, a series,
    an array or a list is refused as not understood, before anything else
    is done and with nothing changed.  A frame, a series, an array or a
    list is not refused by this check, whatever its shape or content: the
    check raises none of the errors of the library on it, it takes a frame,
    a series and an array as they are, and the call never ends in the error
    of the check. *)
Theorem unsupported_type_is_rejected ws perf mh r a hh loss w t :
  type_of (heap w) ws = Some t ->
  (t <> TDataFrame -> t <> TSeries -> t <> TNdarray -> t <> TList ->
   simulateTurbine ws perf mh r a hh loss w = (Raise not_understood, w)) /\
  (t = TDataFrame \/ t = TSeries \/ t = TNdarray \/ t = TList ->
   (forall res w', normalize ws w = (res, w') ->
                   forall msg, res <> Raise (ResError msg)) /\
   (t <> TList -> exists isNumpy isSeries N,
      normalize ws w = (Ok (ws, isNumpy, isSeries, N), w)) /\
   (forall res w', simulateTurbine ws perf mh r a hh loss w = (res, w') ->
                   res <> Raise not_understood)).
Proof.
  intros Ht. split.
  - intros Hf Hs Ha Hl.
    apply simulateTurbine_hub_fails. unfold toHubHeight. apply bind_fail.
    destruct ws as [| | | | |l]; try reflexivity.
    cbn [type_of] in Ht. unfold normalize, bind, load.
    destruct (heap w !! l) as [[]|]; try discriminate;
      injection Ht as <-; try contradiction; reflexivity.
  - intros Hkind.
    destruct (normalize_accepts_type _ _ _ Ht Hkind) as [Hcheck Htaken].
    split; [exact Hcheck|]. split; [exact Htaken|].
    intros res w' Hrun ->.
    apply (simulateTurbine_raises (fun e => e <> not_understood)) in Hrun.
    + destruct Hrun as [Hn | He]; [|now apply He].
      exact (Hcheck _ _ Hn _ eq_refl).
    + intros e He ->. discriminate He.
    + apply not_understood_is_its_own. cbn. auto.
    + apply not_understood_is_its_own. cbn. auto.
    + apply not_understood_is_its_own. cbn. auto.
    + apply not_understood_is_its_own. cbn. auto.
    + discriminate.
    + discriminate.
Qed.

End Properties.

(** * The properties at concrete inputs *)

(** The curve of the catalog, without losses, on the wind speeds 1, 8, 12
    and 30: the power of the curve at 8 and at the rated point 12, and zero
    above cut-out. *)
Example flat_call_production :
  production_values (heap (snd flat_call)) (PyRef 3) = Some [0; 1524; 3000; 0]%Q.
Proof. vm_compute. reflexivity. Qed.

(** The frame comes back as a frame under the same labels, with one
    capacity factor per column. *)
Example frame_call_labels :
  heap (snd frame_call) !! 4%nat
    = Some (DataFrame ["t0"; "t1"] ["a"; "b"; "c"]
              (default [] (production_values (heap (snd frame_call)) (PyRef 4)))) /\
  length (default [] (capacity_factors (heap (snd frame_call)) (PyRef 5))) = 3%nat.
Proof. split; vm_compute; reflexivity. Qed.

Lemma linear_projection_keeps_layout : keeps_layout linear_projection.
Proof.
  intros h l o mh hh p Hl. unfold linear_projection. rewrite Hl.
  destruct o; cbn; eauto.
Qed.

Lemma capacity_factor_is_mean_over_rated_witness :
  (flat_hub = (Ok (PyRef 2, PyRef 0, true, false, 1), snd flat_hub) /\
   flat_call = (Ok (PyRef 3, PyFloat (4524 # 12000)), snd flat_call)) /\
  exists x y ratedPower series,
    @performance_columns (PyRef 0) (snd flat_hub) = (Ok (x, y), snd flat_hub) /\
    Qlist_max y = Some ratedPower /\
    production_series (heap (snd flat_call)) (PyRef 3) = Some series /\
    capacity_factors (heap (snd flat_call)) (PyFloat (4524 # 12000))
      = Some (map (fun s => (Qmean s / ratedPower)%Q) series).
Proof.
  assert (Hhub : flat_hub = (Ok (PyRef 2, PyRef 0, true, false, 1), snd flat_hub))
    by (vm_compute; reflexivity).
  assert (Hcall : flat_call = (Ok (PyRef 3, PyFloat (4524 # 12000)), snd flat_call))
    by (vm_compute; reflexivity).
  split; [now split|].
  exact (capacity_factor_is_mean_over_rated (H := linear_collaborators)
           _ _ _ _ _ _ _ _ _ _ _ _ _ _ _ _ _ Hhub Hcall).
Defined.

(** In the frame, the wind speed 20 of the second time step is inside the
    curve; projected to 40 it is above cut-out, and the production there is
    zero. *)
Lemma zero_outside_cut_in_cut_out_witness :
  (frame_hub = (Ok (PyRef 2, PyRef 0, false, false, 3), snd frame_hub) /\
   frame_call = (Ok (PyRef 4, PyRef 5), snd frame_call)) /\
  exists x y shape hub cutin cutout production,
    @performance_columns (PyRef 0) (snd frame_hub) = (Ok (x, y), snd frame_hub) /\
    Qlist_min x = Some cutin /\ Qlist_max x = Some cutout /\
    @values_of false (PyRef 2) (snd frame_hub) = (Ok (shape, hub), snd frame_hub) /\
    production_values (heap (snd frame_call)) (PyRef 4) = Some production /\
    length production = length hub /\
    forall i v, hub !! i = Some v -> (v < cutin \/ cutout < v)%Q ->
                production !! i = Some 0%Q.
Proof.
  assert (Hhub : frame_hub = (Ok (PyRef 2, PyRef 0, false, false, 3), snd frame_hub))
    by (vm_compute; reflexivity).
  assert (Hcall : frame_call = (Ok (PyRef 4, PyRef 5), snd frame_call))
    by (vm_compute; reflexivity).
  split; [now split|].
  exact (zero_outside_cut_in_cut_out (H := linear_collaborators)
           _ _ _ _ _ _ _ _ _ _ _ _ _ _ _ _ _ Hhub Hcall).
Defined.

Lemma projection_runs_iff_requested_witness :
  (flat_normalized = (Ok (PyRef 2, true, false, 1), snd flat_normalized) /\
   flat_resolved = (Ok (PyRef 0), snd flat_resolved)) /\
  flat_hub = (Ok (PyRef 2, PyRef 0, true, false, 1), snd flat_resolved) /\
  @simulateTurbine linear_collaborators (PyRef 1) (PyStr "Enercon_E115")
      PyNone (PyFloat (1 # 10)) PyNone (PyFloat 100) (8 # 100)%Q flat_world
    = (Raise no_heights, snd flat_resolved).
Proof.
  assert (Hn : flat_normalized = (Ok (PyRef 2, true, false, 1), snd flat_normalized))
    by (vm_compute; reflexivity).
  assert (Hp : flat_resolved = (Ok (PyRef 0), snd flat_resolved))
    by (vm_compute; reflexivity).
  split; [now split|]. split.
  - refine (proj1 (proj1 (projection_runs_iff_requested (H := linear_collaborators)
              (PyRef 1) (PyStr "Enercon_E115") PyNone PyNone PyNone PyNone 0%Q
              _ _ _ _ _ _ _ _ Hn Hp) _)).
    repeat split.
  - refine (proj1 (proj1 (proj2 (projection_runs_iff_requested (H := linear_collaborators)
              (PyRef 1) (PyStr "Enercon_E115") PyNone (PyFloat (1 # 10)) PyNone
              (PyFloat 100) (8 # 100)%Q
              _ _ _ _ _ _ _ _ Hn Hp)) _ _)).
    + intros (_ & Hr & _). discriminate Hr.
    + now left.
Defined.


Lemma roughness_takes_precedence_witness :
  (flat_normalized = (Ok (PyRef 2, true, false, 1), snd flat_normalized) /\
   flat_resolved = (Ok (PyRef 0), snd flat_resolved) /\
   flat_fixed = (Ok (PyFloat 10, PyFloat 100, PyFloat (1 # 10), PyFloat (14 # 100)),
                 snd flat_fixed)) /\
  forall res w',
    @simulateTurbine linear_collaborators (PyRef 1) (PyStr "Enercon_E115")
      (PyInt 10) (PyFloat (1 # 10)) (PyFloat (14 # 100)) (PyInt 100) (8 # 100)%Q flat_world
    = (res, w') ->
    exists cs,
      calls w' = calls flat_world
                 ++ CallProjectByLogLaw (PyRef 2) (PyFloat 10) (PyFloat 100) (PyFloat (1 # 10))
                    :: cs /\
      Forall is_spline_call cs.
Proof.
  assert (Hn : flat_normalized = (Ok (PyRef 2, true, false, 1), snd flat_normalized))
    by (vm_compute; reflexivity).
  assert (Hp : flat_resolved = (Ok (PyRef 0), snd flat_resolved))
    by (vm_compute; reflexivity).
  assert (Hfix : flat_fixed
                 = (Ok (PyFloat 10, PyFloat 100, PyFloat (1 # 10), PyFloat (14 # 100)),
                    snd flat_fixed))
    by (vm_compute; reflexivity).
  split; [auto|].
  refine (proj2 (roughness_takes_precedence (H := linear_collaborators)
            (PyRef 1) (PyStr "Enercon_E115") (PyInt 10) (PyFloat (1 # 10))
            (PyFloat (14 # 100)) (PyInt 100) (8 # 100)%Q
            _ _ _ _ _ _ _ _ _ _ _ _ _ Hn Hp _ _ _ _ Hfix)); discriminate.
Defined.

Lemma production_follows_input_convention_witness :
  frame_call = (Ok (PyRef 4, PyRef 5), snd frame_call) /\
  exists p o,
    PyRef 4 = PyRef p /\ heap (snd frame_call) !! p = Some o /\
    layout_of o = Some (LabeledTable ["t0"; "t1"] ["a"; "b"; "c"]) /\
    (forall index name values,
       o = Series index name values -> name = Some "production"%string).
Proof.
  assert (Hcall : frame_call = (Ok (PyRef 4, PyRef 5), snd frame_call))
    by (vm_compute; reflexivity).
  split; [exact Hcall|].
  exact (production_follows_input_convention (H := linear_collaborators)
           _ _ _ _ _ _ _ _ _ _ _
           linear_projection_keeps_layout linear_projection_keeps_layout Hcall).
Defined.

Lemma labeled_parameter_on_series_input_witness :
  (heap series_world !! 1%nat = Some (Series ["t0"; "t1"] (Some "ws"%string) [1; 8]%Q) /\
   heap series_world !! 2%nat = Some (Series ["ws"] None [10]%Q) /\
   length ["ws"%string] = 1%nat) /\
  @fixVal 1 false (PyRef 1) (PyRef 2) "measuredHeight" series_world
    = (Raise AttributeError, series_world).
Proof.
  split; [repeat split|].
  now apply (labeled_parameter_on_series_input
               1 1 ["t0"; "t1"] (Some "ws"%string) [1; 8]%Q
               2 ["ws"] None [10]%Q).
Defined.

Lemma unsupported_type_is_rejected_witness :
  (type_of (heap dict_world) (PyRef 1) = Some TDict /\
   TDict <> TDataFrame /\ TDict <> TSeries /\ TDict <> TNdarray /\ TDict <> TList) /\
  @simulateTurbine linear_collaborators (PyRef 1) (PyStr "Enercon_E115")
      PyNone PyNone PyNone PyNone (8 # 100)%Q dict_world
    = (Raise not_understood, dict_world) /\
  type_of (heap cube_world) (PyRef 1) = Some TNdarray /\
  (exists isNumpy isSeries N,
     normalize (PyRef 1) cube_world = (Ok (PyRef 1, isNumpy, isSeries, N), cube_world)) /\
  forall res w',
    @simulateTurbine linear_collaborators (PyRef 1) (PyStr "Enercon_E115")
      PyNone PyNone PyNone PyNone (8 # 100)%Q cube_world = (res, w') ->
    res <> Raise not_understood.
Proof.
  assert (Hdict : type_of (heap dict_world) (PyRef 1) = Some TDict) by reflexivity.
  assert (Hcube : type_of (heap cube_world) (PyRef 1) = Some TNdarray) by reflexivity.
  split; [repeat split; discriminate|].
  split.
  - apply (proj1 (unsupported_type_is_rejected (H := linear_collaborators)
                    _ _ _ _ _ _ _ _ TDict Hdict)); discriminate.
  - split; [exact Hcube|].
    destruct (proj2 (unsupported_type_is_rejected (H := linear_collaborators)
                (PyRef 1) (PyStr "Enercon_E115") PyNone PyNone PyNone PyNone (8 # 100)%Q
                cube_world TNdarray Hcube))
      as (_ & Htaken & Hcall); [auto|].
    split; [apply Htaken; discriminate | exact Hcall].
Defined.

Lemma simulateTurbine_leaves_caller_state_witness :
  series_call = (Raise AttributeError, snd series_call) /\
  TurbineLibrary (snd series_call) = TurbineLibrary series_world /\
  forall l o, heap series_world !! l = Some o -> heap (snd series_call) !! l = Some o.
Proof.
  assert (Hcall : series_call = (Raise AttributeError, snd series_call))
    by (vm_compute; reflexivity).
  split; [exact Hcall|].
  exact (simulateTurbine_leaves_caller_state (H := linear_collaborators)
           _ _ _ _ _ _ _ _ _ _ Hcall).
Defined.

(** C2, where the code departs from it.  A curve given out of order reaches
    the spline fit in the order given: nothing sorts it. *)
Theorem unsorted_curve_reaches_the_spline_unsorted :
  exists y cs,
    calls (snd unsorted_call) = CallSplrep [3; 0; 12; 25]%Q y :: cs /\
    ascending [3; 0; 12; 25]%Q = false.
Proof.
  eexists _, _. split; vm_compute; reflexivity.
Qed.

(** C8 at its failing input: the whole call ends in [AttributeError], which
    is none of the failures of the library. *)
Lemma series_call_fails : fst series_call = Raise AttributeError.
Proof. vm_compute. reflexivity. Qed.


(** C9 as stated fails: a list that holds a dictionary is none of the
    recognized kinds, and the call ends in [KeyError]. *)
Lemma unsupported_kind_counterexample :
  ~ (forall (C : Collaborators) ws perf mh r a hh loss w,
       is_Some (type_of (heap w) ws) ->
       recognized_kind (heap w) ws = false ->
       exists msg,
         fst (@simulateTurbine C ws perf mh r a hh loss w) = Raise (ResError msg)).
Proof.
  intros Hall.
  destruct (Hall linear_collaborators (PyRef 2) (PyStr "Enercon_E115")
              PyNone PyNone PyNone PyNone 0%Q dict_world) as (msg & Hmsg).
  - now exists TList.
  - reflexivity.
  - vm_compute in Hmsg. discriminate Hmsg.
Qed.

(** * More properties of the code *)

Section More.
Context `{Collaborators}.

(** ** The physical bounds of the production *)

Lemma Qltb_ge (x y : Q) : Qltb x y = false -> (y <= x)%Q.
Proof.
  intros Hlt. apply Qnot_lt_le. intros Hxy. apply Qltb_lt in Hxy. congruence.
Qed.

(** With a rated power that is not negative, the clean-up leaves a value
    between zero and the rated power. *)
Lemma clean_within maxPower cutin cutout v raw :
  (0 <= maxPower)%Q -> within maxPower (clean maxPower cutin cutout v raw).
Proof.
  intros Hmax. unfold clean, within.
  destruct (Qltb cutout v); [split; [apply Qle_refl | exact Hmax]|].
  destruct (Qltb v cutin); [split; [apply Qle_refl | exact Hmax]|].
  destruct (Qltb raw 0) eqn:Hneg.
  - destruct (Qltb maxPower 0) eqn:Hcap.
    + apply Qltb_lt in Hcap. exfalso. exact (Qle_not_lt _ _ Hmax Hcap).
    + split; [apply Qle_refl | exact Hmax].
  - apply Qltb_ge in Hneg.
    destruct (Qltb maxPower raw) eqn:Hcap.
    + split; [exact Hmax | apply Qle_refl].
    + apply Qltb_ge in Hcap. now split.
Qed.

(** X1. The production of a successful call, position by position: the
    interpolated power after losses, through the four rules of the clean-up
    in their order, at the wind speed at hub height of that position. *)
Theorem production_in_closed_form
    ws perf mh r a hh loss w ws' perf' isNumpy isSeries N w1 prod cf w' :
  toHubHeight ws perf mh r a hh w = (Ok (ws', perf', isNumpy, isSeries, N), w1) ->
  simulateTurbine ws perf mh r a hh loss w = (Ok (prod, cf), w') ->
  exists x y shape hub maxPower cutin cutout,
    performance_columns perf' w1 = (Ok (x, y), w1) /\
    values_of isNumpy ws' w1 = (Ok (shape, hub), w1) /\
    Qlist_max y = Some maxPower /\ Qlist_min x = Some cutin /\ Qlist_max x = Some cutout /\
    production_values (heap w') prod
      = Some (map (fun v => clean maxPower cutin cutout v
                              (splev v (splrep x y) * (1 - loss))%Q) hub).
Proof.
  intros Hhub Hrun.
  destruct (simulateTurbine_spec _ _ _ _ _ _ _ _ _ _ _ _ _ _ _ _ _ Hhub Hrun)
    as (x & y & shape & hub & maxPower & cutin & cutout & series
        & Hpc & Hv & Hmax & Hmin & Hout & Hvals & _ & _).
  exists x, y, shape, hub, maxPower, cutin, cutout. auto 10.
Qed.

(** X2. When the rated power of the curve is not negative, every value of
    the returned production lies between zero and the rated power. *)
Theorem production_within_bounds
    ws perf mh r a hh loss w ws' perf' isNumpy isSeries N w1 prod cf w' :
  toHubHeight ws perf mh r a hh w = (Ok (ws', perf', isNumpy, isSeries, N), w1) ->
  simulateTurbine ws perf mh r a hh loss w = (Ok (prod, cf), w') ->
  exists x y maxPower production,
    performance_columns perf' w1 = (Ok (x, y), w1) /\
    Qlist_max y = Some maxPower /\
    production_values (heap w') prod = Some production /\
    ((0 <= maxPower)%Q -> Forall (within maxPower) production).
Proof.
  intros Hhub Hrun.
  destruct (simulateTurbine_spec _ _ _ _ _ _ _ _ _ _ _ _ _ _ _ _ _ Hhub Hrun)
    as (x & y & shape & hub & maxPower & cutin & cutout & series
        & Hpc & _ & Hmax & _ & _ & Hvals & _ & _).
  eexists x, y, maxPower, _. repeat (split; [eassumption|]).
  intros Hpos. apply Forall_map, Forall_forall. intros v _.
  now apply clean_within.
Qed.

(** ** The bounds of the capacity factor *)

Lemma Forall_column (P : Q -> Prop) m k j data :
  P 0%Q -> Forall P data -> Forall P (column m k j data).
Proof.
  intros H0 Hdata. unfold column. apply Forall_map, Forall_forall. intros i _.
  destruct (Nat.lt_ge_cases (i * k + j) (length data)) as [Hlt | Hge].
  - rewrite Forall_forall in Hdata. apply Hdata, list_elem_of_In, nth_In, Hlt.
  - now rewrite nth_overflow.
Qed.

(** The series of a production are made of its values, and of the zero that
    stands for a position the data do not have. *)
Lemma production_series_elements (P : Q -> Prop) h prod pd series :
  production_values h prod = Some pd ->
  production_series h prod = Some series ->
  P 0%Q -> Forall P pd -> Forall (Forall P) series.
Proof.
  unfold production_values, production_series.
  destruct prod as [| | | | |p]; try discriminate.
  destruct (h !! p) as [o|]; [|discriminate].
  destruct o as [| |shape data|index name values|index columns values];
    try discriminate; intros [= <-] Hseries H0 Hpd.
  - destruct shape as [|m [|k rest]]; [discriminate| |]; injection Hseries as <-.
    + now repeat constructor.
    + apply Forall_map, Forall_forall. intros j _. now apply Forall_column.
  - injection Hseries as <-. now repeat constructor.
  - injection Hseries as <-.
    apply Forall_map, Forall_forall. intros j _. now apply Forall_column.
Qed.

Lemma inject_nat_succ n :
  (inject_Z (Z.of_nat (S n)) == inject_Z (Z.of_nat n) + 1)%Q.
Proof. now rewrite Nat2Z.inj_succ, <- Z.add_1_r, inject_Z_plus. Qed.

Lemma Qsum_within maxPower (l : list Q) :
  Forall (within maxPower) l ->
  (0 <= Qsum l)%Q /\ (Qsum l <= inject_Z (Z.of_nat (length l)) * maxPower)%Q.
Proof.
  induction 1 as [|x l [Hx0 Hx1] _ [IH0 IH1]].
  - cbn. split; [apply Qle_refl|]. rewrite Qmult_0_l. apply Qle_refl.
  - cbn [Qsum fold_right length]. fold (Qsum l). rewrite inject_nat_succ. split; lra.
Qed.

Lemma inject_nat_pos {A} (l : list A) : l <> [] -> (0 < inject_Z (Z.of_nat (length l)))%Q.
Proof.
  destruct l; [congruence|]. intros _. cbn [length].
  rewrite inject_nat_succ.
  assert (0 <= inject_Z (Z.of_nat (length l)))%Q; [|lra].
  change 0%Q with (inject_Z 0). rewrite <- Zle_Qle. lia.
Qed.

(** The mean of values between zero and a positive rated power, divided by
    the rated power, is between zero and one. *)
Lemma capacity_factor_within maxPower (s : list Q) :
  (0 < maxPower)%Q -> s <> [] -> Forall (within maxPower) s ->
  within 1 (Qmean s / maxPower).
Proof.
  intros Hpos Hne Hs. destruct (Qsum_within _ _ Hs) as [H0 H1].
  pose proof (inject_nat_pos _ Hne) as Hn. unfold within, Qmean. split.
  - apply Qle_shift_div_l; [exact Hpos|]. rewrite Qmult_0_l.
    apply Qle_shift_div_l; [exact Hn|]. now rewrite Qmult_0_l.
  - apply Qle_shift_div_r; [exact Hpos|]. rewrite Qmult_1_l.
    apply Qle_shift_div_r; [exact Hn|]. now rewrite Qmult_comm.
Qed.

(** X3. With a positive rated power, the capacity factor of every series
    that has at least one time step lies between zero and one. *)
Theorem capacity_factor_within_unit_interval
    ws perf mh r a hh loss w ws' perf' isNumpy isSeries N w1 prod cf w' :
  toHubHeight ws perf mh r a hh w = (Ok (ws', perf', isNumpy, isSeries, N), w1) ->
  simulateTurbine ws perf mh r a hh loss w = (Ok (prod, cf), w') ->
  exists x y maxPower series factors,
    performance_columns perf' w1 = (Ok (x, y), w1) /\
    Qlist_max y = Some maxPower /\
    production_series (heap w') prod = Some series /\
    capacity_factors (heap w') cf = Some factors /\
    length factors = length series /\
    ((0 < maxPower)%Q ->
     forall i s c, series !! i = Some s -> s <> [] -> factors !! i = Some c ->
                   within 1 c).
Proof.
  intros Hhub Hrun.
  destruct (simulateTurbine_spec _ _ _ _ _ _ _ _ _ _ _ _ _ _ _ _ _ Hhub Hrun)
    as (x & y & shape & hub & maxPower & cutin & cutout & series
        & Hpc & _ & Hmax & _ & _ & Hvals & Hseries & Hcf).
  eexists x, y, maxPower, series, _. repeat (split; [eassumption|]).
  split; [now rewrite length_map|].
  intros Hpos i s c Hs Hne Hc.
  rewrite list_lookup_fmap, Hs in Hc. injection Hc as <-.
  apply capacity_factor_within; [exact Hpos | exact Hne |].
  assert (Hall : Forall (Forall (within maxPower)) series).
  { eapply production_series_elements; [exact Hvals | exact Hseries | |].
    - split; [apply Qle_refl | now apply Qlt_le_weak].
    - apply Forall_map, Forall_forall. intros v _.
      now apply clean_within, Qlt_le_weak. }
  rewrite Forall_forall in Hall. apply Hall.
  apply list_elem_of_lookup. eauto.
Qed.

(** ** Failures that are not the library's own *)

(** X4. A turbine name the catalog does not hold ends the call in
    [KeyError], once the wind speeds were understood and before any
    projection parameter is looked at. *)
Theorem unknown_turbine_raises_KeyError
    ws name mh r a hh loss w ws1 isNumpy isSeries N w1 :
  normalize ws w = (Ok (ws1, isNumpy, isSeries, N), w1) ->
  TurbineLibrary w !! name = None ->
  simulateTurbine ws (PyStr name) mh r a hh loss w = (Raise KeyError, w1).
Proof.
  intros Hn Hname. apply simulateTurbine_hub_fails. unfold toHubHeight.
  rewrite (bind_run _ _ _ _ _ Hn). apply bind_fail.
  destruct (frame_normalize 0 _ _ _ _ Hn (Nat.le_0_l _)) as (Hlib & _).
  unfold setPerformance, library_getitem. now rewrite Hlib, Hname.
Qed.

(** X5. A curve given as a flat list of numbers, the empty list among
    them, has no columns: once the wind speeds are at hub height the call
    ends in [IndexError], and the spline is never called. *)
Theorem curve_without_columns_raises_IndexError
    ws l items xs mh r a hh loss w ws' perf' isNumpy isSeries N w1 :
  heap w !! l = Some (PyList items) ->
  nums_of items = Some xs ->
  toHubHeight ws (PyRef l) mh r a hh w = (Ok (ws', perf', isNumpy, isSeries, N), w1) ->
  simulateTurbine ws (PyRef l) mh r a hh loss w = (Raise IndexError, w1).
Proof.
  intros Hl Hxs Hhub.
  rewrite (simulateTurbine_after_hub _ _ _ _ _ _ _ _ _ _ _ _ _ _ Hhub).
  apply toHubHeight_inv in Hhub as (ws1 & wa & wb & Hn & Hp & Hproj).
  pose proof (lookup_after _ _ _ _ _ _ (frame_normalize _ _) Hn Hl) as Hla.
  unfold setPerformance in Hp. rewrite (bind_run _ _ _ _ _ (load_run _ _ _ Hla)) in Hp.
  cbn [bind get_heap] in Hp. unfold np_array in Hp. rewrite Hxs in Hp.
  injection Hp as <- <-.
  assert (Hcurve : heap w1 !! length (heap wa) = Some (Ndarray [length items] xs)).
  { eapply (lookup_after _ _ _ _ _ _ (frame_project _ _ _ _ _ _ _ _) Hproj).
    cbn [heap]. apply lookup_new. }
  apply bind_fail. unfold mapPower. apply bind_fail.
  unfold performance_columns. now rewrite (bind_run _ _ _ _ _ (load_run _ _ _ Hcurve)).
Qed.

(** X6. The empty list of wind speeds ends the call in [IndexError], before
    anything else is done: the test for a list of lists reads its first
    element, and only [TypeError] is caught. *)
Theorem empty_windspeed_raises_IndexError l perf mh r a hh loss w :
  heap w !! l = Some (PyList []) ->
  simulateTurbine (PyRef l) perf mh r a hh loss w = (Raise IndexError, w).
Proof.
  intros Hl. apply simulateTurbine_hub_fails. unfold toHubHeight. apply bind_fail.
  unfold normalize. now rewrite (bind_run _ _ _ _ _ (load_run _ _ _ Hl)).
Qed.

(** ** The projection laws *)

(** X7. With both heights and alpha supplied and accepted by the
    broadcaster, and no roughness, the wind speeds at hub height are those
    of the power law with the alpha, called once. *)
Theorem alpha_alone_selects_power_law
    ws perf mh a hh w ws1 isNumpy isSeries N w1 perf' w2 mh' hh' r' a' w3 :
  normalize ws w = (Ok (ws1, isNumpy, isSeries, N), w1) ->
  setPerformance perf w1 = (Ok perf', w2) ->
  mh <> PyNone -> hh <> PyNone -> a <> PyNone ->
  fixVals N isNumpy ws1 mh hh PyNone a w2 = (Ok (mh', hh', r', a'), w3) ->
  toHubHeight ws perf mh PyNone a hh w =
    (Ok (PyRef (length (heap w3)), perf', isNumpy, isSeries, N),
     projected w3 (projectByPowerLaw (heap w3) ws1 mh' hh' a')
                  (CallProjectByPowerLaw ws1 mh' hh' a')) /\
  calls w3 = calls w.
Proof.
  intros Hn Hp Hmh Hhh Ha Hfix.
  assert (Ha' : a' <> PyNone).
  { apply is_None_false.
    destruct (fixVals_None _ _ _ _ _ _ _ _ _ _ _ _ _ Hfix) as [_ ->].
    now apply is_None_false. }
  assert (Hr' : r' = PyNone).
  { apply is_None_true.
    now destruct (fixVals_None _ _ _ _ _ _ _ _ _ _ _ _ _ Hfix) as [-> _]. }
  subst r'. split.
  - rewrite (toHubHeight_run _ _ _ _ _ _ _ _ _ _ _ _ _ _ Hn Hp).
    rewrite (bind_run _ _ _ _ _
      (eq_trans (project_run _ _ _ _ _ _ _ _ Hmh Hhh)
                (eq_trans (bind_run _ _ _ _ _ Hfix)
                          (doProjection_power _ _ _ _ _ Ha')))).
    reflexivity.
  - rewrite (silent_calls _ _ _ _ (silent_fixVals _ _ _ _ _ _ _) Hfix).
    rewrite (silent_calls _ _ _ _ (silent_setPerformance _) Hp).
    exact (silent_calls _ _ _ _ (silent_normalize _) Hn).
Qed.

(** ** The collaborators a successful call reaches *)

Lemma toHubHeight_calls ws perf mh r a hh w ws2 perf' isNumpy isSeries N w1 :
  toHubHeight ws perf mh r a hh w = (Ok (ws2, perf', isNumpy, isSeries, N), w1) ->
  exists ps, calls w1 = calls w ++ ps /\
    if all_None mh r a hh then ps = []
    else exists c, is_projection_call c /\ ps = [c].
Proof.
  intros Hhub.
  apply toHubHeight_inv in Hhub as (ws1 & wa & wb & Hn & Hp & Hproj).
  pose proof (silent_calls _ _ _ _ (silent_normalize _) Hn) as Hca.
  pose proof (silent_calls _ _ _ _ (silent_setPerformance _) Hp) as Hcb.
  apply project_inv in Hproj
    as [(-> & _ & ->) | (-> & _ & _ & mh' & hh' & r' & a' & w4 & Hfix & Hdo)].
  - exists []. rewrite app_nil_r. split; congruence.
  - pose proof (silent_calls _ _ _ _ (silent_fixVals _ _ _ _ _ _ _) Hfix) as Hcf.
    apply doProjection_inv in Hdo as (_ & o & c & -> & Hc & _).
    exists [c]. cbn [projected calls]. split; [congruence | eauto].
Qed.

(** X8. A successful call fits the spline once, on the two columns of the
    resolved curve, and evaluates it once, on all wind speeds at hub height
    of all series together; before that it called one projection law, or
    none when no projection parameter was given.  Nothing else is called. *)
Theorem collaborators_are_called_once
    ws perf mh r a hh loss w ws' perf' isNumpy isSeries N w1 prod cf w' :
  toHubHeight ws perf mh r a hh w = (Ok (ws', perf', isNumpy, isSeries, N), w1) ->
  simulateTurbine ws perf mh r a hh loss w = (Ok (prod, cf), w') ->
  exists ps x y shape hub,
    performance_columns perf' w1 = (Ok (x, y), w1) /\
    values_of isNumpy ws' w1 = (Ok (shape, hub), w1) /\
    calls w' = calls w ++ ps ++ [CallSplrep x y; CallSplev hub] /\
    if all_None mh r a hh then ps = []
    else exists c, is_projection_call c /\ ps = [c].
Proof.
  intros Hhub Hrun.
  destruct (toHubHeight_calls _ _ _ _ _ _ _ _ _ _ _ _ _ Hhub) as (ps & Hps & Hkind).
  rewrite (simulateTurbine_after_hub _ _ _ _ _ _ _ _ _ _ _ _ _ _ Hhub) in Hrun.
  apply bind_Ok in Hrun as ([pg maxPower] & w2 & Hmap & Hout).
  apply mapPower_spec in Hmap
    as (x & y & shape & hub & cutin & cutout & Hpc & Hv & _ & _ & _ & _ & ->).
  exists ps, x, y, shape, hub. repeat (split; [assumption|]). split; [|exact Hkind].
  rewrite (silent_calls _ _ _ _ (silent_makeOutputs _ _ _ _ _) Hout).
  cbn [calls]. now rewrite Hps, <- app_assoc.
Qed.

(** ** The objects a call returns *)

(** [mean(axis=0)] of an array, a series or a frame: a scalar for one
    series, a new object without the time axis otherwise. *)
Lemma capFactor_of_object q maxPower w cf w' o :
  heap w !! q = Some o ->
  capFactor_of (PyRef q) maxPower w = (Ok cf, w') ->
  exists lay, layout_of o = Some lay /\
    match reduced lay with
    | None => (exists x, cf = PyFloat x) /\ w' = w
    | Some lay' =>
        exists oc, cf = PyRef (length (heap w)) /\ heap w' = heap w ++ [oc] /\
                   layout_of oc = Some lay' /\ unnamed oc
    end.
Proof.
  intros Hq. unfold capFactor_of. rewrite (bind_run _ _ _ _ _ (load_run _ _ _ Hq)).
  destruct o as [| |shape data|index name values|index columns values]; try discriminate.
  - destruct shape as [|m [|k rest]]; [discriminate| |].
    + intros [= <- <-]. eexists. split; [reflexivity|]. cbn. eauto.
    + intros [= <- <-]. eexists. split; [reflexivity|]. cbn [reduced].
      eexists. cbn [heap]. repeat split.
  - intros [= <- <-]. eexists. split; [reflexivity|]. cbn. eauto.
  - intros [= <- <-]. eexists. split; [reflexivity|]. cbn [reduced].
    eexists. cbn [heap]. repeat split.
Qed.

Lemma simulateTurbine_objects ws perf mh r a hh loss w prod cf w' :
  simulateTurbine ws perf mh r a hh loss w = (Ok (prod, cf), w') ->
  exists q o lay,
    prod = PyRef q /\ length (heap w) <= q /\
    heap w' !! q = Some o /\ layout_of o = Some lay /\
    match reduced lay with
    | None => exists x, cf = PyFloat x
    | Some lay' =>
        exists c oc, cf = PyRef c /\ q < c /\ heap w' !! c = Some oc /\
                     layout_of oc = Some lay' /\ unnamed oc
    end.
Proof.
  intros Hrun.
  destruct (simulateTurbine_Ok_hub _ _ _ _ _ _ _ _ _ _ _ Hrun)
    as (ws2 & perf' & isNumpy & isSeries & N & w1 & Hhub).
  destruct (frame_toHubHeight (length (heap w)) _ _ _ _ _ _ _ _ _ Hhub (le_n _))
    as (_ & Hlen & _).
  rewrite (simulateTurbine_after_hub _ _ _ _ _ _ _ _ _ _ _ _ _ _ Hhub) in Hrun.
  apply bind_Ok in Hrun as ([pg maxPower] & w2 & Hmap & Hout).
  apply mapPower_spec in Hmap
    as (x & y & shape & hub & cutin & cutout & _ & _ & _ & _ & _ & -> & ->).
  cbn [fst snd] in Hout. unfold makeOutputs in Hout.
  apply bind_Ok in Hout as (prod' & w3 & Hwrap & Hout).
  apply bind_Ok in Hout as (cf' & w4 & Hcf & Hout).
  injection Hout as <- <- <-.
  assert (Hprod : exists q o, prod' = PyRef q /\ length (heap w1) <= q /\
                              heap w3 !! q = Some o /\ q < length (heap w3)).
  { destruct isNumpy.
    - injection Hwrap as <- <-. eexists _, _. split; [reflexivity|].
      split; [apply le_n|]. cbn [heap]. split; [apply lookup_new|].
      rewrite length_app. cbn. lia.
    - apply wrap_spec in Hwrap as (p' & shape' & pd' & o & _ & _ & -> & -> & _).
      eexists _, o. split; [reflexivity|]. cbn [set_heap heap].
      split; [rewrite length_app; lia|]. split; [apply lookup_new|].
      rewrite !length_app. cbn. lia. }
  destruct Hprod as (q & o & -> & Hq & Ho & Hlt).
  destruct (capFactor_of_object _ _ _ _ _ _ Ho Hcf) as (lay & Hlay & Hred).
  exists q, o, lay. split; [reflexivity|]. split; [lia|].
  destruct (reduced lay) as [lay'|].
  - destruct Hred as (oc & -> & Hext & Hoc & Hname). rewrite Hext.
    split; [now apply lookup_old|]. split; [exact Hlay|].
    exists (length (heap w3)), oc. split; [reflexivity|]. split; [exact Hlt|].
    split; [apply lookup_new|]. auto.
  - destruct Hred as [Hx ->]. auto.
Qed.

(** X9. What a successful call returns was created by the call: the
    production is an object the heap did not hold before, also when the
    wind speeds are an array and nothing was projected, and the capacity
    factor is a number or one more new object. *)
Theorem results_are_new_objects ws perf mh r a hh loss w prod cf w' :
  simulateTurbine ws perf mh r a hh loss w = (Ok (prod, cf), w') ->
  exists q, prod = PyRef q /\ length (heap w) <= q < length (heap w') /\
    ((exists x, cf = PyFloat x) \/
     (exists c, cf = PyRef c /\ c <> q /\ length (heap w) <= c < length (heap w'))).
Proof.
  intros Hrun.
  destruct (simulateTurbine_objects _ _ _ _ _ _ _ _ _ _ _ Hrun)
    as (q & o & lay & -> & Hq & Ho & _ & Hcf).
  exists q. split; [reflexivity|].
  split; [split; [exact Hq | exact (lookup_lt_Some _ _ _ Ho)]|].
  destruct (reduced lay) as [lay'|].
  - destruct Hcf as (c & oc & -> & Hc & Hoc & _). right. exists c.
    split; [reflexivity|]. apply lookup_lt_Some in Hoc. lia.
  - now left.
Qed.

(** X10. The capacity factor has the layout of the returned production
    without its time axis: one number for a one-dimensional array and for a
    series; an array over the remaining axes for an array of more
    dimensions; for a frame a series without a name, labeled with the
    columns of the frame. *)
Theorem capacity_factor_drops_time_axis ws perf mh r a hh loss w prod cf w' :
  simulateTurbine ws perf mh r a hh loss w = (Ok (prod, cf), w') ->
  exists q o lay,
    prod = PyRef q /\ heap w' !! q = Some o /\ layout_of o = Some lay /\
    match reduced lay with
    | None => exists x, cf = PyFloat x
    | Some lay' =>
        exists c oc, cf = PyRef c /\ heap w' !! c = Some oc /\
                     layout_of oc = Some lay' /\ unnamed oc
    end.
Proof.
  intros Hrun.
  destruct (simulateTurbine_objects _ _ _ _ _ _ _ _ _ _ _ Hrun)
    as (q & o & lay & -> & _ & Ho & Hlay & Hcf).
  exists q, o, lay. repeat (split; [assumption || reflexivity|]).
  destruct (reduced lay) as [lay'|]; [|exact Hcf].
  destruct Hcf as (c & oc & -> & _ & Hoc & Hl & Hname). eauto 8.
Qed.

(** ** The broadcaster of the projection parameters *)

Lemma np_array_first_axis h items shape data :
  np_array h items = Some (shape, data) -> exists rest, shape = length items :: rest.
Proof.
  unfold np_array. destruct (nums_of items); [intros [= <- _]; eauto|].
  destruct (rows_of h items) as [[|r rs]|]; try discriminate.
  destruct (all_length (length r) rs); [|discriminate]. intros [= <- _]. eauto.
Qed.

Lemma fixVal_pandas_result isNumpy ws l index name values pname w v w' :
  heap w !! l = Some (Series index name values) ->
  fixVal_pandas isNumpy ws (PyRef l) index values pname w = (Ok v, w') ->
  exists l' o, v = PyRef l' /\ heap w' !! l' = Some o /\
    first_axis o = Some (length index) /\
    (isNumpy = true -> exists shape data, o = Ndarray shape data).
Proof.
  intros Hl. unfold fixVal_pandas. destruct isNumpy.
  - intros [= <- <-]. eexists _, _. split; [reflexivity|]. cbn [heap].
    split; [apply lookup_new|]. split; [reflexivity | eauto].
  - intros Hrun. apply bind_Ok in Hrun as (columns & w0 & Hc & Hrun).
    pose proof (unchanged_columns_of _ _ _ _ Hc) as Hw. red in Hw. subst w0.
    destruct (bool_decide (index = columns)); [|discriminate].
    injection Hrun as <- <-. eexists _, _. split; [reflexivity|].
    split; [exact Hl|]. split; [reflexivity | discriminate].
Qed.

(** X11. What the broadcaster returns for a parameter is nothing for
    nothing, the float of a number, and otherwise an object with one entry
    per series along its first axis; for wind speeds in an array that object
    is an array, also when the parameter came labeled. *)
Theorem fixVal_gives_one_entry_per_series N isNumpy ws val name w v w' :
  fixVal N isNumpy ws val name w = (Ok v, w') ->
  (val = PyNone /\ v = PyNone) \/
  (exists x, num_of val = Some x /\ v = PyFloat x) \/
  (exists l o, v = PyRef l /\ heap w' !! l = Some o /\ first_axis o = Some N /\
     (isNumpy = true -> exists shape data, o = Ndarray shape data)).
Proof.
  unfold fixVal. destruct val as [|x|n|s|items|l]; try discriminate.
  - intros [= <- <-]. now left.
  - intros [= <- <-]. right. left. eauto.
  - intros [= <- <-]. right. left. eauto.
  - unfold bind at 1, load. destruct (heap w !! l) as [o|] eqn:Hl; [|discriminate].
    intros Hrun. right. right.
    destruct o as [items|items|shape data|index vname values|index columns values];
      try discriminate.
    + destruct (length items =? N)%nat eqn:HN; [|discriminate].
      apply Nat.eqb_eq in HN. cbn [bind get_heap] in Hrun.
      destruct (np_array (heap w) items) as [[shape data]|] eqn:Hnp; [|discriminate].
      injection Hrun as <- <-.
      destruct (np_array_first_axis _ _ _ _ Hnp) as (rest & ->).
      eexists _, _. split; [reflexivity|]. cbn [heap].
      split; [apply lookup_new|]. cbn [first_axis]. split; [congruence | eauto].
    + destruct (bool_decide (shape = [N])) eqn:H1.
      * apply bool_decide_eq_true_1 in H1. subst shape. injection Hrun as <- <-.
        eexists _, _. split; [reflexivity|]. split; [exact Hl|].
        split; [reflexivity | eauto].
      * destruct (bool_decide (shape = [N; 1%nat])); [|discriminate].
        injection Hrun as <- <-. eexists _, _. split; [reflexivity|]. cbn [heap].
        split; [apply lookup_new|]. split; [reflexivity | eauto].
    + destruct (length index =? N)%nat eqn:HN; [|discriminate].
      apply Nat.eqb_eq in HN. subst N.
      exact (fixVal_pandas_result _ _ _ _ _ _ _ _ _ _ Hl Hrun).
    + destruct ((length index =? N)%nat && (length columns =? 1)%nat) eqn:HN;
        [|discriminate].
      apply andb_true_iff in HN as [HN _]. apply Nat.eqb_eq in HN. subst N.
      cbn [bind alloc] in Hrun.
      refine (fixVal_pandas_result _ _ _ _ _ _ _ _ _ _ _ Hrun).
      cbn [heap]. apply lookup_new.
Qed.

(** X12. The broadcaster accepts what it returned, and returns it again
    without creating anything: a parameter that went through it once is a
    fixed point.  (A list of lists is the exception: it comes back as an
    array of two dimensions.) *)
Theorem fixVal_accepts_its_result N isNumpy ws val name w v w' :
  flat_parameter (heap w) val ->
  fixVal N isNumpy ws val name w = (Ok v, w') ->
  fixVal N isNumpy ws v name w' = (Ok v, w').
Proof.
  intros Hflat. unfold fixVal at 1. destruct val as [|x|n|s|items|l]; try discriminate;
    try (intros [= <- <-]; reflexivity).
  unfold bind at 1, load. destruct (heap w !! l) as [o|] eqn:Hl; [|discriminate].
  destruct o as [items|items|shape data|index vname values|index columns values];
    try discriminate.
  - destruct (Hflat l items eq_refl Hl) as (xs & Hxs).
    destruct (length items =? N)%nat eqn:HN; [|discriminate].
    apply Nat.eqb_eq in HN. cbn [bind get_heap]. unfold np_array. rewrite Hxs.
    intros [= <- <-]. unfold fixVal.
    erewrite bind_run by (apply load_run; cbn [heap]; apply lookup_new).
      cbv beta iota.
    now rewrite HN, bool_decide_eq_true_2.
  - destruct (bool_decide (shape = [N])) eqn:H1.
    + intros [= <- <-]. unfold fixVal.
      rewrite (bind_run _ _ _ _ _ (load_run _ _ _ Hl)). now rewrite H1.
    + destruct (bool_decide (shape = [N; 1%nat])); [|discriminate].
      intros [= <- <-]. unfold fixVal.
      erewrite bind_run by (apply load_run; cbn [heap]; apply lookup_new).
      cbv beta iota.
      now rewrite bool_decide_eq_true_2.
  - destruct (length index =? N)%nat eqn:HN; [|discriminate].
    unfold fixVal_pandas at 1. destruct isNumpy.
    + intros [= <- <-]. unfold fixVal.
      erewrite bind_run by (apply load_run; cbn [heap]; apply lookup_new).
      cbv beta iota.
      apply Nat.eqb_eq in HN. now rewrite HN, bool_decide_eq_true_2.
    + intros Hrun. apply bind_Ok in Hrun as (columns & w0 & Hc & Hrun).
      pose proof (unchanged_columns_of _ _ _ _ Hc) as Hw. red in Hw. subst w0.
      destruct (bool_decide (index = columns)) eqn:Hlabels; [|discriminate].
      injection Hrun as <- <-. unfold fixVal.
      rewrite (bind_run _ _ _ _ _ (load_run _ _ _ Hl)), HN.
      unfold fixVal_pandas. rewrite (bind_run _ _ _ _ _ Hc). now rewrite Hlabels.
  - destruct ((length index =? N)%nat && (length columns =? 1)%nat) eqn:HN;
      [|discriminate].
    apply andb_true_iff in HN as [HN _].
    cbn [bind alloc]. unfold fixVal_pandas at 1. destruct isNumpy.
    + intros [= <- <-]. unfold fixVal.
      erewrite bind_run by (apply load_run; cbn [heap]; apply lookup_new).
      cbv beta iota.
      apply Nat.eqb_eq in HN. now rewrite HN, bool_decide_eq_true_2.
    + intros Hrun. apply bind_Ok in Hrun as (cols & w0 & Hc & Hrun).
      pose proof (unchanged_columns_of _ _ _ _ Hc) as Hw. red in Hw. subst w0.
      destruct (bool_decide (index = cols)) eqn:Hlabels; [|discriminate].
      injection Hrun as <- <-. unfold fixVal.
      erewrite bind_run by (apply load_run; cbn [heap]; apply lookup_new).
      cbv beta iota.
      rewrite HN. unfold fixVal_pandas. rewrite (bind_run _ _ _ _ _ Hc).
      now rewrite Hlabels.
Qed.

(** ** A list of series *)

Lemma nth_flat_map_seq (f : nat -> list Q) k m s i j :
  (forall i, length (f i) = k) -> i < m -> j < k ->
  nth (i * k + j) (flat_map f (seq s m)) 0%Q = nth j (f (s + i)) 0%Q.
Proof.
  intros Hlen. revert s i. induction m as [|m IH]; intros s i Hi Hj; [lia|].
  cbn [seq flat_map]. destruct i as [|i].
  - cbn [Nat.mul Nat.add]. rewrite app_nth1 by (rewrite Hlen; lia).
    now rewrite Nat.add_0_r.
  - rewrite app_nth2 by (rewrite Hlen; lia). rewrite Hlen.
    replace (S i * k + j - k) with (i * k + j) by lia.
    rewrite IH by lia. do 2 f_equal. lia.
Qed.

Lemma all_length_Forall {A} n (rows : list (list A)) :
  all_length n rows = true -> Forall (fun r => length r = n) rows.
Proof.
  unfold all_length. rewrite forallb_forall, Forall_forall.
  intros Hall r Hr. apply Nat.eqb_eq, Hall, list_elem_of_In, Hr.
Qed.

(** Column [j] of the stack of equally long sequences is sequence [j]. *)
Lemma column_of_stack cols m j c :
  Forall (fun r => length r = m) cols -> cols !! j = Some c ->
  column m (length cols) j
    (flat_map (fun i => map (fun col => nth i col 0%Q) cols) (seq 0 m)) = c.
Proof.
  intros Hall Hj.
  assert (Hc : length c = m).
  { rewrite Forall_forall in Hall. apply Hall, list_elem_of_lookup. eauto. }
  pose proof (lookup_lt_Some _ _ _ Hj) as Hlt.
  unfold column. apply list_eq. intros i. rewrite list_lookup_fmap.
  destruct (decide (i < m)) as [Hi | Hi].
  - rewrite lookup_seq_lt by exact Hi. cbn [fmap option_fmap option_map Nat.add].
    rewrite (nth_flat_map_seq _ (length cols)); [| intros; apply length_map | exact Hi | exact Hlt].
    cbn [Nat.add]. rewrite nth_lookup, list_lookup_fmap, Hj. cbn.
    destruct (lookup_lt_is_Some_2 c i) as [x Hx]; [lia|].
    now rewrite Hx, (nth_lookup_Some _ _ _ _ Hx).
  - rewrite lookup_seq_ge by lia. symmetry. apply lookup_ge_None_2. lia.
Qed.

(** X13. A list of sequences of numbers is a list of series: the call
    stacks them as the columns of one array, so that series [j] of the
    batch is item [j] of the list, [N] is the length of the list, and the
    items have to be equally long. *)
Theorem nested_lists_are_stacked_as_columns l items cols w ws1 isNumpy isSeries N w1 :
  heap w !! l = Some (PyList items) ->
  rows_of (heap w) items = Some cols ->
  normalize (PyRef l) w = (Ok (ws1, isNumpy, isSeries, N), w1) ->
  exists m data,
    ws1 = PyRef (length (heap w)) /\ isNumpy = true /\ N = length items /\
    heap w1 !! length (heap w) = Some (Ndarray [m; N] data) /\
    forall j c, cols !! j = Some c -> length c = m /\ column m N j data = c.
Proof.
  intros Hl Hrows. unfold normalize.
  rewrite (bind_run _ _ _ _ _ (load_run _ _ _ Hl)). intros Hrun.
  apply bind_Ok in Hrun as ([ws' N'] & w2 & Htry & Hrun).
  injection Hrun as <- <- <- <- <-. cbn [fst snd].
  unfold try_except in Htry.
  match type of Htry with (match ?m w with _ => _ end) = _ =>
    destruct (m w) as [[[ws'' N'']|e] w3] eqn:Hbody end.
  - injection Htry as <- <- <-.
    apply bind_Ok in Hbody as (first & w4 & Hfirst & Hbody).
    destruct items as [|v items]; [discriminate|]. injection Hfirst as <- <-.
    apply bind_Ok in Hbody as (u & w4 & Hsub & Hbody).
    pose proof (unchanged_subscript0 _ _ _ _ Hsub) as Hw. red in Hw. subst w4.
    cbn [bind get_heap] in Hbody. unfold np_column_stack in Hbody.
    rewrite Hrows in Hbody.
    assert (Hlen : length cols = length (v :: items)).
    { clear -Hrows. revert cols Hrows.
      induction (v :: items) as [|a rest IH]; intros cols; cbn [rows_of].
      - now intros [= <-].
      - destruct (row_of (heap w) a); [|discriminate].
        destruct (rows_of (heap w) rest) as [rs|]; [|discriminate].
        intros [= <-]. cbn [length]. f_equal. now apply IH. }
    destruct cols as [|c cs]; [discriminate|].
    destruct (all_length (length c) cs) eqn:Hall; [|discriminate].
    cbn [bind alloc ret] in Hbody. injection Hbody as <- <- <-.
    eexists _, _. split; [reflexivity|]. split; [reflexivity|].
    cbn [nth]. split; [reflexivity|]. cbn [heap]. split; [apply lookup_new|].
    assert (Hrows' : Forall (fun r => length r = length c) (c :: cs)).
    { constructor; [reflexivity | now apply all_length_Forall]. }
    intros j cj Hj. split.
    + rewrite Forall_forall in Hrows'. apply Hrows', list_elem_of_lookup. eauto.
    + cbn [length] in Hlen |- *. injection Hlen as Hlen. rewrite <- Hlen.
      exact (column_of_stack (c :: cs) (length c) j cj Hrows' Hj).
  - destruct e; try discriminate.
    exfalso. apply bind_inv in Hbody as [(first & w4 & Hfirst & Hbody) | (e & Hfirst & [= He])].
    + destruct items as [|v items]; [discriminate|]. injection Hfirst as <- <-.
      apply bind_inv in Hbody as [(u & w5 & Hsub & Hbody) | (e & Hsub & [= He])].
      * pose proof (unchanged_subscript0 _ _ _ _ Hsub) as Hw. red in Hw. subst w5.
        cbn [bind get_heap] in Hbody.
        destruct (np_column_stack (heap w) (v :: items)) as [[shape data]|];
          discriminate.
      * subst e. cbn [rows_of] in Hrows.
        now rewrite (subscript0_TypeError _ _ _ Hsub) in Hrows.
    + subst e. destruct items; discriminate.
Qed.

(** ** Validation comes before the collaborators *)

(** X14. A projection parameter the broadcaster rejects ends the call in
    the broadcaster's error, and no collaborator was called by then:
    neither a projection law nor the spline. *)
Theorem rejected_parameter_stops_before_any_call
    ws perf mh r a hh loss w ws1 isNumpy isSeries N w1 perf' w2 e w3 :
  normalize ws w = (Ok (ws1, isNumpy, isSeries, N), w1) ->
  setPerformance perf w1 = (Ok perf', w2) ->
  mh <> PyNone -> hh <> PyNone ->
  fixVals N isNumpy ws1 mh hh r a w2 = (Raise e, w3) ->
  simulateTurbine ws perf mh r a hh loss w = (Raise e, w3) /\
  calls w3 = calls w.
Proof.
  intros Hn Hp Hmh Hhh Hfix. split.
  - apply simulateTurbine_hub_fails.
    rewrite (toHubHeight_run _ _ _ _ _ _ _ _ _ _ _ _ _ _ Hn Hp). apply bind_fail.
    rewrite (project_run _ _ _ _ _ _ _ _ Hmh Hhh). now apply bind_fail.
  - rewrite (silent_calls _ _ _ _ (silent_fixVals _ _ _ _ _ _ _) Hfix).
    rewrite (silent_calls _ _ _ _ (silent_setPerformance _) Hp).
    exact (silent_calls _ _ _ _ (silent_normalize _) Hn).
Qed.

(** ** The bounds of the clean-up and the order of the curve *)

Lemma fold_left_Qmax_spec (l : list Q) (a : Q) :
  (a <= fold_left Qmax l a)%Q /\
  (forall x, In x l -> (x <= fold_left Qmax l a)%Q) /\
  ((fold_left Qmax l a == a)%Q \/ exists x, In x l /\ (fold_left Qmax l a == x)%Q).
Proof.
  revert a. induction l as [|b l IH]; intros a; cbn [fold_left].
  - split; [apply Qle_refl|]. split; [intros x []|]. left. reflexivity.
  - destruct (IH (Qmax a b)) as (Hge & Hall & Hin). split; [|split].
    + eapply Qle_trans; [apply Q.le_max_l | exact Hge].
    + intros x [<- | Hx]; [|now apply Hall].
      eapply Qle_trans; [apply Q.le_max_r | exact Hge].
    + destruct Hin as [Heq | (x & Hx & Heq)].
      * destruct (Q.max_spec a b) as [[_ Hm] | [_ Hm]].
        -- right. exists b. split; [now left|]. now rewrite Heq.
        -- left. now rewrite Heq.
      * right. exists x. split; [now right | exact Heq].
Qed.

Lemma fold_left_Qmin_spec (l : list Q) (a : Q) :
  (fold_left Qmin l a <= a)%Q /\
  (forall x, In x l -> (fold_left Qmin l a <= x)%Q) /\
  ((fold_left Qmin l a == a)%Q \/ exists x, In x l /\ (fold_left Qmin l a == x)%Q).
Proof.
  revert a. induction l as [|b l IH]; intros a; cbn [fold_left].
  - split; [apply Qle_refl|]. split; [intros x []|]. left. reflexivity.
  - destruct (IH (Qmin a b)) as (Hge & Hall & Hin). split; [|split].
    + eapply Qle_trans; [exact Hge | apply Q.le_min_l].
    + intros x [<- | Hx]; [|now apply Hall].
      eapply Qle_trans; [exact Hge | apply Q.le_min_r].
    + destruct Hin as [Heq | (x & Hx & Heq)].
      * destruct (Q.min_spec a b) as [[_ Hm] | [_ Hm]].
        -- left. now rewrite Heq.
        -- right. exists b. split; [now left|]. now rewrite Heq.
      * right. exists x. split; [now right | exact Heq].
Qed.

(** The largest element: one of the list, and at least every other. *)
Lemma Qlist_max_bound (l : list Q) m :
  Qlist_max l = Some m ->
  (forall x, In x l -> (x <= m)%Q) /\ exists x, In x l /\ (m == x)%Q.
Proof.
  destruct l as [|a l]; [discriminate|]. intros [= <-].
  destruct (fold_left_Qmax_spec l a) as (Hge & Hall & Hin). split.
  - intros x [<- | Hx]; [exact Hge | now apply Hall].
  - destruct Hin as [Heq | (x & Hx & Heq)].
    + exists a. split; [now left | exact Heq].
    + exists x. split; [now right | exact Heq].
Qed.

Lemma Qlist_min_bound (l : list Q) m :
  Qlist_min l = Some m ->
  (forall x, In x l -> (m <= x)%Q) /\ exists x, In x l /\ (m == x)%Q.
Proof.
  destruct l as [|a l]; [discriminate|]. intros [= <-].
  destruct (fold_left_Qmin_spec l a) as (Hge & Hall & Hin). split.
  - intros x [<- | Hx]; [exact Hge | now apply Hall].
  - destruct Hin as [Heq | (x & Hx & Heq)].
    + exists a. split; [now left | exact Heq].
    + exists x. split; [now right | exact Heq].
Qed.

Lemma Qlist_max_Permutation (l l' : list Q) m m' :
  Permutation l l' -> Qlist_max l = Some m -> Qlist_max l' = Some m' -> (m == m')%Q.
Proof.
  intros Hperm Hm Hm'.
  destruct (Qlist_max_bound _ _ Hm) as (Hall & x & Hx & Heq).
  destruct (Qlist_max_bound _ _ Hm') as (Hall' & x' & Hx' & Heq').
  apply Qle_antisym.
  - rewrite Heq. apply Hall'. exact (Permutation_in _ Hperm Hx).
  - rewrite Heq'. apply Hall. exact (Permutation_in _ (Permutation_sym Hperm) Hx').
Qed.

Lemma Qlist_min_Permutation (l l' : list Q) m m' :
  Permutation l l' -> Qlist_min l = Some m -> Qlist_min l' = Some m' -> (m == m')%Q.
Proof.
  intros Hperm Hm Hm'.
  destruct (Qlist_min_bound _ _ Hm) as (Hall & x & Hx & Heq).
  destruct (Qlist_min_bound _ _ Hm') as (Hall' & x' & Hx' & Heq').
  apply Qle_antisym.
  - rewrite Heq'. apply Hall. exact (Permutation_in _ (Permutation_sym Hperm) Hx').
  - rewrite Heq. apply Hall'. exact (Permutation_in _ Hperm Hx).
Qed.

(** X15. The three bounds of the clean-up do not depend on the order in
    which the caller lists the pairs of the curve: two curves with the same
    pairs in any order give the same rated power, cut-in and cut-out, each
    read with [max] or [min] from the curve as given. *)
Theorem clean_up_bounds_ignore_row_order (pairs pairs' : list (Q * Q)) l w l' v :
  pairs <> [] -> Permutation pairs pairs' ->
  heap w !! l = Some (PyList (curve_items pairs)) ->
  heap v !! l' = Some (PyList (curve_items pairs')) ->
  exists perf w1 perf' v1 x y x' y',
    setPerformance (PyRef l) w = (Ok perf, w1) /\
    performance_columns perf w1 = (Ok (x, y), w1) /\
    setPerformance (PyRef l') v = (Ok perf', v1) /\
    performance_columns perf' v1 = (Ok (x', y'), v1) /\
    exists maxPower cutin cutout maxPower' cutin' cutout',
      Qlist_max y = Some maxPower /\ Qlist_min x = Some cutin /\
      Qlist_max x = Some cutout /\
      Qlist_max y' = Some maxPower' /\ Qlist_min x' = Some cutin' /\
      Qlist_max x' = Some cutout' /\
      (maxPower == maxPower')%Q /\ (cutin == cutin')%Q /\ (cutout == cutout')%Q.
Proof.
  intros Hne Hperm Hl Hl'.
  assert (Hne' : pairs' <> []).
  { intros ->. apply Permutation_nil_r in Hperm. contradiction. }
  destruct (curve_is_kept_in_given_order _ _ _ Hne Hl) as (perf & w1 & Hp & Hpc).
  destruct (curve_is_kept_in_given_order _ _ _ Hne' Hl') as (perf' & v1 & Hp' & Hpc').
  exists perf, w1, perf', v1, (map fst pairs), (map snd pairs),
         (map fst pairs'), (map snd pairs').
  repeat (split; [assumption|]).
  assert (Hx : map fst pairs <> []) by now destruct pairs.
  assert (Hy : map snd pairs <> []) by now destruct pairs.
  assert (Hx' : map fst pairs' <> []) by now destruct pairs'.
  assert (Hy' : map snd pairs' <> []) by now destruct pairs'.
  destruct (Qlist_max_Some _ Hy) as (maxPower & Hmax).
  destruct (Qlist_min_Some _ Hx) as (cutin & Hmin).
  destruct (Qlist_max_Some _ Hx) as (cutout & Hout).
  destruct (Qlist_max_Some _ Hy') as (maxPower' & Hmax').
  destruct (Qlist_min_Some _ Hx') as (cutin' & Hmin').
  destruct (Qlist_max_Some _ Hx') as (cutout' & Hout').
  exists maxPower, cutin, cutout, maxPower', cutin', cutout'.
  repeat (split; [assumption|]).
  split; [|split].
  - exact (Qlist_max_Permutation _ _ _ _ (Permutation_map snd Hperm) Hmax Hmax').
  - exact (Qlist_min_Permutation _ _ _ _ (Permutation_map fst Hperm) Hmin Hmin').
  - exact (Qlist_max_Permutation _ _ _ _ (Permutation_map fst Hperm) Hout Hout').
Qed.

End More.

(** * More properties at concrete inputs *)

(** The flat list 1, 8, 12, 30 on the curve of the catalog, without
    losses. *)
Lemma production_in_closed_form_witness :
  (flat_hub = (Ok (PyRef 2, PyRef 0, true, false, 1), snd flat_hub) /\
   flat_call = (Ok (PyRef 3, PyFloat (4524 # 12000)), snd flat_call)) /\
  exists x y shape hub maxPower cutin cutout,
    performance_columns (PyRef 0) (snd flat_hub) = (Ok (x, y), snd flat_hub) /\
    values_of true (PyRef 2) (snd flat_hub) = (Ok (shape, hub), snd flat_hub) /\
    Qlist_max y = Some maxPower /\ Qlist_min x = Some cutin /\ Qlist_max x = Some cutout /\
    production_values (heap (snd flat_call)) (PyRef 3)
      = Some (map (fun v => clean maxPower cutin cutout v
                              (@splev linear_collaborators v
                                 (@splrep linear_collaborators x y) * (1 - 0))%Q) hub).
Proof.
  assert (Hhub : flat_hub = (Ok (PyRef 2, PyRef 0, true, false, 1), snd flat_hub))
    by (vm_compute; reflexivity).
  assert (Hcall : flat_call = (Ok (PyRef 3, PyFloat (4524 # 12000)), snd flat_call))
    by (vm_compute; reflexivity).
  split; [now split|].
  exact (production_in_closed_form (H := linear_collaborators)
           _ _ _ _ _ _ _ _ _ _ _ _ _ _ _ _ _ Hhub Hcall).
Defined.

(** The frame of three series, projected from 10 m to 20 m. *)
Lemma production_within_bounds_witness :
  (frame_hub = (Ok (PyRef 2, PyRef 0, false, false, 3), snd frame_hub) /\
   frame_call = (Ok (PyRef 4, PyRef 5), snd frame_call)) /\
  exists x y maxPower production,
    performance_columns (PyRef 0) (snd frame_hub) = (Ok (x, y), snd frame_hub) /\
    Qlist_max y = Some maxPower /\
    production_values (heap (snd frame_call)) (PyRef 4) = Some production /\
    ((0 <= maxPower)%Q -> Forall (within maxPower) production).
Proof.
  assert (Hhub : frame_hub = (Ok (PyRef 2, PyRef 0, false, false, 3), snd frame_hub))
    by (vm_compute; reflexivity).
  assert (Hcall : frame_call = (Ok (PyRef 4, PyRef 5), snd frame_call))
    by (vm_compute; reflexivity).
  split; [now split|].
  exact (production_within_bounds (H := linear_collaborators)
           _ _ _ _ _ _ _ _ _ _ _ _ _ _ _ _ _ Hhub Hcall).
Defined.

Lemma capacity_factor_within_unit_interval_witness :
  (frame_hub = (Ok (PyRef 2, PyRef 0, false, false, 3), snd frame_hub) /\
   frame_call = (Ok (PyRef 4, PyRef 5), snd frame_call)) /\
  exists x y maxPower series factors,
    performance_columns (PyRef 0) (snd frame_hub) = (Ok (x, y), snd frame_hub) /\
    Qlist_max y = Some maxPower /\
    production_series (heap (snd frame_call)) (PyRef 4) = Some series /\
    capacity_factors (heap (snd frame_call)) (PyRef 5) = Some factors /\
    length factors = length series /\
    ((0 < maxPower)%Q ->
     forall i s c, series !! i = Some s -> s <> [] -> factors !! i = Some c ->
                   within 1 c).
Proof.
  assert (Hhub : frame_hub = (Ok (PyRef 2, PyRef 0, false, false, 3), snd frame_hub))
    by (vm_compute; reflexivity).
  assert (Hcall : frame_call = (Ok (PyRef 4, PyRef 5), snd frame_call))
    by (vm_compute; reflexivity).
  split; [now split|].
  exact (capacity_factor_within_unit_interval (H := linear_collaborators)
           _ _ _ _ _ _ _ _ _ _ _ _ _ _ _ _ _ Hhub Hcall).
Defined.

(** [simulateTurbine([1., 8., 12., 30.], performance='Vestas_V90')] *)
Lemma unknown_turbine_raises_KeyError_witness :
  (flat_normalized = (Ok (PyRef 2, true, false, 1), snd flat_normalized) /\
   TurbineLibrary flat_world !! "Vestas_V90"%string = None) /\
  @simulateTurbine linear_collaborators (PyRef 1) (PyStr "Vestas_V90")
      PyNone PyNone PyNone PyNone (8 # 100)%Q flat_world
    = (Raise KeyError, snd flat_normalized).
Proof.
  assert (Hn : flat_normalized = (Ok (PyRef 2, true, false, 1), snd flat_normalized))
    by (vm_compute; reflexivity).
  assert (Hname : TurbineLibrary flat_world !! "Vestas_V90"%string = None)
    by (vm_compute; reflexivity).
  split; [now split|].
  exact (unknown_turbine_raises_KeyError (H := linear_collaborators)
           _ _ _ _ _ _ _ _ _ _ _ _ _ Hn Hname).
Defined.

(** [simulateTurbine([1., 8.], performance=[3., 45.])] *)
Lemma curve_without_columns_raises_IndexError_witness :
  (heap flat_curve_world !! 2%nat = Some (PyList [PyFloat 3; PyFloat 45]) /\
   nums_of [PyFloat 3; PyFloat 45] = Some [3; 45]%Q /\
   flat_curve_hub = (Ok (PyRef 3, PyRef 4, true, false, 1), snd flat_curve_hub)) /\
  @simulateTurbine linear_collaborators (PyRef 1) (PyRef 2)
      PyNone PyNone PyNone PyNone (8 # 100)%Q flat_curve_world
    = (Raise IndexError, snd flat_curve_hub).
Proof.
  assert (Hl : heap flat_curve_world !! 2%nat = Some (PyList [PyFloat 3; PyFloat 45]))
    by reflexivity.
  assert (Hxs : nums_of [PyFloat 3; PyFloat 45] = Some [3; 45]%Q) by reflexivity.
  assert (Hhub : flat_curve_hub
                 = (Ok (PyRef 3, PyRef 4, true, false, 1), snd flat_curve_hub))
    by (vm_compute; reflexivity).
  split; [auto|].
  exact (curve_without_columns_raises_IndexError (H := linear_collaborators)
           _ _ _ _ _ _ _ _ _ _ _ _ _ _ _ _ Hl Hxs Hhub).
Defined.

(** [simulateTurbine([])] *)
Lemma empty_windspeed_raises_IndexError_witness :
  heap empty_world !! 1%nat = Some (PyList []) /\
  @simulateTurbine linear_collaborators (PyRef 1) (PyStr "Enercon_E115")
      PyNone PyNone PyNone PyNone (8 # 100)%Q empty_world
    = (Raise IndexError, empty_world).
Proof.
  assert (Hl : heap empty_world !! 1%nat = Some (PyList [])) by reflexivity.
  split; [exact Hl|].
  exact (empty_windspeed_raises_IndexError (H := linear_collaborators)
           _ _ _ _ _ _ _ _ Hl).
Defined.

(** [simulateTurbine([1., 8., 12., 30.], measuredHeight=10, hubHeight=100,
    alpha=0.14)] up to the wind speeds at hub height. *)
Lemma alpha_alone_selects_power_law_witness :
  (flat_normalized = (Ok (PyRef 2, true, false, 1), snd flat_normalized) /\
   flat_resolved = (Ok (PyRef 0), snd flat_resolved) /\
   PyInt 10 <> PyNone /\ PyInt 100 <> PyNone /\ PyFloat (14 # 100) <> PyNone /\
   flat_fixed_alpha = (Ok (PyFloat 10, PyFloat 100, PyNone, PyFloat (14 # 100)),
                       snd flat_fixed_alpha)) /\
  @toHubHeight linear_collaborators (PyRef 1) (PyStr "Enercon_E115")
      (PyInt 10) PyNone (PyFloat (14 # 100)) (PyInt 100) flat_world
    = (Ok (PyRef (length (heap (snd flat_fixed_alpha))), PyRef 0, true, false, 1),
       projected (snd flat_fixed_alpha)
         (linear_projection (heap (snd flat_fixed_alpha))
            (PyRef 2) (PyFloat 10) (PyFloat 100) (PyFloat (14 # 100)))
         (CallProjectByPowerLaw (PyRef 2) (PyFloat 10) (PyFloat 100) (PyFloat (14 # 100)))) /\
  calls (snd flat_fixed_alpha) = calls flat_world.
Proof.
  assert (Hn : flat_normalized = (Ok (PyRef 2, true, false, 1), snd flat_normalized))
    by (vm_compute; reflexivity).
  assert (Hp : flat_resolved = (Ok (PyRef 0), snd flat_resolved))
    by (vm_compute; reflexivity).
  assert (Hmh : PyInt 10 <> PyNone) by discriminate.
  assert (Hhh : PyInt 100 <> PyNone) by discriminate.
  assert (Ha : PyFloat (14 # 100) <> PyNone) by discriminate.
  assert (Hfix : flat_fixed_alpha
                 = (Ok (PyFloat 10, PyFloat 100, PyNone, PyFloat (14 # 100)),
                    snd flat_fixed_alpha))
    by (vm_compute; reflexivity).
  split; [auto 10|].
  exact (alpha_alone_selects_power_law (H := linear_collaborators)
           _ _ _ _ _ _ _ _ _ _ _ _ _ _ _ _ _ _ Hn Hp Hmh Hhh Ha Hfix).
Defined.

(** The frame, projected by the power law: three calls in all. *)
Lemma collaborators_are_called_once_witness :
  (frame_hub = (Ok (PyRef 2, PyRef 0, false, false, 3), snd frame_hub) /\
   frame_call = (Ok (PyRef 4, PyRef 5), snd frame_call)) /\
  exists ps x y shape hub,
    performance_columns (PyRef 0) (snd frame_hub) = (Ok (x, y), snd frame_hub) /\
    values_of false (PyRef 2) (snd frame_hub) = (Ok (shape, hub), snd frame_hub) /\
    calls (snd frame_call) = calls frame_world ++ ps ++ [CallSplrep x y; CallSplev hub] /\
    if all_None (PyFloat 10) PyNone (PyFloat (14 # 100)) (PyFloat 20) then ps = []
    else exists c, is_projection_call c /\ ps = [c].
Proof.
  assert (Hhub : frame_hub = (Ok (PyRef 2, PyRef 0, false, false, 3), snd frame_hub))
    by (vm_compute; reflexivity).
  assert (Hcall : frame_call = (Ok (PyRef 4, PyRef 5), snd frame_call))
    by (vm_compute; reflexivity).
  split; [now split|].
  exact (collaborators_are_called_once (H := linear_collaborators)
           _ _ _ _ _ _ _ _ _ _ _ _ _ _ _ _ _ Hhub Hcall).
Defined.

Lemma results_are_new_objects_witness :
  frame_call = (Ok (PyRef 4, PyRef 5), snd frame_call) /\
  exists q, PyRef 4 = PyRef q /\
    length (heap frame_world) <= q < length (heap (snd frame_call)) /\
    ((exists x, PyRef 5 = PyFloat x) \/
     (exists c, PyRef 5 = PyRef c /\ c <> q /\
                length (heap frame_world) <= c < length (heap (snd frame_call)))).
Proof.
  assert (Hcall : frame_call = (Ok (PyRef 4, PyRef 5), snd frame_call))
    by (vm_compute; reflexivity).
  split; [exact Hcall|].
  exact (results_are_new_objects (H := linear_collaborators)
           _ _ _ _ _ _ _ _ _ _ _ Hcall).
Defined.

(** The capacity factor of the frame is a series over its columns. *)
Lemma capacity_factor_drops_time_axis_witness :
  frame_call = (Ok (PyRef 4, PyRef 5), snd frame_call) /\
  exists q o lay,
    PyRef 4 = PyRef q /\ heap (snd frame_call) !! q = Some o /\ layout_of o = Some lay /\
    match reduced lay with
    | None => exists x, PyRef 5 = PyFloat x
    | Some lay' =>
        exists c oc, PyRef 5 = PyRef c /\ heap (snd frame_call) !! c = Some oc /\
                     layout_of oc = Some lay' /\ unnamed oc
    end.
Proof.
  assert (Hcall : frame_call = (Ok (PyRef 4, PyRef 5), snd frame_call))
    by (vm_compute; reflexivity).
  split; [exact Hcall|].
  exact (capacity_factor_drops_time_axis (H := linear_collaborators)
           _ _ _ _ _ _ _ _ _ _ _ Hcall).
Defined.

(** A frame of one column and three rows, for the frame of three series:
    [hubHeight=pd.DataFrame({'height': [10., 20., 30.]}, index=['a','b','c'])]. *)
Lemma fixVal_gives_one_entry_per_series_witness :
  column_fixed = (Ok (PyRef 6), snd column_fixed) /\
  ((PyRef 3 = PyNone /\ PyRef 6 = PyNone) \/
   (exists x, num_of (PyRef 3) = Some x /\ PyRef 6 = PyFloat x) \/
   (exists l o, PyRef 6 = PyRef l /\ heap (snd column_fixed) !! l = Some o /\
      first_axis o = Some 3%nat /\
      (false = true -> exists shape data, o = Ndarray shape data))).
Proof.
  assert (Hrun : column_fixed = (Ok (PyRef 6), snd column_fixed))
    by (vm_compute; reflexivity).
  split; [exact Hrun|].
  exact (fixVal_gives_one_entry_per_series _ _ _ _ _ _ _ _ Hrun).
Defined.

(** [measuredHeight=[10, 20., 30]] for the frame of three series. *)
Lemma fixVal_accepts_its_result_witness :
  (flat_parameter (heap parameter_world) (PyRef 2) /\
   list_fixed = (Ok (PyRef 6), snd list_fixed)) /\
  fixVal 3 false (PyRef 1) (PyRef 6) "measuredHeight" (snd list_fixed)
    = (Ok (PyRef 6), snd list_fixed).
Proof.
  assert (Hflat : flat_parameter (heap parameter_world) (PyRef 2)).
  { intros l items [= <-] Hl. vm_compute in Hl. injection Hl as <-.
    eexists. reflexivity. }
  assert (Hrun : list_fixed = (Ok (PyRef 6), snd list_fixed))
    by (vm_compute; reflexivity).
  split; [now split|].
  exact (fixVal_accepts_its_result _ _ _ _ _ _ _ _ Hflat Hrun).
Defined.

(** [[[1., 8., 12.], [20., 5., 6.]]]: two series of three time steps. *)
Lemma nested_lists_are_stacked_as_columns_witness :
  (heap nested_world !! 1%nat = Some (PyList [PyRef 2; PyRef 3]) /\
   rows_of (heap nested_world) [PyRef 2; PyRef 3] = Some [[1; 8; 12]; [20; 5; 6]]%Q /\
   nested_normalized = (Ok (PyRef 4, true, false, 2), snd nested_normalized)) /\
  exists m data,
    PyRef 4 = PyRef (length (heap nested_world)) /\ true = true /\
    2%nat = length [PyRef 2; PyRef 3] /\
    heap (snd nested_normalized) !! length (heap nested_world)
      = Some (Ndarray [m; 2%nat] data) /\
    forall j c, [[1; 8; 12]; [20; 5; 6]]%Q !! j = Some c ->
                length c = m /\ column m 2 j data = c.
Proof.
  assert (Hl : heap nested_world !! 1%nat = Some (PyList [PyRef 2; PyRef 3]))
    by reflexivity.
  assert (Hrows : rows_of (heap nested_world) [PyRef 2; PyRef 3]
                  = Some [[1; 8; 12]; [20; 5; 6]]%Q)
    by reflexivity.
  assert (Hn : nested_normalized = (Ok (PyRef 4, true, false, 2), snd nested_normalized))
    by (vm_compute; reflexivity).
  split; [auto|].
  exact (nested_lists_are_stacked_as_columns _ _ _ _ _ _ _ _ _ Hl Hrows Hn).
Defined.

(** [simulateTurbine(frame, measuredHeight=[10, 20.], roughness=0.1,
    hubHeight=100.)] for the frame of three series. *)
Lemma rejected_parameter_stops_before_any_call_witness :
  (normalize (PyRef 1) parameter_world = (Ok (PyRef 1, false, false, 3%nat), parameter_world) /\
   setPerformance (PyStr "Enercon_E115") parameter_world = (Ok (PyRef 0), parameter_world) /\
   PyRef 5 <> PyNone /\ PyFloat 100 <> PyNone /\
   short_fixed = (Raise (bad_length "measuredHeight"), parameter_world)) /\
  @simulateTurbine linear_collaborators (PyRef 1) (PyStr "Enercon_E115")
      (PyRef 5) (PyFloat (1 # 10)) PyNone (PyFloat 100) (8 # 100)%Q parameter_world
    = (Raise (bad_length "measuredHeight"), parameter_world) /\
  calls parameter_world = calls parameter_world.
Proof.
  assert (Hn : normalize (PyRef 1) parameter_world
               = (Ok (PyRef 1, false, false, 3%nat), parameter_world))
    by (vm_compute; reflexivity).
  assert (Hp : setPerformance (PyStr "Enercon_E115") parameter_world
               = (Ok (PyRef 0), parameter_world))
    by (vm_compute; reflexivity).
  assert (Hmh : PyRef 5 <> PyNone) by discriminate.
  assert (Hhh : PyFloat 100 <> PyNone) by discriminate.
  assert (Hfix : short_fixed = (Raise (bad_length "measuredHeight"), parameter_world))
    by (vm_compute; reflexivity).
  split; [auto 10|].
  exact (rejected_parameter_stops_before_any_call (H := linear_collaborators)
           _ _ _ _ _ _ _ _ _ _ _ _ _ _ _ _ _ Hn Hp Hmh Hhh Hfix).
Defined.

(** The curve [(3, 45), (0, 0), (12, 3000), (25, 3000)] and the same pairs
    in ascending order. *)
Lemma clean_up_bounds_ignore_row_order_witness :
  (unsorted_pairs <> [] /\ Permutation unsorted_pairs sorted_pairs /\
   heap unsorted_world !! 2%nat = Some (PyList (curve_items unsorted_pairs)) /\
   heap sorted_world !! 2%nat = Some (PyList (curve_items sorted_pairs))) /\
  exists perf w1 perf' v1 x y x' y',
    setPerformance (PyRef 2) unsorted_world = (Ok perf, w1) /\
    performance_columns perf w1 = (Ok (x, y), w1) /\
    setPerformance (PyRef 2) sorted_world = (Ok perf', v1) /\
    performance_columns perf' v1 = (Ok (x', y'), v1) /\
    exists maxPower cutin cutout maxPower' cutin' cutout',
      Qlist_max y = Some maxPower /\ Qlist_min x = Some cutin /\
      Qlist_max x = Some cutout /\
      Qlist_max y' = Some maxPower' /\ Qlist_min x' = Some cutin' /\
      Qlist_max x' = Some cutout' /\
      (maxPower == maxPower')%Q /\ (cutin == cutin')%Q /\ (cutout == cutout')%Q.
Proof.
  assert (Hne : unsorted_pairs <> []) by discriminate.
  assert (Hperm : Permutation unsorted_pairs sorted_pairs) by apply perm_swap.
  assert (Hl : heap unsorted_world !! 2%nat = Some (PyList (curve_items unsorted_pairs)))
    by reflexivity.
  assert (Hl' : heap sorted_world !! 2%nat = Some (PyList (curve_items sorted_pairs)))
    by reflexivity.
  split; [auto|].
  exact (clean_up_bounds_ignore_row_order _ _ _ _ _ _ Hne Hperm Hl Hl').
Defined.
